(** * Favicon downloader (download_ico.py): a shallow embedding and its properties

    The script reads a site directory, derives one download task per HTTP
    entry, locates each site's favicon (first [/favicon.ico], then the
    [<link rel=...>] hints of the home page), converts PNG payloads to ICO
    and writes one file per task, counting successes and failures.

    The embedding follows the Python text function by function.  What the
    script gets from its libraries (urllib.parse, httpx, BeautifulSoup,
    Pillow, the file system) is an interface: a type class per library,
    whose operations return [Raise e] where the Python call raises.  The
    network and the output directory are an explicit [World] threaded
    through a state-and-exception monad.

    Printing is not modelled: standard output is taken to accept what the
    script prints.  The download and the batch are given twice: under the
    source's names for a file system on which [filepath.exists()] answers
    and a write to an open file goes through, and in module [Fs] with what
    these two calls raise. *)

From Stdlib Require Import String Ascii ZArith List Lia Bool.
From stdpp Require Import base option list gmap strings.

Open Scope string_scope.
Open Scope list_scope.
Open Scope stdpp_scope.

(** ** Python strings *)

Module Py.

(** [s.startswith(p)] *)
Definition startswith (s p : string) : bool := String.prefix p s.

(** [sub in s]: [sub] occurs in [s] as a contiguous substring. *)
Fixpoint str_in (sub s : string) : bool :=
  String.prefix sub s ||
  match s with
  | EmptyString => false
  | String _ s' => str_in sub s'
  end.

(** [any(t in s for t in types)] *)
Definition any_in (types : list string) (s : string) : bool :=
  existsb (fun t => str_in t s) types.

(** Put a character in front of the first piece of a split. *)
Definition cons_head (c : ascii) (pieces : list string) : list string :=
  match pieces with
  | [] => [String c EmptyString]
  | p :: ps => String c p :: ps
  end.

(** [s.split(sep)] for a non-empty [sep]: a scan from the left; where [sep]
    is found the piece ends and the scan resumes after the separator, so
    occurrences never overlap.  [skip] counts the characters of a found
    separator still to pass over.  (Python raises on an empty [sep]; the
    script only splits on a constant.) *)
Fixpoint split_go (sep : string) (skip : nat) (s : string) : list string :=
  match s with
  | EmptyString => [EmptyString]
  | String c s' =>
      match skip with
      | S k => split_go sep k s'
      | O =>
          if String.prefix sep s
          then EmptyString :: split_go sep (String.length sep - 1) s'
          else cons_head c (split_go sep 0 s')
      end
  end.

Definition split (s sep : string) : list string := split_go sep 0 s.

(** [sep.join(pieces)] *)
Fixpoint join (sep : string) (pieces : list string) : string :=
  match pieces with
  | [] => EmptyString
  | [p] => p
  | p :: rest => p +:+ sep +:+ join sep rest
  end.

(** [s[n:]] *)
Fixpoint drop (n : nat) (s : string) : string :=
  match n, s with
  | S k, String _ s' => drop k s'
  | _, _ => s
  end.

(** [pieces[-1]] of a list that [split] returned (never empty). *)
Definition last_item (pieces : list string) : string := List.last pieces EmptyString.

(** Truth value of an [Optional[str]]: [None] and the empty string are false. *)
Definition truthy (o : option string) : bool :=
  match o with
  | Some (String _ _) => true
  | _ => false
  end.

(** Truth value of a [bytes] object. *)
Definition truthy_bytes (b : list Byte.byte) : bool :=
  match b with
  | [] => false
  | _ :: _ => true
  end.

End Py.

(** ** Exceptions and results *)

(** The exception classes the script can meet.  Only the difference between
    [httpx.RequestError] and the rest matters to its handlers. *)
Inductive exn : Type :=
  | RequestError      (* httpx.RequestError: transport faults, timeouts *)
  | HTTPStatusError   (* raised by raise_for_status; not a RequestError *)
  | InvalidURL        (* httpx.InvalidURL; not a RequestError *)
  | ValueError        (* urllib.parse on a malformed authority *)
  | OSError           (* open, os.stat, Image.open *)
  | OtherException.   (* any other subclass of Exception *)

Definition is_RequestError (e : exn) : bool :=
  match e with
  | RequestError => true
  | _ => false
  end.

Inductive result (A : Type) : Type :=
  | Ok (a : A)
  | Raise (e : exn).
Arguments Ok {A} a.
Arguments Raise {A} e.

#[global] Instance result_ret : MRet result := fun A a => Ok a.
#[global] Instance result_bind : MBind result := fun A B f r =>
  match r with
  | Ok a => f a
  | Raise e => Raise e
  end.

(** ** Data *)

(** The dataset document: [data.get("categories", [])],
    [category.get("sites", [])], [site.get("url", "")], [site.get("name", "")].
    A key may be missing, hence the options; a value that is present has
    the type the script expects (a list, a string). *)
Record Site : Type := { j_name : option string; j_url : option string }.
Record Category : Type := { j_sites : option (list Site) }.
Record Data : Type := { j_categories : option (list Category) }.

(** [d.get(key, dflt)] *)
Definition dict_get {A : Type} (v : option A) (dflt : A) : A :=
  match v with
  | Some a => a
  | None => dflt
  end.

(** One task: the dictionary [get_all_http_icons] appends. *)
Record IconInfo : Type := {
  url : string;
  domain : string;
  filename : string;
  site_name : string;
  site_url : string
}.

(** What the script reads of an [httpx.Response]. *)
Record Response : Type := {
  status_code : Z;
  Content_Type : option string;   (* headers.get("Content-Type") *)
  content : list Byte.byte;
  text : string
}.

(** What the script reads of a [<link>] element: [rel] is a multi-valued
    attribute (a list of tokens), [href] a plain one. *)
Record LinkTag : Type := {
  tag_rel : option (list string);
  tag_href : option string
}.

(** The result of [urlparse], as far as the script reads it. *)
Record ParseResult : Type := { scheme : string; netloc : string }.

(** The world outside the process: every URL passed to [session.get] so
    far, oldest first, and the files of the output directory by name. *)
Record World : Type := {
  requests : list string;
  files : gmap string (list Byte.byte)
}.

(** The world after one more request. *)
Definition add_request (u : string) (w : World) : World :=
  {| requests := requests w ++ [u]; files := files w |}.

(** The world after a file was written. *)
Definition put_file (name : string) (data : list Byte.byte) (w : World) : World :=
  {| requests := requests w; files := <[name := data]> (files w) |}.

(** ** Constants *)

Definition MIN_ICON_SIZE : nat := 100.
Definition ICON_CONTENT_TYPES : list string := ["image/x-icon"; "image/vnd.microsoft.icon"].
Definition PNG_CONTENT_TYPES : list string := ["image/png"].
Definition FAVICON_RELS : list string := ["icon"; "shortcut icon"; "apple-touch-icon"].

(** ** Library interfaces *)

(** urllib.parse *)
Class UrllibParse : Type := {
  urlparse : string -> result ParseResult;
  urljoin : string -> string -> result string
}.

(** The network behind [session.get]: the answer to a request may depend on
    the requests made before it. *)
Class Httpx : Type := {
  respond : list string -> string -> result Response
}.

(** bs4: [BeautifulSoup(text, "html.parser")] and [soup.find("link", rel=...)]. *)
Class Bs4 : Type := {
  Soup : Type;
  BeautifulSoup : string -> result Soup;
  soup_find_link : Soup -> string -> option LinkTag
}.

(** Pillow: [Image.open], [image.mode], [image.convert], [image.save]. *)
Class Pillow : Type := {
  Image : Type;
  Image_open : list Byte.byte -> result Image;
  Image_mode : Image -> string;
  Image_convert : Image -> string -> result Image;
  Image_save : Image -> string -> list (nat * nat) -> result (list Byte.byte)
}.

(** The output directory: can [open(filepath, "wb")] succeed for this name? *)
Class OutputDir : Type := {
  open_wb : string -> bool
}.

(** The file system under the output directory, with its failures.
    [stat_error name]: what [os.stat] raises for this path, other than the
    errors that [Path.exists] answers with [False] (no such file, not a
    directory); [None] where the path can be examined.  Before Python 3.14
    [Path.exists] lets every other [OSError] through: a name longer than
    the file system allows, a directory that may not be searched.
    [write_error name data]: [None] where [f.write(data)] and the closing
    of the file go through; [Some (written, e)] where one of them raises
    [e] with [written] in the file (a full disk, a quota). *)
Class FileSystem : Type := {
  stat_error : string -> option exn;
  write_error : string -> list Byte.byte -> option (list Byte.byte * exn)
}.

(** ** The state-and-exception monad of the script *)

Definition prog (A : Type) : Type := World -> result A * World.

#[global] Instance prog_ret : MRet prog := fun A a w => (Ok a, w).
#[global] Instance prog_bind : MBind prog := fun A B f m w =>
  match m w with
  | (Ok a, w') => f a w'
  | (Raise e, w') => (Raise e, w')
  end.

(** A pure call that may raise. *)
Definition lift {A : Type} (r : result A) : prog A := fun w => (r, w).

(** [try: body / except ...]: [handler e] is the clause that catches [e],
    [None] when no clause does. *)
Definition try_except {A : Type} (body : prog A) (handler : exn -> option (prog A)) : prog A :=
  fun w =>
    match body w with
    | (Ok a, w') => (Ok a, w')
    | (Raise e, w') =>
        match handler e with
        | Some h => h w'
        | None => (Raise e, w')
        end
    end.

(** ** The program *)

Section Program.
Context {urllib : UrllibParse} {httpx : Httpx} {bs4 : Bs4}
        {pillow : Pillow} {outdir : OutputDir}.

(** *** Task list construction *)

(** The task built for one eligible site. *)
Definition make_icon_info (site : Site) (icon_url domain : string) : IconInfo :=
  {| url := icon_url;
     domain := domain;
     filename := domain +:+ ".ico";
     site_name := dict_get (j_name site) "";
     site_url := dict_get (j_url site) "" |}.

(** Lines 76-82: the name stem of a task. *)
Definition icon_domain (site : Site) (icon_url : string) : result string :=
  if Py.str_in "favicon/" icon_url
  then Ok (Py.last_item (Py.split icon_url "/favicon/"))
  else
    parsed ← urlparse (dict_get (j_url site) "");
    Ok (netloc parsed).

(** The inner loop, over the sites of one category. *)
Fixpoint sites_loop (sites : list Site) (http_icons : list IconInfo) : result (list IconInfo) :=
  match sites with
  | [] => Ok http_icons
  | site :: rest =>
      let icon_url := dict_get (j_url site) "" in
      if negb (Py.startswith icon_url "http")
      then sites_loop rest http_icons
      else
        domain ← icon_domain site icon_url;
        sites_loop rest (http_icons ++ [make_icon_info site icon_url domain])
  end.

(** The outer loop, over the categories. *)
Fixpoint categories_loop (cats : list Category) (http_icons : list IconInfo) : result (list IconInfo) :=
  match cats with
  | [] => Ok http_icons
  | category :: rest =>
      http_icons' ← sites_loop (dict_get (j_sites category) []) http_icons;
      categories_loop rest http_icons'
  end.

Definition get_all_http_icons (data : Data) : result (list IconInfo) :=
  categories_loop (dict_get (j_categories data) []) [].

(** *** Format conversion *)

(** The body of the [try] of [convert_png_to_ico]. *)
Definition convert_png_to_ico_body (png_data : list Byte.byte) : result (list Byte.byte) :=
  png_image ← Image_open png_data;
  png_image' ← (if negb (String.eqb (Image_mode png_image) "RGBA")
                then Image_convert png_image "RGBA"
                else Ok png_image);
  Image_save png_image' "ICO" [(32, 32)%nat].

Definition convert_png_to_ico (png_data : list Byte.byte) : list Byte.byte :=
  match convert_png_to_ico_body png_data with
  | Ok ico => ico
  | Raise _ => []
  end.

(** *** Validation *)

(** [response.is_success]: a 2xx status. *)
Definition is_success (response : Response) : bool :=
  ((200 <=? status_code response) && (status_code response <=? 299))%Z.

Definition _is_valid_icon_response (response : Response) : bool :=
  if negb (is_success response) || (List.length (content response) <? MIN_ICON_SIZE)%nat
  then false
  else
    let content_type := dict_get (Content_Type response) "" in
    Py.any_in ICON_CONTENT_TYPES content_type || Py.any_in PNG_CONTENT_TYPES content_type.

(** *** Network *)

(** [session.get(url, ...)]: the request is logged, the network answers. *)
Definition session_get (u : string) : prog Response :=
  fun w => (respond (requests w) u, add_request u w).

(** [resp.raise_for_status()]: raises unless the status is a success, as
    current httpx does. *)
Definition raise_for_status (resp : Response) : prog unit :=
  if is_success resp then mret tt else lift (Raise HTTPStatusError).

(** The clause [except httpx.RequestError: pass], followed by [return None]. *)
Definition except_RequestError_None (e : exn) : option (prog (option string)) :=
  if is_RequestError e then Some (mret None) else None.

(** *** Locating the icon *)

Definition _try_favicon_ico (base_url : string) : prog (option string) :=
  let ico_url := base_url +:+ "/favicon.ico" in
  try_except
    (resp ← session_get ico_url;
     if _is_valid_icon_response resp then mret (Some ico_url) else mret None)
    except_RequestError_None.

(** The [for rel in FAVICON_RELS] loop of [_try_html_favicon]. *)
Fixpoint rels_loop (soup : Soup) (base_url : string) (rels : list string) : prog (option string) :=
  match rels with
  | [] => mret None
  | rel :: rest =>
      match soup_find_link soup rel with
      | Some tag =>
          if Py.truthy (tag_href tag)
          then
            icon_url ← lift (urljoin base_url (dict_get (tag_href tag) ""));
            resp ← session_get icon_url;
            if _is_valid_icon_response resp
            then mret (Some icon_url)
            else rels_loop soup base_url rest
          else rels_loop soup base_url rest
      | None => rels_loop soup base_url rest
      end
  end.

Definition _try_html_favicon (site_url base_url : string) : prog (option string) :=
  try_except
    (html_resp ← session_get site_url;
     soup ← lift (BeautifulSoup (text html_resp));
     rels_loop soup base_url FAVICON_RELS)
    except_RequestError_None.

Definition resolve_favicon_url (site_url : string) : prog (option string) :=
  parsed_url ← lift (urlparse site_url);
  let base_url := scheme parsed_url +:+ "://" +:+ netloc parsed_url in
  icon_url ← _try_favicon_ico base_url;
  if Py.truthy icon_url
  then mret icon_url
  else _try_html_favicon site_url base_url.

(** *** Download *)

(** [filepath.exists()], where it answers: is there a file of this name?
    (What the call raises is in [filepath_exists] below.) *)
Definition path_exists (name : string) (w : World) : bool :=
  match files w !! name with
  | Some _ => true
  | None => false
  end.

(** [with open(filepath, "wb") as f: f.write(icon_data)]: opening may fail;
    on an open file the write is taken to go through (no full disk, no
    I/O error), so the file holds all of [icon_data]. *)
Definition write_file (name : string) (icon_data : list Byte.byte) : prog unit :=
  fun w =>
    if open_wb name
    then (Ok tt, put_file name icon_data w)
    else (Raise OSError, w).

(** The body of the [try] of [download_icon]. *)
Definition download_icon_body (site_url name : string) : prog bool :=
  icon_url ← resolve_favicon_url site_url;
  if negb (Py.truthy icon_url)
  then mret false
  else
    resp ← session_get (dict_get icon_url "");
    _ ← raise_for_status resp;
    let content_type := dict_get (Content_Type resp) "" in
    let icon_data := content resp in
    if Py.any_in PNG_CONTENT_TYPES content_type
    then
      let icon_data' := convert_png_to_ico icon_data in
      if negb (Py.truthy_bytes icon_data')
      then mret false
      else (_ ← write_file name icon_data'; mret true)
    else (_ ← write_file name icon_data; mret true).

(** Both clauses, [except httpx.RequestError] and [except Exception],
    return [False]. *)
Definition except_all_False (e : exn) : option (prog bool) :=
  if is_RequestError e then Some (mret false) else Some (mret false).

(** [download_icon], for a path that [filepath.exists()] can examine. *)
Definition download_icon (icon_info : IconInfo) : prog bool :=
  fun w =>
    let site_url := url icon_info in
    let name := filename icon_info in
    if path_exists name w
    then (Ok true, w)
    else try_except (download_icon_body site_url name) except_all_False w.

(** *** Batch *)

(** The counters of [main]. *)
Record Summary : Type := {
  success_count : nat;
  failed_count : nat;
  failed_urls : list string
}.

Definition summary0 : Summary :=
  {| success_count := 0; failed_count := 0; failed_urls := [] |}.

(** One iteration of the loop of [main] (lines 279-286). *)
Definition main_step (acc : Summary) (icon_info : IconInfo) : prog Summary :=
  ok ← download_icon icon_info;
  if (ok : bool)
  then mret {| success_count := success_count acc + 1;
               failed_count := failed_count acc;
               failed_urls := failed_urls acc |}
  else mret {| success_count := success_count acc;
               failed_count := failed_count acc + 1;
               failed_urls := failed_urls acc ++ [url icon_info] |}.

Fixpoint main_loop (http_icons : list IconInfo) (acc : Summary) : prog Summary :=
  match http_icons with
  | [] => mret acc
  | icon_info :: rest =>
      acc' ← main_step acc icon_info;
      main_loop rest acc'
  end.

(** [main], from the extracted dataset on: [None] where it returns before
    the loop (no data, or no task). *)
Definition main (data : option Data) : prog (option Summary) :=
  match data with
  | None => mret None
  | Some d =>
      http_icons ← lift (get_all_http_icons d);
      match http_icons with
      | [] => mret None
      | _ :: _ => s ← main_loop http_icons summary0; mret (Some s)
      end
  end.

End Program.

(** ** The program on a file system that fails

    [download_icon] above takes two calls to go through:
    [filepath.exists()] of line 184 and, on the open file,
    [f.write(icon_data)] of line 210.  Here both are as the file system
    has them.  The first stands before the [try] of line 190: what it
    raises is caught by no handler of [download_icon], and by none of
    [main].  ([filepath.stat()] of line 212 examines the same path again,
    after the file was written.) *)

Module Fs.

Section Program.
Context {urllib : UrllibParse} {httpx : Httpx} {bs4 : Bs4}
        {pillow : Pillow} {outdir : OutputDir} {fs : FileSystem}.

(** [filepath.exists()] *)
Definition filepath_exists (name : string) : prog bool :=
  fun w =>
    match stat_error name with
    | Some e => (Raise e, w)
    | None => (Ok (path_exists name w), w)
    end.

(** [with open(filepath, "wb") as f: f.write(icon_data)]: opening creates
    the file or empties it; what the write raises leaves [written] in it. *)
Definition write_file (name : string) (icon_data : list Byte.byte) : prog unit :=
  fun w =>
    if open_wb name
    then match write_error name icon_data with
         | None => (Ok tt, put_file name icon_data w)
         | Some (written, e) => (Raise e, put_file name written w)
         end
    else (Raise OSError, w).

(** The body of the [try] of [download_icon]. *)
Definition download_icon_body (site_url name : string) : prog bool :=
  icon_url ← resolve_favicon_url site_url;
  if negb (Py.truthy icon_url)
  then mret false
  else
    resp ← session_get (dict_get icon_url "");
    _ ← raise_for_status resp;
    let content_type := dict_get (Content_Type resp) "" in
    let icon_data := content resp in
    if Py.any_in PNG_CONTENT_TYPES content_type
    then
      let icon_data' := convert_png_to_ico icon_data in
      if negb (Py.truthy_bytes icon_data')
      then mret false
      else (_ ← write_file name icon_data'; mret true)
    else (_ ← write_file name icon_data; mret true).

(** [download_icon] (lines 176-220). *)
Definition download_icon (icon_info : IconInfo) : prog bool :=
  let site_url := url icon_info in
  let name := filename icon_info in
  found ← filepath_exists name;
  if (found : bool)
  then mret true
  else try_except (download_icon_body site_url name) except_all_False.

(** One iteration of the loop of [main] (lines 279-286). *)
Definition main_step (acc : Summary) (icon_info : IconInfo) : prog Summary :=
  ok ← download_icon icon_info;
  if (ok : bool)
  then mret {| success_count := success_count acc + 1;
               failed_count := failed_count acc;
               failed_urls := failed_urls acc |}
  else mret {| success_count := success_count acc;
               failed_count := failed_count acc + 1;
               failed_urls := failed_urls acc ++ [url icon_info] |}.

Fixpoint main_loop (http_icons : list IconInfo) (acc : Summary) : prog Summary :=
  match http_icons with
  | [] => mret acc
  | icon_info :: rest =>
      acc' ← main_step acc icon_info;
      main_loop rest acc'
  end.

(** The value [download_icon] returns for a task in a world. *)
Definition outcome (t : IconInfo) (w : World) : bool :=
  match fst (download_icon t w) with
  | Ok b => b
  | Raise _ => false
  end.

(** The outcomes of the tasks when each is processed, in list order, in the
    world its predecessor left. *)
Fixpoint outcomes (tasks : list IconInfo) (w : World) : list bool :=
  match tasks with
  | [] => []
  | t :: rest => outcome t w :: outcomes rest (snd (download_icon t w))
  end.

(** The world after the tasks were processed one after the other. *)
Definition world_after (tasks : list IconInfo) (w : World) : World :=
  fold_left (fun w t => snd (download_icon t w)) tasks w.

End Program.

End Fs.

(** ** Observations

    What the statements below say about a run: the entries of the dataset,
    the outcome of each task, the world a batch leaves. *)

(** [t] occurs in [s]: the meaning of Python's [t in s]. *)
Definition occurs (t s : string) : Prop := exists pre post, s = pre +:+ t +:+ post.

(** The entries of the dataset, in document order. *)
Definition all_sites (data : Data) : list Site :=
  flat_map (fun category => dict_get (j_sites category) [])
           (dict_get (j_categories data) []).

(** The URL text of an entry. *)
Definition entry_url (site : Site) : string := dict_get (j_url site) "".

(** The test of line 72. *)
Definition eligible (site : Site) : bool := Py.startswith (entry_url site) "http".

(** [m] writes no file. *)
Definition keeps_files {A : Type} (m : prog A) : Prop :=
  forall w, files (snd (m w)) = files w.

(** [m] only adds requests to the log. *)
Definition extends_log {A : Type} (m : prog A) : Prop :=
  forall w, exists l, requests (snd (m w)) = requests w ++ l.

Section Observations.
Context {urllib : UrllibParse} {httpx : Httpx} {bs4 : Bs4}
        {pillow : Pillow} {outdir : OutputDir}.

(** [task] is the task that the loop body builds for [site]. *)
Definition task_of (site : Site) (task : IconInfo) : Prop :=
  exists d, icon_domain site (entry_url site) = Ok d /\
            task = make_icon_info site (entry_url site) d.

(** An absolute http or https URL: [urlparse] finds the scheme [http] or
    [https] and a non-empty authority. *)
Definition absolute_http (u : string) : Prop :=
  exists p, urlparse u = Ok p /\
            (scheme p = "http" \/ scheme p = "https") /\ netloc p <> EmptyString.

(** What the program writes for a confirmed response: the payload itself,
    or its conversion when the declared type contains a PNG type. *)
Definition bytes_to_write (resp : Response) : list Byte.byte :=
  if Py.any_in PNG_CONTENT_TYPES (dict_get (Content_Type resp) "")
  then convert_png_to_ico (content resp)
  else content resp.

(** The steps of [download_icon_body] after the confirming fetch. *)
Definition persist (name : string) (resp : Response) (w : World) : result bool * World :=
  if is_success resp
  then
    if Py.any_in PNG_CONTENT_TYPES (dict_get (Content_Type resp) "") &&
       negb (Py.truthy_bytes (convert_png_to_ico (content resp)))
    then (Ok false, w)
    else if open_wb name
         then (Ok true, put_file name (bytes_to_write resp) w)
         else (Raise OSError, w)
  else (Raise HTTPStatusError, w).

(** The value [download_icon] returns for a task in a world. *)
Definition outcome (t : IconInfo) (w : World) : bool :=
  match fst (download_icon t w) with
  | Ok b => b
  | Raise _ => false
  end.

(** The outcomes of the tasks when each is processed, in list order, in the
    world its predecessor left. *)
Fixpoint outcomes (tasks : list IconInfo) (w : World) : list bool :=
  match tasks with
  | [] => []
  | t :: rest => outcome t w :: outcomes rest (snd (download_icon t w))
  end.

(** The world after the tasks were processed one after the other. *)
Definition world_after (tasks : list IconInfo) (w : World) : World :=
  fold_left (fun w t => snd (download_icon t w)) tasks w.

(** The URLs of the tasks whose outcome is [false], in task order. *)
Fixpoint failed_of (tasks : list IconInfo) (outs : list bool) : list string :=
  match tasks, outs with
  | t :: tasks', b :: outs' =>
      if b then failed_of tasks' outs' else url t :: failed_of tasks' outs'
  | _, _ => []
  end.

Definition count_of (b : bool) (outs : list bool) : nat :=
  List.length (List.filter (Bool.eqb b) outs).

End Observations.

(** ** Reference models of the libraries

    Concrete instances of the interfaces, used to run the program on
    examples.  The general theorems below do not depend on them. *)

Module Model.

(** *** urllib.parse *)

Definition is_upper (c : ascii) : bool :=
  let n := nat_of_ascii c in ((65 <=? n) && (n <=? 90))%nat.
Definition is_alpha (c : ascii) : bool :=
  let n := nat_of_ascii c in
  (((65 <=? n) && (n <=? 90)) || ((97 <=? n) && (n <=? 122)))%nat.
Definition is_digit (c : ascii) : bool :=
  let n := nat_of_ascii c in ((48 <=? n) && (n <=? 57))%nat.
Definition is_char (c d : ascii) : bool := Ascii.eqb c d.

(** [scheme_chars]: letters, digits, [+], [-] and [.]. *)
Definition is_scheme_char (c : ascii) : bool :=
  is_alpha c || is_digit c || is_char "+" c || is_char "-" c || is_char "." c.

Definition lower_char (c : ascii) : ascii :=
  if is_upper c then ascii_of_nat (nat_of_ascii c + 32) else c.

Fixpoint lower (s : string) : string :=
  match s with
  | EmptyString => EmptyString
  | String c s' => String (lower_char c) (lower s')
  end.

Fixpoint str_forallb (p : ascii -> bool) (s : string) : bool :=
  match s with
  | EmptyString => true
  | String c s' => p c && str_forallb p s'
  end.

(** The text before the first character on which [stop] holds, and the
    text from that character on. *)
Fixpoint span_until (stop : ascii -> bool) (s : string) : string * string :=
  match s with
  | EmptyString => (EmptyString, EmptyString)
  | String c s' =>
      if stop c then (EmptyString, s)
      else let (a, b) := span_until stop s' in (String c a, b)
  end.

(** [s.split(c, 1)] as a pair, the second part empty when [c] is absent. *)
Definition cut_at (c : ascii) (s : string) : string * string :=
  match span_until (is_char c) s with
  | (a, String _ b) => (a, b)
  | (a, EmptyString) => (a, EmptyString)
  end.

Record SplitResult : Type := {
  sr_scheme : string;
  sr_netloc : string;
  sr_path : string;
  sr_query : string;
  sr_fragment : string
}.

(** The scheme of a URL and the text after its colon; the default scheme
    and the whole text where no valid scheme leads. *)
Definition split_scheme (u dflt : string) : string * string :=
  match span_until (is_char ":") u with
  | (String c pre, String _ rest) =>
      if is_alpha c && str_forallb is_scheme_char (String c pre)
      then (lower (String c pre), rest)
      else (dflt, u)
  | _ => (dflt, u)
  end.

(** [_splitnetloc(url, 2)] after a leading [//]. *)
Definition split_netloc (rest : string) : string * string :=
  if String.prefix "//" rest
  then span_until (fun c => is_char "/" c || is_char "?" c || is_char "#" c)
                  (Py.drop 2 rest)
  else (EmptyString, rest).

(** A lone bracket in the authority: "Invalid IPv6 URL". *)
Definition bad_brackets (net : string) : bool :=
  (Py.str_in "[" net && negb (Py.str_in "]" net)) ||
  (Py.str_in "]" net && negb (Py.str_in "[" net)).

(** [urlsplit(url, scheme)] of CPython 3.11 on ASCII text, without the
    stripping of leading control characters and the checks of a bracketed
    host and of NFKC normalisation. *)
Definition urlsplit (u dflt : string) : result SplitResult :=
  let (sch, rest) := split_scheme u dflt in
  let (net, rest) := split_netloc rest in
  if bad_brackets net then Raise ValueError
  else
    let (rest, frag) := cut_at "#" rest in
    let (path, query) := cut_at "?" rest in
    Ok {| sr_scheme := sch; sr_netloc := net; sr_path := path;
          sr_query := query; sr_fragment := frag |}.

Definition urlparse (u : string) : result ParseResult :=
  r ← urlsplit u "";
  Ok {| scheme := sr_scheme r; netloc := sr_netloc r |}.

Definition uses_relative : list string :=
  [""; "ftp"; "http"; "gopher"; "nntp"; "imap"; "wais"; "file"; "https";
   "shttp"; "mms"; "prospero"; "rtsp"; "rtspu"; "sftp"; "svn"; "svn+ssh";
   "ws"; "wss"].

Definition uses_netloc : list string :=
  [""; "ftp"; "http"; "gopher"; "nntp"; "telnet"; "imap"; "wais"; "file";
   "mms"; "https"; "shttp"; "snews"; "prospero"; "rtsp"; "rtspu"; "rsync";
   "svn"; "svn+ssh"; "sftp"; "nfs"; "git"; "git+ssh"; "ws"; "wss"].

Definition str_mem (s : string) (l : list string) : bool := existsb (String.eqb s) l.

Definition nonempty (s : string) : bool :=
  match s with
  | EmptyString => false
  | String _ _ => true
  end.

(** [urlunsplit] *)
Definition urlunsplit (r : SplitResult) : string :=
  let u := sr_path r in
  let u :=
    if nonempty (sr_netloc r) ||
       (nonempty (sr_scheme r) && str_mem (sr_scheme r) uses_netloc
        && negb (String.prefix "//" u))
    then
      let u := if nonempty u && negb (String.prefix "/" u) then "/" +:+ u else u in
      "//" +:+ sr_netloc r +:+ u
    else u in
  let u := if nonempty (sr_scheme r) then sr_scheme r +:+ ":" +:+ u else u in
  let u := if nonempty (sr_query r) then u +:+ "?" +:+ sr_query r else u in
  if nonempty (sr_fragment r) then u +:+ "#" +:+ sr_fragment r else u.

(** The loop of [urljoin] that drops [.] and resolves [..]; [resolved] is
    kept in reverse. *)
Fixpoint resolve_dots (segments resolved : list string) : list string :=
  match segments with
  | [] => rev resolved
  | seg :: rest =>
      if String.eqb seg ".." then resolve_dots rest (tail resolved)
      else if String.eqb seg "." then resolve_dots rest resolved
      else resolve_dots rest (seg :: resolved)
  end.

(** [segments[1:-1] = filter(None, segments[1:-1])] *)
Definition drop_inner_empty (segments : list string) : list string :=
  match segments with
  | [] => []
  | s :: rest =>
      match rev rest with
      | [] => [s]
      | z :: mid => s :: filter (fun x => nonempty x = true) (rev mid) ++ [z]
      end
  end.

(** [urljoin(base, url)] of CPython 3.11, with path parameters ([;...])
    left inside the path. *)
Definition urljoin (base u : string) : result string :=
  if negb (nonempty base) then Ok u
  else if negb (nonempty u) then Ok base
  else
    b ← urlsplit base "";
    r ← urlsplit u (sr_scheme b);
    if negb (String.eqb (sr_scheme r) (sr_scheme b)) || negb (str_mem (sr_scheme r) uses_relative)
    then Ok u
    else if str_mem (sr_scheme r) uses_netloc && nonempty (sr_netloc r)
    then Ok (urlunsplit r)
    else
      let net := if str_mem (sr_scheme r) uses_netloc then sr_netloc b else sr_netloc r in
      if negb (nonempty (sr_path r))
      then
        Ok (urlunsplit {| sr_scheme := sr_scheme r; sr_netloc := net;
                          sr_path := sr_path b;
                          sr_query := if nonempty (sr_query r) then sr_query r else sr_query b;
                          sr_fragment := sr_fragment r |})
      else
        let base_parts := Py.split (sr_path b) "/" in
        let base_parts :=
          if nonempty (Py.last_item base_parts) then removelast base_parts else base_parts in
        let segments :=
          if String.prefix "/" (sr_path r)
          then Py.split (sr_path r) "/"
          else drop_inner_empty (base_parts ++ Py.split (sr_path r) "/") in
        let resolved := resolve_dots segments [] in
        let resolved :=
          if str_mem (Py.last_item segments) ["."; ".."] then resolved ++ [EmptyString]
          else resolved in
        let joined := Py.join "/" resolved in
        Ok (urlunsplit {| sr_scheme := sr_scheme r; sr_netloc := net;
                          sr_path := if nonempty joined then joined else "/";
                          sr_query := sr_query r;
                          sr_fragment := sr_fragment r |}).

#[export] Instance urllib : UrllibParse := Build_UrllibParse urlparse urljoin.

(** *** bs4 *)

(** Does [rel=wanted] match the tag?  For a multi-valued attribute bs4
    compares the wanted string with every token and with the whole value. *)
Definition rel_matches (wanted : string) (tag : LinkTag) : bool :=
  match tag_rel tag with
  | None => false
  | Some tokens =>
      existsb (String.eqb wanted) tokens || String.eqb (Py.join " " tokens) wanted
  end.

(** [soup.find("link", rel=wanted)] over the [<link>] elements of the
    document, in document order. *)
Definition find_link (links : list LinkTag) (wanted : string) : option LinkTag :=
  List.find (rel_matches wanted) links.

(** A soup is the list of the document's [<link>] elements; the parser
    itself is given as a table from page text to that list. *)
Definition bs4_of (parser : string -> result (list LinkTag)) : Bs4 :=
  Build_Bs4 (list LinkTag) parser find_link.

(** *** The output directory: a flat directory that accepts any proper
    file name. *)

#[export] Instance flat_dir : OutputDir :=
  Build_OutputDir (fun name => nonempty name && negb (Py.str_in "/" name)).

(** A file system whose names hold at most 255 bytes: [os.stat] refuses a
    path with a longer component with [OSError] (ENAMETOOLONG).  Writes go
    through. *)
#[export] Instance name_max : FileSystem :=
  Build_FileSystem
    (fun name =>
       if existsb (fun part => (255 <? String.length part)%nat) (Py.split name "/")
       then Some OSError
       else None)
    (fun _ _ => None).

(** A full disk: files can be created, but no byte can be written to
    them ([OSError], ENOSPC). *)
#[export] Instance full_disk : FileSystem :=
  Build_FileSystem (fun _ => None) (fun _ _ => Some ([], OSError)).

End Model.

(** ** A small web, for running the program *)

Module Web.

Definition payload (n : nat) : list Byte.byte := repeat Byte.x2a n.

(** *** Pillow, as a table over the one picture of this web *)

(** A PNG file of 4 x 4 pixels, 8 bits per channel, colour type 6
    (truecolour with alpha): the signature, IHDR, one IDAT chunk holding
    the 68 bytes of the four scanlines as a stored zlib block, and IEND,
    every checksum right; 136 bytes. *)
Definition icon_png : list Byte.byte :=
  [Byte.x89; Byte.x50; Byte.x4e; Byte.x47; Byte.x0d; Byte.x0a; Byte.x1a; Byte.x0a;
   Byte.x00; Byte.x00; Byte.x00; Byte.x0d; Byte.x49; Byte.x48; Byte.x44; Byte.x52;
   Byte.x00; Byte.x00; Byte.x00; Byte.x04; Byte.x00; Byte.x00; Byte.x00; Byte.x04;
   Byte.x08; Byte.x06; Byte.x00; Byte.x00; Byte.x00; Byte.xa9; Byte.xf1; Byte.x9e;
   Byte.x7e; Byte.x00; Byte.x00; Byte.x00; Byte.x4f; Byte.x49; Byte.x44; Byte.x41;
   Byte.x54; Byte.x78; Byte.x01; Byte.x01; Byte.x44; Byte.x00; Byte.xbb; Byte.xff;
   Byte.x00; Byte.x00; Byte.x00; Byte.x00; Byte.xff; Byte.x28; Byte.x28; Byte.x28;
   Byte.xff; Byte.x50; Byte.x50; Byte.x50; Byte.xff; Byte.x78; Byte.x78; Byte.x78;
   Byte.xff; Byte.x00; Byte.x0a; Byte.x0a; Byte.x0a; Byte.xff; Byte.x32; Byte.x32;
   Byte.x32; Byte.xff; Byte.x5a; Byte.x5a; Byte.x5a; Byte.xff; Byte.x82; Byte.x82;
   Byte.x82; Byte.xff; Byte.x00; Byte.x14; Byte.x14; Byte.x14; Byte.xff; Byte.x3c;
   Byte.x3c; Byte.x3c; Byte.xff; Byte.x64; Byte.x64; Byte.x64; Byte.xff; Byte.x8c;
   Byte.x8c; Byte.x8c; Byte.xff; Byte.x00; Byte.x1e; Byte.x1e; Byte.x1e; Byte.xff;
   Byte.x46; Byte.x46; Byte.x46; Byte.xff; Byte.x6e; Byte.x6e; Byte.x6e; Byte.xff;
   Byte.x96; Byte.x96; Byte.x96; Byte.xff; Byte.x9e; Byte.x39; Byte.x1e; Byte.x01;
   Byte.x27; Byte.x36; Byte.x3f; Byte.x63; Byte.x00; Byte.x00; Byte.x00; Byte.x00;
   Byte.x49; Byte.x45; Byte.x4e; Byte.x44; Byte.xae; Byte.x42; Byte.x60; Byte.x82].

(** An opened image: its mode and its size. *)
Record Picture : Type := {
  pic_mode : string;
  pic_width : nat;
  pic_height : nat
}.

Definition bytes_eqb (a b : list Byte.byte) : bool :=
  (List.length a =? List.length b)%nat &&
  forallb (fun p => Byte.eqb (fst p) (snd p)) (combine a b).

(** [Image.open(io.BytesIO(data))]: [icon_png] opens in mode RGBA with
    size (4, 4).  The other payloads of this web are runs of asterisks,
    which no decoder of Pillow identifies: [Image.open] raises
    [UnidentifiedImageError], an [OSError].  The table has no other
    picture. *)
Definition open_picture (data : list Byte.byte) : result Picture :=
  if bytes_eqb data icon_png
  then Ok {| pic_mode := "RGBA"; pic_width := 4; pic_height := 4 |}
  else Raise OSError.

(** [image.convert(mode)] *)
Definition convert_picture (img : Picture) (mode : string) : result Picture :=
  Ok {| pic_mode := mode; pic_width := pic_width img; pic_height := pic_height img |}.

(** [image.save(buffer, format="ICO", sizes=sizes)]: the ICO writer puts
    the header (reserved 0, type 1), leaves out every requested size that
    is larger than the image or than 256 pixels, and puts the number of
    frames that remain; with no frame the file ends there, six bytes.
    The frames themselves are not in this table: the picture of this web
    is smaller than the one size the program asks for. *)
Definition save_picture (img : Picture) (format : string)
    (sizes : list (nat * nat)) : result (list Byte.byte) :=
  if String.eqb format "ICO"
  then
    if forallb (fun size => (pic_width img <? fst size)%nat ||
                            (pic_height img <? snd size)%nat ||
                            (256 <? fst size)%nat || (256 <? snd size)%nat) sizes
    then Ok [Byte.x00; Byte.x00; Byte.x01; Byte.x00; Byte.x00; Byte.x00]
    else Raise OtherException
  else Raise OtherException.

#[export] Instance pillow : Pillow :=
  Build_Pillow Picture open_picture pic_mode convert_picture save_picture.

(** *** The answers of the servers *)

(** A payload served as an icon, 120 bytes. *)
Definition ico_response : Response :=
  {| status_code := 200; Content_Type := Some "image/x-icon";
     content := payload 120; text := "" |}.

(** The PNG picture, served as such. *)
Definition png_response : Response :=
  {| status_code := 200; Content_Type := Some "image/png";
     content := icon_png; text := "" |}.

(** An error page served with status 200. *)
Definition html_as_icon : Response :=
  {| status_code := 200; Content_Type := Some "text/html";
     content := payload 512; text := "<html>not found</html>" |}.

(** A placeholder image of 43 bytes. *)
Definition tiny_icon : Response :=
  {| status_code := 200; Content_Type := Some "image/x-icon";
     content := payload 43; text := "" |}.

(** The PNG picture announced by two Content-Type headers, which httpx
    joins. *)
Definition two_types : Response :=
  {| status_code := 200; Content_Type := Some "image/x-icon, image/png";
     content := icon_png; text := "" |}.

Definition server_error : Response :=
  {| status_code := 503; Content_Type := Some "text/html";
     content := []; text := "" |}.

Definition apple_page_text : string :=
  "<link rel=stylesheet href=/s.css><link rel=apple-touch-icon href=/a.png>".

Definition apple_page : Response :=
  {| status_code := 200; Content_Type := Some "text/html; charset=utf-8";
     content := payload 72; text := apple_page_text |}.

Definition stylesheet_link : LinkTag :=
  {| tag_rel := Some ["stylesheet"]; tag_href := Some "/s.css" |}.
Definition apple_link : LinkTag :=
  {| tag_rel := Some ["apple-touch-icon"]; tag_href := Some "/a.png" |}.

(** The parser, as a table over the pages of this web. *)
Definition parser (page : string) : result (list LinkTag) :=
  if String.eqb page apple_page_text then Ok [stylesheet_link; apple_link] else Ok [].

#[export] Instance bs4 : Bs4 := Model.bs4_of parser.

(** The servers.  [flaky.example] serves its icon once and fails afterwards;
    [down.example] cannot be reached. *)
Definition answer (log : list string) (u : string) : result Response :=
  if String.eqb u "https://example.com/favicon.ico" then Ok ico_response
  else if String.eqb u "https://apple.example/favicon.ico" then Ok html_as_icon
  else if String.eqb u "https://apple.example/home" then Ok apple_page
  else if String.eqb u "https://apple.example/a.png" then Ok png_response
  else if String.eqb u "https://two.example/favicon.ico" then Ok two_types
  else if String.eqb u "https://flaky.example/favicon.ico"
       then (if existsb (String.eqb u) log then Ok server_error else Ok ico_response)
  else Raise RequestError.

#[export] Instance httpx : Httpx := Build_Httpx answer.

Definition site (name u : string) : Site := {| j_name := Some name; j_url := Some u |}.

Definition dataset (sites : list Site) : Data :=
  {| j_categories := Some [ {| j_sites := Some sites |} ] |}.

Definition task (u d : string) : IconInfo :=
  {| url := u; domain := d; filename := d +:+ ".ico"; site_name := ""; site_url := u |}.

(** A name stem of 300 characters. *)
Definition long_stem : string := String.concat "" (repeat "a" 300).

(** An icon address of the proxy form for that stem. *)
Definition long_url : string := "https://icon.example/favicon/" +:+ long_stem.

(** An empty output directory, no request made yet. *)
Definition world0 : World := {| requests := []; files := ∅ |}.

(** An output directory that already holds [example.com.ico]. *)
Definition world1 : World :=
  {| requests := []; files := {[ "example.com.ico" := payload 7 ]} |}.

End Web.

(** ** More of the program: reading the dataset *)

(** [src/mock/mock_data.js] as the script meets it, and [json.loads]. *)
Class MockFile : Type := {
  mock_exists : bool;          (* os.path.exists(MOCK_DATA_FILE) *)
  mock_read : result string    (* open(MOCK_DATA_FILE).read() *)
}.

Class Json : Type := {
  json_loads : string -> result Data
}.

(** The literal head of the pattern [export const mockData = ({.*})], with
    the brace that opens the group. *)
Definition MOCK_DATA_HEAD : string := "export const mockData = {".

(** The text after the first occurrence of [head] in [s]. *)
Fixpoint after_first (head s : string) : option string :=
  if String.prefix head s
  then Some (Py.drop (String.length head) s)
  else match s with
       | EmptyString => None
       | String _ s' => after_first head s'
       end.

(** The text of [s] up to its last [c], that [c] included. *)
Fixpoint upto_last (c : ascii) (s : string) : option string :=
  match s with
  | EmptyString => None
  | String d s' =>
      match upto_last c s' with
      | Some r => Some (String d r)
      | None => if Ascii.eqb d c then Some (String d EmptyString) else None
      end
  end.

(** [re.search(r"export const mockData = ({.*})", content, re.DOTALL)] and
    [match.group(1)]: the search stops at the first place where the head
    matches, and there the greedy [.*], which under DOTALL passes over
    every character, runs to the last closing brace of the text. *)
Definition search_mock_data (content : string) : option string :=
  match after_first MOCK_DATA_HEAD content with
  | None => None
  | Some rest =>
      match upto_last "}" rest with
      | None => None
      | Some body => Some ("{" +:+ body)
      end
  end.

Section ReadDataset.
Context {mockfile : MockFile} {json : Json}.

(** The body of the [try] of [extract_mock_data]. *)
Definition extract_mock_data_body : result (option Data) :=
  content ← mock_read;
  match search_mock_data content with
  | None => Ok None
  | Some data_str => d ← json_loads data_str; Ok (Some d)
  end.

(** Both clauses, [except json.JSONDecodeError] and [except Exception],
    return [None]. *)
Definition extract_mock_data : option Data :=
  if negb mock_exists then None
  else match extract_mock_data_body with
       | Ok r => r
       | Raise _ => None
       end.

End ReadDataset.

Section Script.
Context {urllib : UrllibParse} {httpx : Httpx} {bs4 : Bs4}
        {pillow : Pillow} {outdir : OutputDir} {mockfile : MockFile} {json : Json}.

(** [main] as the script runs it: on what [extract_mock_data] returns. *)
Definition main_of_file : prog (option Summary) := main extract_mock_data.

End Script.

(** ** More observations *)

(** [m] adds at most [n] requests to the log. *)
Definition log_bound {A : Type} (n : nat) (m : prog A) : Prop :=
  forall w, exists l, requests (snd (m w)) = requests w ++ l /\ (List.length l <= n)%nat.

Section MoreObservations.
Context {httpx : Httpx}.

(** The last request of a run was for [u], and the answer was a valid icon
    response. *)
Definition validated (w w' : World) (u : string) : Prop :=
  exists l resp,
    requests w' = requests w ++ l ++ [u] /\
    respond (requests w ++ l) u = Ok resp /\
    _is_valid_icon_response resp = true.

End MoreObservations.

(** ** A second small web: a page with a dead icon link *)

Module Web2.

Definition page_text : string :=
  "<link rel=icon href=/gone.ico><link rel=apple-touch-icon href=/a.png>".

Definition page : Response :=
  {| status_code := 200; Content_Type := Some "text/html";
     content := Web.payload 69; text := page_text |}.

Definition icon_link : LinkTag :=
  {| tag_rel := Some ["icon"]; tag_href := Some "/gone.ico" |}.

Definition parser (text : string) : result (list LinkTag) :=
  if String.eqb text page_text then Ok [icon_link; Web.apple_link] else Ok [].

#[export] Instance bs4 : Bs4 := Model.bs4_of parser.

(** [/gone.ico] times out; [/a.png] would validate.  [bad.example] is
    refused by the client before anything is sent. *)
Definition answer (log : list string) (u : string) : result Response :=
  if String.eqb u "https://dead.example/home" then Ok page
  else if String.eqb u "https://dead.example/a.png" then Ok Web.png_response
  else if String.eqb u "https://bad.example/favicon.ico" then Raise InvalidURL
  else Raise RequestError.

#[export] Instance httpx : Httpx := Build_Httpx answer.

End Web2.

(** ** The dataset file of the small web *)

Module WebFile.

(** The double quote, by its code. *)
Definition q : string := String (ascii_of_nat 34) EmptyString.

(** The JSON object of the file, without its outer braces: under the key
    categories one category, under its key sites one site, with the name
    Example and the url https://example.com/page; every key and every
    text in double quotes. *)
Definition body : string :=
  q +:+ "categories" +:+ q +:+ ": [{" +:+ q +:+ "sites" +:+ q +:+ ": [{" +:+
  q +:+ "name" +:+ q +:+ ": " +:+ q +:+ "Example" +:+ q +:+ ", " +:+
  q +:+ "url" +:+ q +:+ ": " +:+ q +:+ "https://example.com/page" +:+ q +:+ "}]}]".

Definition file_text : string :=
  "// sites  " +:+ "export const mockData = " +:+ ("{" +:+ body +:+ "}") +:+ ";".

#[export] Instance mockfile : MockFile :=
  {| mock_exists := true; mock_read := Ok file_text |}.

(** What that object denotes. *)
Definition one_site : Data := Web.dataset [Web.site "Example" "https://example.com/page"].

(** [json.loads], as a table with the object of this file for its one
    entry. *)
#[export] Instance json : Json :=
  {| json_loads := fun s =>
       if String.eqb s ("{" +:+ body +:+ "}") then Ok one_site else Raise ValueError |}.

End WebFile.

(** ** The first version of the script (test.py)

    It uses [requests] where the later version uses [httpx]: in this
    module [respond] is what [session.get] of [requests] returns for a
    URL, redirects followed, and the exceptions are those of [requests].
    It knows no PNG icons and writes the payload as it streams in. *)

(** What [requests] does with a streamed body: the chunks that
    [resp.iter_content(n)] delivers and the exception that ends the stream
    early, if any; and what reading [resp.content] gives once the stream
    was iterated. *)
Class RequestsStream : Type := {
  iter_content : Response -> nat -> list (list Byte.byte) * option exn;
  content_after_stream : Response -> result (list Byte.byte)
}.

(** [f.write(chunk)] on the open file: the bytes are appended. *)
Definition append_file (name : string) (chunk : list Byte.byte) (w : World) : World :=
  put_file name (dict_get (files w !! name) [] ++ chunk) w.

Module TestPy.

(** [resp.ok]: the status is no 4xx and no 5xx. *)
Definition ok (resp : Response) : bool :=
  negb ((400 <=? status_code resp) && (status_code resp <? 600))%Z.

(** The test written out at lines 95-99 and again at lines 115-119. *)
Definition is_ico_response (resp : Response) : bool :=
  let content_type := dict_get (Content_Type resp) "" in
  ok resp && (100 <=? List.length (content resp))%nat &&
  (Py.str_in "image/x-icon" content_type ||
   Py.str_in "image/vnd.microsoft.icon" content_type).

(** [requests.RequestException]: the transport faults and timeouts,
    [HTTPError], and the errors [requests] raises for a URL it cannot use
    ([InvalidURL], [MissingSchema], [InvalidSchema]). *)
Definition is_RequestException (e : exn) : bool :=
  match e with
  | RequestError | HTTPStatusError | InvalidURL => true
  | _ => false
  end.

(** [except requests.RequestException: pass] *)
Definition except_RequestException_None (e : exn) : option (prog (option string)) :=
  if is_RequestException e then Some (mret None) else None.

Section Program.
Context {urllib : UrllibParse} {httpx : Httpx} {bs4 : Bs4}
        {outdir : OutputDir} {stream : RequestsStream}.

(** Lines 46-73. *)
Fixpoint sites_loop (sites : list Site) (http_icons : list IconInfo) : result (list IconInfo) :=
  match sites with
  | [] => Ok http_icons
  | site :: rest =>
      let icon_url := dict_get (j_url site) "" in
      if Py.startswith icon_url "http"
      then
        domain ← (if Py.str_in "favicon/" icon_url
                  then Ok (Py.last_item (Py.split icon_url "/favicon/"))
                  else parsed ← urlparse (dict_get (j_url site) ""); Ok (netloc parsed));
        sites_loop rest
          (http_icons ++ [{| url := icon_url; domain := domain;
                             filename := domain +:+ ".ico";
                             site_name := dict_get (j_name site) "";
                             site_url := dict_get (j_url site) "" |}])
      else sites_loop rest http_icons
  end.

Fixpoint categories_loop (cats : list Category) (http_icons : list IconInfo) : result (list IconInfo) :=
  match cats with
  | [] => Ok http_icons
  | category :: rest =>
      http_icons' ← sites_loop (dict_get (j_sites category) []) http_icons;
      categories_loop rest http_icons'
  end.

Definition get_all_http_icons (data : Data) : result (list IconInfo) :=
  categories_loop (dict_get (j_categories data) []) [].

(** The loop of lines 109-120. *)
Fixpoint rels_loop (soup : Soup) (base_url : string) (rels : list string) : prog (option string) :=
  match rels with
  | [] => mret None
  | rel :: rest =>
      match soup_find_link soup rel with
      | Some tag =>
          if Py.truthy (tag_href tag)
          then
            icon_url ← lift (urljoin base_url (dict_get (tag_href tag) ""));
            resp ← session_get icon_url;
            if is_ico_response resp
            then mret (Some icon_url)
            else rels_loop soup base_url rest
          else rels_loop soup base_url rest
      | None => rels_loop soup base_url rest
      end
  end.

(** Lines 76-124.  Each [try] gives the URL it returns, or [None] where
    control goes on to the next statement. *)
Definition resolve_favicon_url (site_url : string) : prog (option string) :=
  parsed_url ← lift (urlparse site_url);
  let base_url := scheme parsed_url +:+ "://" +:+ netloc parsed_url in
  let ico_url := base_url +:+ "/favicon.ico" in
  step1 ← try_except
             (resp ← session_get ico_url;
              if is_ico_response resp then mret (Some ico_url) else mret None)
             except_RequestException_None;
  match step1 with
  | Some u => mret (Some u)
  | None =>
      step2 ← try_except
                 (html_resp ← session_get site_url;
                  soup ← lift (BeautifulSoup (text html_resp));
                  rels_loop soup base_url ["icon"; "shortcut icon"; "apple-touch-icon"])
                 except_RequestException_None;
      match step2 with
      | Some u => mret (Some u)
      | None => mret None
      end
  end.

(** [resp.raise_for_status()] of [requests]: raises [requests.HTTPError]
    on 4xx and 5xx. *)
Definition raise_for_status (resp : Response) : prog unit :=
  if ok resp then mret tt else lift (Raise HTTPStatusError).

(** [open(filepath, "wb")]: the file is created, or emptied. *)
Definition open_file (name : string) : prog unit :=
  fun w => if open_wb name then (Ok tt, put_file name [] w) else (Raise OSError, w).

(** The loop [for chunk in resp.iter_content(1024): f.write(chunk)]. *)
Fixpoint write_chunks (name : string) (chunks : list (list Byte.byte)) : prog unit :=
  match chunks with
  | [] => mret tt
  | chunk :: rest =>
      _ ← (fun w => (Ok tt, append_file name chunk w));
      write_chunks name rest
  end.

(** The body of the [try] of [download_icon] (lines 146-159). *)
Definition download_icon_body (site_url name : string) : prog bool :=
  icon_url ← resolve_favicon_url site_url;
  if negb (Py.truthy icon_url)
  then mret false
  else
    resp ← session_get (dict_get icon_url "");
    _ ← raise_for_status resp;
    _ ← open_file name;
    _ ← write_chunks name (fst (iter_content resp 1024));
    _ ← match snd (iter_content resp 1024) with
        | Some e => lift (Raise e)
        | None => mret tt
        end;
    _ ← lift (content_after_stream resp);
    mret true.

Definition download_icon (icon_info : IconInfo) : prog bool :=
  fun w =>
    let site_url := url icon_info in
    let name := filename icon_info in
    if path_exists name w
    then (Ok true, w)
    else try_except (download_icon_body site_url name) except_all_False w.

End Program.

End TestPy.

(** A stream that delivers the body in slices of [n] bytes, and a
    [resp.content] that is no longer there after the stream was read, as in
    [requests]. *)
Module StreamModel.

Fixpoint slices (fuel n : nat) (b : list Byte.byte) : list (list Byte.byte) :=
  match fuel, b with
  | S fuel', _ :: _ => firstn n b :: slices fuel' n (skipn n b)
  | _, _ => []
  end.

#[export] Instance whole : RequestsStream :=
  {| iter_content := fun resp n => (slices (List.length (content resp)) n (content resp), None);
     content_after_stream := fun _ => Raise OtherException |}.

(** The connection breaks after the first slice. *)
#[export] Instance broken : RequestsStream :=
  {| iter_content := fun resp n => ([firstn n (content resp)], Some RequestError);
     content_after_stream := fun _ => Raise OtherException |}.

End StreamModel.

(** * Properties *)

(** ** Python strings *)

Lemma append_String (c : ascii) (s t : string) :
  String c s +:+ t = String c (s +:+ t).
Proof. reflexivity. Qed.

Lemma append_empty_l (t : string) : EmptyString +:+ t = t.
Proof. reflexivity. Qed.

Lemma prefix_spec (p s : string) :
  String.prefix p s = true <-> exists t, s = p +:+ t.
Proof.
  revert s; induction p as [|c p IH]; intros s; simpl.
  - split; [intros _; exists s; reflexivity | intros _; destruct s; reflexivity].
  - destruct s as [|d s]; simpl.
    + split; [discriminate | intros [t Ht]; discriminate].
    + destruct (ascii_dec c d) as [->|Hne].
      * rewrite IH. split; intros [t Ht]; exists t;
          rewrite append_String in *; congruence.
      * split; [discriminate | intros [t Ht]; rewrite append_String in Ht; congruence].
Qed.

Lemma str_in_nil (t : string) :
  Py.str_in t EmptyString = String.prefix t EmptyString || false.
Proof. reflexivity. Qed.

Lemma str_in_cons (t : string) (c : ascii) (s : string) :
  Py.str_in t (String c s) = String.prefix t (String c s) || Py.str_in t s.
Proof. reflexivity. Qed.

Lemma str_in_spec (t s : string) : Py.str_in t s = true <-> occurs t s.
Proof.
  induction s as [|c s IH]; [rewrite str_in_nil | rewrite str_in_cons].
  - rewrite orb_false_r, prefix_spec. split.
    + intros [u Hu]. exists EmptyString, u. exact Hu.
    + intros [pre [post H]]. destruct pre; [eauto | discriminate].
  - rewrite orb_true_iff, IH, prefix_spec. split.
    + intros [[u Hu] | [pre [post H]]].
      * exists EmptyString, u. exact Hu.
      * exists (String c pre), post. rewrite append_String. congruence.
    + intros [pre [post H]]. destruct pre as [|d pre].
      * left. eauto.
      * right. rewrite append_String in H. injection H as _ H.
        exists pre, post. exact H.
Qed.

Lemma str_in_false (t s : string) : Py.str_in t s = false <-> ~ occurs t s.
Proof.
  rewrite <- str_in_spec. destruct (Py.str_in t s); split; congruence.
Qed.

Lemma any_in_spec (types : list string) (s : string) :
  Py.any_in types s = true <-> exists t, In t types /\ occurs t s.
Proof.
  unfold Py.any_in. rewrite existsb_exists.
  split; intros [t [Hin H]]; exists t; split; auto; apply str_in_spec; exact H.
Qed.

(** ** Validation (C1) *)

Lemma is_success_spec (r : Response) :
  is_success r = true <-> (200 <= status_code r <= 299)%Z.
Proof. unfold is_success. rewrite andb_true_iff, !Z.leb_le. tauto. Qed.

Lemma valid_icon_response_unfold (r : Response) :
  _is_valid_icon_response r = true <->
  is_success r = true /\
  (MIN_ICON_SIZE <= List.length (content r))%nat /\
  (Py.any_in ICON_CONTENT_TYPES (dict_get (Content_Type r) "") = true \/
   Py.any_in PNG_CONTENT_TYPES (dict_get (Content_Type r) "") = true).
Proof.
  unfold _is_valid_icon_response.
  destruct (is_success r); simpl.
  - destruct (Nat.ltb_spec (List.length (content r)) MIN_ICON_SIZE) as [Hlt|Hge].
    + split; [discriminate | intros (_ & Hle & _); lia].
    + rewrite orb_true_iff. tauto.
  - split; [discriminate | intros (H & _); discriminate].
Qed.

(** C1. A response is accepted as a valid icon exactly when its status is a
    success status (2xx), its body has at least 100 bytes, and its
    Content-Type (the empty string when the header is absent) contains
    [image/x-icon], [image/vnd.microsoft.icon] or [image/png].  In
    particular a 200 response of type [text/html] is rejected, and so is
    any response with fewer than 100 body bytes, whatever its type. *)
Theorem valid_icon_response_iff :
  (forall r : Response,
     _is_valid_icon_response r = true <->
     (200 <= status_code r <= 299)%Z /\
     (100 <= List.length (content r))%nat /\
     ((occurs "image/x-icon" (dict_get (Content_Type r) "") \/
       occurs "image/vnd.microsoft.icon" (dict_get (Content_Type r) "")) \/
      occurs "image/png" (dict_get (Content_Type r) ""))) /\
  (forall r : Response,
     status_code r = 200%Z -> Content_Type r = Some "text/html" ->
     _is_valid_icon_response r = false) /\
  (forall r : Response,
     (List.length (content r) < 100)%nat -> _is_valid_icon_response r = false).
Proof.
  split; [|split].
  - intros r. rewrite valid_icon_response_unfold, is_success_spec, !any_in_spec.
    unfold MIN_ICON_SIZE, ICON_CONTENT_TYPES, PNG_CONTENT_TYPES. simpl.
    split.
    + intros (Hs & Hl & Ht). split; [exact Hs | split; [exact Hl |]].
      destruct Ht as [(t & Hin & Ho) | (t & Hin & Ho)].
      * left. destruct Hin as [<- | [<- | []]]; auto.
      * right. destruct Hin as [<- | []]; auto.
    + intros (Hs & Hl & Ht). split; [exact Hs | split; [exact Hl |]].
      destruct Ht as [[Ho | Ho] | Ho]; [left | left | right]; eauto.
  - intros r Hs Ht. unfold _is_valid_icon_response, is_success.
    rewrite Hs, Ht. simpl.
    destruct (List.length (content r) <? MIN_ICON_SIZE)%nat; reflexivity.
  - intros r Hl. unfold _is_valid_icon_response, MIN_ICON_SIZE.
    apply Nat.ltb_lt in Hl. rewrite Hl, orb_true_r. reflexivity.
Qed.

Lemma valid_icon_response_witness :
  _is_valid_icon_response Web.html_as_icon = false /\
  _is_valid_icon_response Web.tiny_icon = false /\
  _is_valid_icon_response Web.png_response = true.
Proof.
  destruct valid_icon_response_iff as (Hiff & Hhtml & Hsmall).
  split; [exact (Hhtml Web.html_as_icon eq_refl eq_refl)|].
  split.
  - apply Hsmall. vm_compute. lia.
  - apply Hiff. split; [simpl; lia|]. split; [vm_compute; lia|].
    right. exists EmptyString, EmptyString. reflexivity.
Defined.

(** ** The task list *)

Section TaskList.
Context {urllib : UrllibParse}.

Lemma sites_loop_spec (sites : list Site) (acc r : list IconInfo) :
  sites_loop sites acc = Ok r ->
  exists new, r = acc ++ new /\ Forall2 task_of (List.filter eligible sites) new.
Proof.
  revert acc r. induction sites as [|site sites IH]; intros acc r; simpl.
  - intros [= <-]. exists []. split; [symmetry; apply app_nil_r | constructor].
  - fold (entry_url site). unfold eligible at 1.
    destruct (Py.startswith (entry_url site) "http"); simpl.
    + destruct (icon_domain site (entry_url site)) as [d|e] eqn:Hd; simpl; [|discriminate].
      intros Hr. apply IH in Hr as (new & -> & Hnew).
      exists (make_icon_info site (entry_url site) d :: new). split.
      * rewrite <- app_assoc. reflexivity.
      * constructor; [exists d; auto | exact Hnew].
    + apply IH.
Qed.

Lemma categories_loop_spec (cats : list Category) (acc r : list IconInfo) :
  categories_loop cats acc = Ok r ->
  exists new, r = acc ++ new /\
    Forall2 task_of
      (List.filter eligible (flat_map (fun c => dict_get (j_sites c) []) cats)) new.
Proof.
  revert acc r. induction cats as [|c cats IH]; intros acc r; simpl.
  - intros [= <-]. exists []. split; [symmetry; apply app_nil_r | constructor].
  - destruct (sites_loop (dict_get (j_sites c) []) acc) as [acc'|e] eqn:Hs; simpl; [|discriminate].
    intros Hr. apply sites_loop_spec in Hs as (new1 & -> & H1).
    apply IH in Hr as (new2 & -> & H2).
    exists (new1 ++ new2). split; [rewrite app_assoc; reflexivity |].
    rewrite List.filter_app. apply Forall2_app; assumption.
Qed.

(** The task list holds one task per eligible entry, in document order. *)
Lemma get_all_http_icons_spec (data : Data) (tasks : list IconInfo) :
  get_all_http_icons data = Ok tasks ->
  Forall2 task_of (List.filter eligible (all_sites data)) tasks.
Proof.
  unfold get_all_http_icons, all_sites. intros H.
  apply categories_loop_spec in H as (new & -> & H). exact H.
Qed.

(** The list is built whenever [urlparse] raises on no entry. *)
Lemma sites_loop_total (sites : list Site) (acc : list IconInfo) :
  (forall site, In site sites -> exists p, urlparse (entry_url site) = Ok p) ->
  exists r, sites_loop sites acc = Ok r.
Proof.
  revert acc. induction sites as [|site sites IH]; intros acc Hp; simpl.
  - eauto.
  - fold (entry_url site).
    destruct (Py.startswith (entry_url site) "http"); simpl.
    + unfold icon_domain. fold (entry_url site).
      destruct (Py.str_in "favicon/" (entry_url site)); simpl.
      * apply IH. intros s Hs. apply Hp. right. exact Hs.
      * destruct (Hp site (or_introl eq_refl)) as [p ->]. simpl.
        apply IH. intros s Hs. apply Hp. right. exact Hs.
    + apply IH. intros s Hs. apply Hp. right. exact Hs.
Qed.

Lemma get_all_http_icons_total (data : Data) :
  (forall site, In site (all_sites data) -> exists p, urlparse (entry_url site) = Ok p) ->
  exists tasks, get_all_http_icons data = Ok tasks.
Proof.
  unfold get_all_http_icons, all_sites.
  generalize (@nil IconInfo) as acc.
  induction (dict_get (j_categories data) []) as [|c cats IH]; intros acc Hp; simpl.
  - eauto.
  - destruct (sites_loop_total (dict_get (j_sites c) []) acc) as [r ->].
    + intros s Hs. apply Hp. simpl. apply in_or_app. left. exact Hs.
    + simpl. apply IH. intros s Hs. apply Hp. simpl. apply in_or_app. right. exact Hs.
Qed.

End TaskList.

(** ** Running the monad *)

Lemma bind_Ok {A B : Type} (m : prog A) (f : A -> prog B) (w w' : World) (a : A) :
  m w = (Ok a, w') -> (x ← m; f x) w = f a w'.
Proof. intros H. unfold mbind, prog_bind. rewrite H. reflexivity. Qed.

Lemma bind_Raise {A B : Type} (m : prog A) (f : A -> prog B) (w w' : World) (e : exn) :
  m w = (Raise e, w') -> (x ← m; f x) w = (Raise e, w').
Proof. intros H. unfold mbind, prog_bind. rewrite H. reflexivity. Qed.

Lemma bind_lift_Ok {A B : Type} (a : A) (f : A -> prog B) (w : World) :
  (x ← lift (Ok a); f x) w = f a w.
Proof. reflexivity. Qed.

Lemma bind_lift_Raise {A B : Type} (e : exn) (f : A -> prog B) (w : World) :
  (x ← lift (Raise e); f x) w = (Raise e, w).
Proof. reflexivity. Qed.

Lemma try_except_Ok {A : Type} (m : prog A) (h : exn -> option (prog A))
    (w w' : World) (a : A) :
  m w = (Ok a, w') -> try_except m h w = (Ok a, w').
Proof. intros H. unfold try_except. rewrite H. reflexivity. Qed.

Lemma try_except_Raise {A : Type} (m : prog A) (h : exn -> option (prog A))
    (w w' : World) (e : exn) :
  m w = (Raise e, w') ->
  try_except m h w = match h e with Some k => k w' | None => (Raise e, w') end.
Proof. intros H. unfold try_except. rewrite H. reflexivity. Qed.

(** *** Frame conditions on the world *)

Create HintDb frame discriminated.

Lemma keeps_files_ret {A : Type} (a : A) : keeps_files (mret a : prog A).
Proof. intros w. reflexivity. Qed.

Lemma keeps_files_lift {A : Type} (r : result A) : keeps_files (lift r).
Proof. intros w. reflexivity. Qed.

Lemma keeps_files_bind {A B : Type} (m : prog A) (f : A -> prog B) :
  keeps_files m -> (forall a, keeps_files (f a)) -> keeps_files (x ← m; f x).
Proof.
  intros Hm Hf w. unfold mbind, prog_bind.
  specialize (Hm w). destruct (m w) as [[a|e] w']; simpl in *.
  - rewrite Hf. exact Hm.
  - exact Hm.
Qed.

Lemma keeps_files_try {A : Type} (m : prog A) (h : exn -> option (prog A)) :
  keeps_files m -> (forall e k, h e = Some k -> keeps_files k) ->
  keeps_files (try_except m h).
Proof.
  intros Hm Hh w. unfold try_except.
  specialize (Hm w). destruct (m w) as [[a|e] w']; simpl in *.
  - exact Hm.
  - destruct (h e) as [k|] eqn:Hk; simpl.
    + rewrite (Hh e k Hk). exact Hm.
    + exact Hm.
Qed.

Lemma keeps_files_if {A : Type} (b : bool) (m1 m2 : prog A) :
  keeps_files m1 -> keeps_files m2 -> keeps_files (if b then m1 else m2).
Proof. destruct b; auto. Qed.

Lemma extends_log_ret {A : Type} (a : A) : extends_log (mret a : prog A).
Proof. intros w. exists []. symmetry. apply app_nil_r. Qed.

Lemma extends_log_lift {A : Type} (r : result A) : extends_log (lift r).
Proof. intros w. exists []. symmetry. apply app_nil_r. Qed.

Lemma extends_log_bind {A B : Type} (m : prog A) (f : A -> prog B) :
  extends_log m -> (forall a, extends_log (f a)) -> extends_log (x ← m; f x).
Proof.
  intros Hm Hf w. unfold mbind, prog_bind.
  destruct (Hm w) as [l Hl]. destruct (m w) as [[a|e] w']; simpl in *.
  - destruct (Hf a w') as [l' Hl']. exists (l ++ l').
    rewrite Hl', Hl. symmetry. apply app_assoc.
  - exists l. exact Hl.
Qed.

Lemma extends_log_try {A : Type} (m : prog A) (h : exn -> option (prog A)) :
  extends_log m -> (forall e k, h e = Some k -> extends_log k) ->
  extends_log (try_except m h).
Proof.
  intros Hm Hh w. unfold try_except.
  destruct (Hm w) as [l Hl]. destruct (m w) as [[a|e] w']; simpl in *.
  - exists l. exact Hl.
  - destruct (h e) as [k|] eqn:Hk; simpl.
    + destruct (Hh e k Hk w') as [l' Hl']. exists (l ++ l').
      rewrite Hl', Hl. symmetry. apply app_assoc.
    + exists l. exact Hl.
Qed.

Lemma extends_log_if {A : Type} (b : bool) (m1 m2 : prog A) :
  extends_log m1 -> extends_log m2 -> extends_log (if b then m1 else m2).
Proof. destruct b; auto. Qed.

#[export] Hint Resolve keeps_files_ret keeps_files_lift keeps_files_bind
  keeps_files_try keeps_files_if extends_log_ret extends_log_lift
  extends_log_bind extends_log_try extends_log_if : frame.

(** ** The locator *)

Section Locator.
Context {urllib : UrllibParse} {httpx : Httpx} {bs4 : Bs4}.

Lemma session_get_run (u : string) (w : World) :
  session_get u w = (respond (requests w) u, add_request u w).
Proof. reflexivity. Qed.

Lemma keeps_files_session_get (u : string) : keeps_files (session_get u).
Proof. intros w. reflexivity. Qed.

Lemma extends_log_session_get (u : string) : extends_log (session_get u).
Proof. intros w. exists [u]. reflexivity. Qed.

Lemma except_RequestError_None_inv (e : exn) (k : prog (option string)) :
  except_RequestError_None e = Some k -> k = mret None.
Proof.
  unfold except_RequestError_None. destruct (is_RequestError e); congruence.
Qed.

Hint Resolve keeps_files_session_get extends_log_session_get : frame.

Lemma keeps_files_rels_loop (soup : Soup) (base_url : string) (rels : list string) :
  keeps_files (rels_loop soup base_url rels).
Proof.
  induction rels as [|rel rels IH]; simpl; [auto with frame|].
  destruct (soup_find_link soup rel) as [tag|]; [|exact IH].
  apply keeps_files_if; [|exact IH].
  apply keeps_files_bind; [auto with frame|]. intros icon_url.
  apply keeps_files_bind; [auto with frame|]. intros resp.
  apply keeps_files_if; auto with frame.
Qed.

Lemma extends_log_rels_loop (soup : Soup) (base_url : string) (rels : list string) :
  extends_log (rels_loop soup base_url rels).
Proof.
  induction rels as [|rel rels IH]; simpl; [auto with frame|].
  destruct (soup_find_link soup rel) as [tag|]; [|exact IH].
  apply extends_log_if; [|exact IH].
  apply extends_log_bind; [auto with frame|]. intros icon_url.
  apply extends_log_bind; [auto with frame|]. intros resp.
  apply extends_log_if; auto with frame.
Qed.

Lemma keeps_files_handler (e : exn) (k : prog (option string)) :
  except_RequestError_None e = Some k -> keeps_files k.
Proof. intros H. apply except_RequestError_None_inv in H as ->. auto with frame. Qed.

Lemma extends_log_handler (e : exn) (k : prog (option string)) :
  except_RequestError_None e = Some k -> extends_log k.
Proof. intros H. apply except_RequestError_None_inv in H as ->. auto with frame. Qed.

Lemma keeps_files_try_favicon_ico (base_url : string) :
  keeps_files (_try_favicon_ico base_url).
Proof.
  unfold _try_favicon_ico. apply keeps_files_try; [|apply keeps_files_handler].
  apply keeps_files_bind; [auto with frame|]. intros resp.
  apply keeps_files_if; auto with frame.
Qed.

Lemma extends_log_try_favicon_ico (base_url : string) :
  extends_log (_try_favicon_ico base_url).
Proof.
  unfold _try_favicon_ico. apply extends_log_try; [|apply extends_log_handler].
  apply extends_log_bind; [auto with frame|]. intros resp.
  apply extends_log_if; auto with frame.
Qed.

Lemma keeps_files_try_html_favicon (site_url base_url : string) :
  keeps_files (_try_html_favicon site_url base_url).
Proof.
  unfold _try_html_favicon. apply keeps_files_try; [|apply keeps_files_handler].
  apply keeps_files_bind; [auto with frame|]. intros resp.
  apply keeps_files_bind; [auto with frame|]. intros soup.
  apply keeps_files_rels_loop.
Qed.

Lemma extends_log_try_html_favicon (site_url base_url : string) :
  extends_log (_try_html_favicon site_url base_url).
Proof.
  unfold _try_html_favicon. apply extends_log_try; [|apply extends_log_handler].
  apply extends_log_bind; [auto with frame|]. intros resp.
  apply extends_log_bind; [auto with frame|]. intros soup.
  apply extends_log_rels_loop.
Qed.

Lemma keeps_files_resolve_favicon_url (site_url : string) :
  keeps_files (resolve_favicon_url site_url).
Proof.
  unfold resolve_favicon_url.
  apply keeps_files_bind; [auto with frame|]. intros p.
  apply keeps_files_bind; [apply keeps_files_try_favicon_ico|]. intros o.
  apply keeps_files_if; [auto with frame | apply keeps_files_try_html_favicon].
Qed.

Lemma extends_log_resolve_favicon_url (site_url : string) :
  extends_log (resolve_favicon_url site_url).
Proof.
  unfold resolve_favicon_url.
  apply extends_log_bind; [auto with frame|]. intros p.
  apply extends_log_bind; [apply extends_log_try_favicon_ico|]. intros o.
  apply extends_log_if; [auto with frame | apply extends_log_try_html_favicon].
Qed.

(** What [_try_favicon_ico] does, in one equation: one request, and the
    answer decides the result. *)
Lemma try_favicon_ico_run (base_url : string) (w : World) :
  _try_favicon_ico base_url w =
  (match respond (requests w) (base_url +:+ "/favicon.ico") with
   | Ok resp =>
       if _is_valid_icon_response resp
       then Ok (Some (base_url +:+ "/favicon.ico")) else Ok None
   | Raise e => if is_RequestError e then Ok None else Raise e
   end,
   add_request (base_url +:+ "/favicon.ico") w).
Proof.
  unfold _try_favicon_ico, try_except, mbind, prog_bind.
  rewrite session_get_run.
  destruct (respond (requests w) (base_url +:+ "/favicon.ico")) as [resp|e].
  - destruct (_is_valid_icon_response resp); reflexivity.
  - unfold except_RequestError_None. destruct (is_RequestError e); reflexivity.
Qed.

(** The rels for which no tag is found are passed over. *)
Lemma rels_loop_skip (soup : Soup) (base_url : string) (pre rest : list string) (w : World) :
  Forall (fun r => soup_find_link soup r = None) pre ->
  rels_loop soup base_url (pre ++ rest) w = rels_loop soup base_url rest w.
Proof.
  induction 1 as [|r pre Hr _ IH]; simpl; [reflexivity|].
  rewrite Hr. exact IH.
Qed.

(** A tag with an [href] whose resolved URL validates ends the loop. *)
Lemma rels_loop_hit (soup : Soup) (base_url rel : string) (rest : list string)
    (tag : LinkTag) (icon_url : string) (resp : Response) (w : World) :
  soup_find_link soup rel = Some tag ->
  Py.truthy (tag_href tag) = true ->
  urljoin base_url (dict_get (tag_href tag) "") = Ok icon_url ->
  respond (requests w) icon_url = Ok resp ->
  _is_valid_icon_response resp = true ->
  rels_loop soup base_url (rel :: rest) w = (Ok (Some icon_url), add_request icon_url w).
Proof.
  intros Hf Hh Hj Hr Hv. simpl. rewrite Hf, Hh, Hj.
  rewrite bind_lift_Ok.
  rewrite (bind_Ok _ _ w (add_request icon_url w) resp)
    by (rewrite session_get_run, Hr; reflexivity).
  rewrite Hv. reflexivity.
Qed.

(** A tag without an [href] is passed over, with no request. *)
Lemma rels_loop_no_href (soup : Soup) (base_url rel : string) (rest : list string)
    (tag : LinkTag) (w : World) :
  soup_find_link soup rel = Some tag ->
  Py.truthy (tag_href tag) = false ->
  rels_loop soup base_url (rel :: rest) w = rels_loop soup base_url rest w.
Proof. intros Hf Hh. simpl. rewrite Hf, Hh. reflexivity. Qed.

(** A tag whose resolved URL does not validate is passed over as well, once
    it was fetched: the loop goes on with the next rel. *)
Lemma rels_loop_miss (soup : Soup) (base_url rel : string) (rest : list string)
    (tag : LinkTag) (icon_url : string) (resp : Response) (w : World) :
  soup_find_link soup rel = Some tag ->
  Py.truthy (tag_href tag) = true ->
  urljoin base_url (dict_get (tag_href tag) "") = Ok icon_url ->
  respond (requests w) icon_url = Ok resp ->
  _is_valid_icon_response resp = false ->
  rels_loop soup base_url (rel :: rest) w =
  rels_loop soup base_url rest (add_request icon_url w).
Proof.
  intros Hf Hh Hj Hr Hv. simpl. rewrite Hf, Hh, Hj.
  rewrite bind_lift_Ok.
  rewrite (bind_Ok _ _ w (add_request icon_url w) resp)
    by (rewrite session_get_run, Hr; reflexivity).
  rewrite Hv. reflexivity.
Qed.

(** [_try_html_favicon] once the page is fetched and parsed. *)
Lemma try_html_favicon_parsed (site_url base_url : string) (w : World)
    (html_resp : Response) (soup : Soup) :
  respond (requests w) site_url = Ok html_resp ->
  BeautifulSoup (text html_resp) = Ok soup ->
  _try_html_favicon site_url base_url w =
  try_except (rels_loop soup base_url FAVICON_RELS) except_RequestError_None
    (add_request site_url w).
Proof.
  intros Hr Hs. unfold _try_html_favicon, try_except at 1.
  rewrite (bind_Ok _ _ w (add_request site_url w) html_resp)
    by (rewrite session_get_run, Hr; reflexivity).
  rewrite Hs, bind_lift_Ok. reflexivity.
Qed.

(** The first request of [_try_html_favicon] is for the page itself. *)
Lemma try_html_favicon_first_request (site_url base_url : string) (w : World) :
  exists l, requests (snd (_try_html_favicon site_url base_url w)) =
            requests w ++ site_url :: l.
Proof.
  unfold _try_html_favicon, try_except, mbind at 1, prog_bind.
  rewrite session_get_run.
  destruct (respond (requests w) site_url) as [resp|e].
  - set (k := (soup ← lift (BeautifulSoup (text resp)); rels_loop soup base_url FAVICON_RELS)).
    assert (Hk : extends_log k).
    { apply extends_log_bind; [auto with frame|]. intros s. apply extends_log_rels_loop. }
    destruct (Hk (add_request site_url w)) as [l Hl].
    destruct (k (add_request site_url w)) as [[o|e] w'] eqn:Hkw; simpl in *.
    + exists l. rewrite Hl, <- app_assoc. reflexivity.
    + destruct (except_RequestError_None e) as [h|] eqn:Hh; simpl.
      * apply except_RequestError_None_inv in Hh as ->. simpl.
        exists l. rewrite Hl, <- app_assoc. reflexivity.
      * exists l. rewrite Hl, <- app_assoc. reflexivity.
  - destruct (except_RequestError_None e) as [h|] eqn:Hh; simpl.
    + apply except_RequestError_None_inv in Hh as ->. simpl. exists []. reflexivity.
    + exists []. reflexivity.
Qed.

(** The HTML step returns the resolved URL of the first tag found, in the
    order of the rels, when that URL validates. *)
Lemma try_html_favicon_hit (site_url base_url : string) (w : World)
    (html_resp : Response) (soup : Soup) (pre post : list string) (rel : string)
    (tag : LinkTag) (href icon_url : string) (resp : Response) :
  respond (requests w) site_url = Ok html_resp ->
  BeautifulSoup (text html_resp) = Ok soup ->
  FAVICON_RELS = pre ++ rel :: post ->
  Forall (fun r => soup_find_link soup r = None) pre ->
  soup_find_link soup rel = Some tag ->
  tag_href tag = Some href -> href <> EmptyString ->
  urljoin base_url href = Ok icon_url ->
  respond (requests w ++ [site_url]) icon_url = Ok resp ->
  _is_valid_icon_response resp = true ->
  _try_html_favicon site_url base_url w =
  (Ok (Some icon_url), add_request icon_url (add_request site_url w)).
Proof.
  intros Hpage Hsoup Hrels Hpre Hfind Hhref Hne Hjoin Hicon Hvalid.
  rewrite (try_html_favicon_parsed _ _ _ _ _ Hpage Hsoup), Hrels.
  apply try_except_Ok. rewrite rels_loop_skip by exact Hpre.
  apply (rels_loop_hit soup base_url rel post tag icon_url resp); auto.
  - rewrite Hhref. destruct href; [contradiction | reflexivity].
  - rewrite Hhref. exact Hjoin.
Qed.

Lemma truthy_favicon_ico (base_url : string) :
  Py.truthy (Some (base_url +:+ "/favicon.ico")) = true.
Proof. destruct base_url; reflexivity. Qed.

End Locator.

(** ** Downloading one icon *)

Section Download.
Context {urllib : UrllibParse} {httpx : Httpx} {bs4 : Bs4}
        {pillow : Pillow} {outdir : OutputDir}.

Lemma download_icon_body_run (site_url name : string) (w : World) :
  download_icon_body site_url name w =
  match resolve_favicon_url site_url w with
  | (Raise e, w1) => (Raise e, w1)
  | (Ok o, w1) =>
      if Py.truthy o
      then match respond (requests w1) (dict_get o "") with
           | Raise e => (Raise e, add_request (dict_get o "") w1)
           | Ok resp => persist name resp (add_request (dict_get o "") w1)
           end
      else (Ok false, w1)
  end.
Proof.
  unfold download_icon_body, mbind at 1, prog_bind.
  destruct (resolve_favicon_url site_url w) as [[o|e] w1]; [|reflexivity].
  destruct (Py.truthy o); cbn [negb]; [|reflexivity].
  unfold mbind at 1, prog_bind. rewrite session_get_run.
  destruct (respond (requests w1) (dict_get o "")) as [resp|e]; [|reflexivity].
  unfold persist, raise_for_status, bytes_to_write.
  generalize (Py.any_in PNG_CONTENT_TYPES (dict_get (Content_Type resp) "")) as png.
  generalize (convert_png_to_ico (content resp)) as ico.
  intros ico png. destruct (is_success resp); [|reflexivity].
  unfold mbind, prog_bind, mret, prog_ret, write_file.
  destruct png; simpl; [destruct (Py.truthy_bytes ico); simpl|];
    destruct (open_wb name); reflexivity.
Qed.

(** [download_icon] on a task whose file is there: nothing happens. *)
Lemma download_icon_exists (t : IconInfo) (w : World) :
  path_exists (filename t) w = true -> download_icon t w = (Ok true, w).
Proof. intros H. unfold download_icon. rewrite H. reflexivity. Qed.

(** [download_icon] on a task whose file is not there: the body runs and
    every exception becomes [False]. *)
Lemma download_icon_fresh (t : IconInfo) (w : World) :
  path_exists (filename t) w = false ->
  download_icon t w =
  match download_icon_body (url t) (filename t) w with
  | (Ok b, w') => (Ok b, w')
  | (Raise _, w') => (Ok false, w')
  end.
Proof.
  intros H. unfold download_icon. rewrite H. unfold try_except.
  destruct (download_icon_body (url t) (filename t) w) as [[b|e] w']; [reflexivity|].
  unfold except_all_False. destruct (is_RequestError e); reflexivity.
Qed.

(** Once the path was examined, the [try] lets no exception out. *)
Lemma download_icon_never_raises (t : IconInfo) (w : World) :
  exists b, fst (download_icon t w) = Ok b.
Proof.
  destruct (path_exists (filename t) w) eqn:Hex.
  - rewrite download_icon_exists by exact Hex. eauto.
  - rewrite download_icon_fresh by exact Hex.
    destruct (download_icon_body (url t) (filename t) w) as [[b|e] w']; simpl; eauto.
Qed.

Lemma persist_files (name : string) (resp : Response) (w : World) :
  (fst (persist name resp w) <> Ok true /\ snd (persist name resp w) = w) \/
  (persist name resp w = (Ok true, put_file name (bytes_to_write resp) w)).
Proof.
  unfold persist. destruct (is_success resp); [|left; split; [discriminate|reflexivity]].
  destruct (_ && _); [left; split; [discriminate|reflexivity]|].
  destruct (open_wb name); [right; reflexivity | left; split; [discriminate|reflexivity]].
Qed.

(** The effect of [download_icon] on the output directory: none unless it
    returns [True] for a file that was not there, and then one file, the
    task's. *)
Lemma download_icon_files (t : IconInfo) (w : World) :
  files (snd (download_icon t w)) = files w \/
  (path_exists (filename t) w = false /\
   fst (download_icon t w) = Ok true /\
   exists data, files (snd (download_icon t w)) = <[filename t := data]> (files w)).
Proof.
  destruct (path_exists (filename t) w) eqn:Hex.
  - left. rewrite download_icon_exists by exact Hex. reflexivity.
  - rewrite download_icon_fresh by exact Hex. rewrite download_icon_body_run.
    pose proof (keeps_files_resolve_favicon_url (url t) w) as Hk.
    destruct (resolve_favicon_url (url t) w) as [[o|e] w1]; simpl in Hk;
      [|left; exact Hk].
    destruct (Py.truthy o); [|left; exact Hk].
    destruct (respond (requests w1) (dict_get o "")) as [resp|e]; [|left; exact Hk].
    destruct (persist_files (filename t) resp (add_request (dict_get o "") w1))
      as [[Hne Hw] | Heq].
    + left. destruct (persist _ _ _) as [[b|e] w2]; simpl in *; subst w2; exact Hk.
    + right. rewrite Heq. simpl. split; [reflexivity|]. split; [reflexivity|].
      exists (bytes_to_write resp). rewrite Hk. reflexivity.
Qed.

(** A failed task leaves the output directory as it was. *)
Lemma download_icon_false_files (t : IconInfo) (w : World) :
  fst (download_icon t w) = Ok false -> files (snd (download_icon t w)) = files w.
Proof.
  intros Hf. destruct (download_icon_files t w) as [H | (_ & Ht & _)]; [exact H|].
  rewrite Ht in Hf. discriminate.
Qed.

(** A file that is there stays as it is. *)
Lemma download_icon_keeps_existing (t : IconInfo) (w : World) (name : string)
    (b : list Byte.byte) :
  files w !! name = Some b -> files (snd (download_icon t w)) !! name = Some b.
Proof.
  intros Hb. destruct (download_icon_files t w) as [-> | (Hex & _ & data & ->)]; [exact Hb|].
  destruct (decide (filename t = name)) as [<-|Hne].
  - unfold path_exists in Hex. rewrite Hb in Hex. discriminate.
  - rewrite lookup_insert_ne by exact Hne. exact Hb.
Qed.

End Download.

(** ** The batch *)

Section Batch.
Context {urllib : UrllibParse} {httpx : Httpx} {bs4 : Bs4}
        {pillow : Pillow} {outdir : OutputDir}.

Lemma outcomes_length (tasks : list IconInfo) (w : World) :
  List.length (outcomes tasks w) = List.length tasks.
Proof.
  revert w. induction tasks as [|t tasks IH]; intros w; simpl; [reflexivity|].
  rewrite IH. reflexivity.
Qed.

Lemma count_of_total (outs : list bool) :
  (count_of true outs + count_of false outs = List.length outs)%nat.
Proof.
  unfold count_of. induction outs as [|[] outs IH]; simpl; lia.
Qed.

Lemma main_step_run (acc : Summary) (t : IconInfo) (w : World) :
  main_step acc t w =
  (Ok (if outcome t w
       then {| success_count := success_count acc + 1;
               failed_count := failed_count acc;
               failed_urls := failed_urls acc |}
       else {| success_count := success_count acc;
               failed_count := failed_count acc + 1;
               failed_urls := failed_urls acc ++ [url t] |}),
   snd (download_icon t w)).
Proof.
  unfold main_step, outcome, mbind, prog_bind.
  destruct (download_icon_never_raises t w) as [b Hb].
  destruct (download_icon t w) as [r w']. simpl in *. subst r.
  destruct b; reflexivity.
Qed.

(** The loop of [main], with its counters, in closed form. *)
Lemma main_loop_run (tasks : list IconInfo) (acc : Summary) (w : World) :
  main_loop tasks acc w =
  (Ok {| success_count := success_count acc + count_of true (outcomes tasks w);
         failed_count := failed_count acc + count_of false (outcomes tasks w);
         failed_urls := failed_urls acc ++ failed_of tasks (outcomes tasks w) |},
   world_after tasks w).
Proof.
  revert acc w. induction tasks as [|t tasks IH]; intros acc w.
  - simpl. unfold count_of. simpl. rewrite !Nat.add_0_r, app_nil_r.
    destruct acc; reflexivity.
  - cbn [main_loop]. rewrite (bind_Ok _ _ w _ _ (main_step_run acc t w)).
    rewrite IH. cbn [outcomes failed_of world_after fold_left].
    unfold count_of. cbn [List.filter].
    destruct (outcome t w); cbn [Bool.eqb List.length success_count failed_count failed_urls].
    + do 3 f_equal; lia.
    + rewrite <- app_assoc. do 3 f_equal; lia.
Qed.

Lemma world_after_app (ts1 ts2 : list IconInfo) (w : World) :
  world_after (ts1 ++ ts2) w = world_after ts2 (world_after ts1 w).
Proof. unfold world_after. apply fold_left_app. Qed.

Lemma outcomes_app (ts1 ts2 : list IconInfo) (w : World) :
  outcomes (ts1 ++ ts2) w = outcomes ts1 w ++ outcomes ts2 (world_after ts1 w).
Proof.
  revert w. induction ts1 as [|t ts1 IH]; intros w; simpl; [reflexivity|].
  rewrite IH. reflexivity.
Qed.

(** A URL is reported as failed exactly when a task with this URL has
    outcome [false]. *)
Lemma in_failed_of (tasks : list IconInfo) (outs : list bool) (u : string) :
  List.length outs = List.length tasks ->
  In u (failed_of tasks outs) <->
  exists i t, tasks !! i = Some t /\ outs !! i = Some false /\ url t = u.
Proof.
  revert outs. induction tasks as [|t tasks IH]; intros [|b outs] Hlen;
    simpl in Hlen; try discriminate.
  - simpl. split; [intros [] | intros (i & t & H & _); destruct i; discriminate].
  - injection Hlen as Hlen. specialize (IH outs Hlen). cbn [failed_of]. split.
    + intros Hin.
      assert (Hcase : (b = false /\ url t = u) \/ In u (failed_of tasks outs)).
      { destruct b; [right; exact Hin | destruct Hin as [Hu | Hin]; auto]. }
      destruct Hcase as [[-> Hu] | Hin'].
      * exists 0%nat, t. auto.
      * apply IH in Hin' as (i & t' & Ht & Ho & Hu).
        exists (S i), t'. auto.
    + intros (i & t' & Ht & Ho & Hu). destruct i as [|i]; simpl in Ht, Ho.
      * injection Ht as <-. injection Ho as ->. left. exact Hu.
      * assert (Hin : In u (failed_of tasks outs)) by (apply IH; eauto).
        destruct b; [exact Hin | right; exact Hin].
Qed.

(** Files that are there survive the whole batch. *)
Lemma world_after_keeps_existing (tasks : list IconInfo) (w : World) (name : string)
    (b : list Byte.byte) :
  files w !! name = Some b -> files (world_after tasks w) !! name = Some b.
Proof.
  revert w. induction tasks as [|t tasks IH]; intros w Hb; [exact Hb|].
  apply IH. apply download_icon_keeps_existing. exact Hb.
Qed.

Lemma path_exists_lookup (name : string) (w : World) :
  path_exists name w = true <-> exists b, files w !! name = Some b.
Proof.
  unfold path_exists. destruct (files w !! name) as [b|].
  - split; eauto.
  - split; [discriminate | intros [b Hb]; discriminate].
Qed.

(** Every task whose file was there at the start of the batch has outcome
    [true]. *)
Lemma outcomes_of_existing (tasks : list IconInfo) (w : World) (name : string)
    (i : nat) (t : IconInfo) (b : bool) :
  path_exists name w = true ->
  tasks !! i = Some t -> outcomes tasks w !! i = Some b ->
  filename t = name -> b = true.
Proof.
  revert w i. induction tasks as [|t0 tasks IH]; intros w i Hex Ht Hb Hn;
    [destruct i; discriminate|].
  destruct i as [|i]; simpl in Ht, Hb.
  - injection Ht as ->. injection Hb as <-. unfold outcome.
    rewrite download_icon_exists by (rewrite Hn; exact Hex). reflexivity.
  - apply (IH (snd (download_icon t0 w)) i); auto.
    apply path_exists_lookup in Hex as [c Hc]. apply path_exists_lookup.
    exists c. apply download_icon_keeps_existing. exact Hc.
Qed.

Lemma main_run (data : Data) (tasks : list IconInfo) (w : World) :
  get_all_http_icons data = Ok tasks -> tasks <> [] ->
  main (Some data) w =
  (Ok (Some {| success_count := count_of true (outcomes tasks w);
               failed_count := count_of false (outcomes tasks w);
               failed_urls := failed_of tasks (outcomes tasks w) |}),
   world_after tasks w).
Proof.
  intros Hg Hne. unfold main. rewrite Hg, bind_lift_Ok.
  destruct tasks as [|t tasks]; [congruence|].
  rewrite (bind_Ok _ _ w _ _ (main_loop_run (t :: tasks) summary0 w)).
  reflexivity.
Qed.

End Batch.

(** ** Splitting (the name stem of an icon-proxy URL) *)

Section Split.
Variable sep : string.
Hypothesis sep_nonempty : sep <> EmptyString.

Lemma append_assoc (a b c : string) : (a +:+ b) +:+ c = a +:+ (b +:+ c).
Proof.
  induction a as [|x a IH]; [reflexivity|].
  rewrite !append_String, IH. reflexivity.
Qed.

Lemma drop_0 (s : string) : Py.drop 0 s = s.
Proof. destruct s; reflexivity. Qed.

Lemma drop_append (a t : string) : Py.drop (String.length a) (a +:+ t) = t.
Proof.
  induction a as [|x a IH]; [apply drop_0|].
  rewrite append_String. simpl. exact IH.
Qed.

Lemma split_go_nonempty (skip : nat) (s : string) : Py.split_go sep skip s <> [].
Proof.
  revert skip. induction s as [|c s IH]; intros skip; cbn [Py.split_go]; [discriminate|].
  destruct skip as [|k]; [|apply IH].
  destruct (String.prefix sep (String c s)); [discriminate|].
  specialize (IH 0%nat). destruct (Py.split_go sep 0 s); [contradiction | simpl; discriminate].
Qed.

Lemma join_cons (p : string) (rest : list string) :
  rest <> [] -> Py.join sep (p :: rest) = p +:+ sep +:+ Py.join sep rest.
Proof. destruct rest; [contradiction | reflexivity]. Qed.

Lemma join_cons_head (c : ascii) (pieces : list string) :
  pieces <> [] -> Py.join sep (Py.cons_head c pieces) = String c (Py.join sep pieces).
Proof.
  destruct pieces as [|p [|q rest]]; [contradiction | reflexivity | reflexivity].
Qed.

Lemma prefix_skip (c : ascii) (s : string) :
  String.prefix sep (String c s) = true ->
  String c s = sep +:+ Py.drop (String.length sep - 1) s.
Proof.
  generalize sep_nonempty. generalize sep. intros [|d sep'] Hne H; [contradiction|].
  apply prefix_spec in H as [t Ht].
  rewrite append_String in Ht. injection Ht as -> ->.
  rewrite append_String. simpl. rewrite Nat.sub_0_r, drop_append. reflexivity.
Qed.

(** Joining the pieces with the separator gives the text back. *)
Lemma split_go_join (skip : nat) (s : string) :
  Py.join sep (Py.split_go sep skip s) = Py.drop skip s.
Proof.
  revert skip. induction s as [|c s IH]; intros skip.
  - destruct skip; reflexivity.
  - destruct skip as [|k]; [|apply IH]. cbn [Py.split_go].
    destruct (String.prefix sep (String c s)) eqn:Hp.
    + rewrite join_cons by apply split_go_nonempty.
      rewrite IH, append_empty_l. symmetry. apply prefix_skip. exact Hp.
    + rewrite join_cons_head by apply split_go_nonempty.
      rewrite IH, drop_0. reflexivity.
Qed.

Lemma last_item_cons (p : string) (rest : list string) :
  rest <> [] -> Py.last_item (p :: rest) = Py.last_item rest.
Proof. destruct rest; [contradiction | reflexivity]. Qed.

Lemma str_in_empty : Py.str_in sep EmptyString = false.
Proof.
  generalize sep_nonempty. generalize sep. intros [|d sep'] Hne;
    [contradiction | reflexivity].
Qed.

(** The separator does not occur in the last piece. *)
Lemma split_go_last_clean (skip : nat) (s : string) :
  Py.str_in sep (Py.last_item (Py.split_go sep skip s)) = false.
Proof.
  revert skip. induction s as [|c s IH]; intros skip.
  - exact str_in_empty.
  - destruct skip as [|k]; [|apply IH]. cbn [Py.split_go].
    destruct (String.prefix sep (String c s)) eqn:Hp.
    + rewrite last_item_cons by apply split_go_nonempty. apply IH.
    + pose proof (split_go_join 0 s) as Hj. specialize (IH 0%nat).
      destruct (Py.split_go sep 0 s) as [|p [|q rest]] eqn:Hs.
      * exfalso. exact (split_go_nonempty 0 s Hs).
      * simpl in Hj. subst p.
        change (Py.str_in sep (String c s) = false).
        rewrite str_in_cons, Hp. exact IH.
      * exact IH.
Qed.

(** Where the separator does not occur, there is one piece: the text. *)
Lemma split_absent (s : string) : Py.str_in sep s = false -> Py.split s sep = [s].
Proof.
  unfold Py.split. induction s as [|c s IH]; intros H; [reflexivity|].
  rewrite str_in_cons in H. apply orb_false_iff in H as [Hp Hs].
  cbn [Py.split_go]. rewrite Hp, (IH Hs). reflexivity.
Qed.

Lemma join_last (pieces : list string) (p q : string) :
  exists pre, Py.join sep (p :: q :: pieces) =
              pre +:+ sep +:+ Py.last_item (p :: q :: pieces).
Proof.
  revert p q. induction pieces as [|r pieces IH]; intros p q.
  - exists p. reflexivity.
  - destruct (IH q r) as [pre Hpre]. exists (p +:+ sep +:+ pre).
    rewrite join_cons by discriminate. rewrite Hpre.
    rewrite last_item_cons by discriminate.
    rewrite !append_assoc. reflexivity.
Qed.

(** [s.split(sep)[-1]]: the text after an occurrence of the separator,
    itself free of the separator; the whole text where the separator does
    not occur. *)
Lemma split_last_spec (s : string) :
  Py.str_in sep (Py.last_item (Py.split s sep)) = false /\
  (Py.str_in sep s = true ->
   exists pre, s = pre +:+ sep +:+ Py.last_item (Py.split s sep)) /\
  (Py.str_in sep s = false -> Py.last_item (Py.split s sep) = s).
Proof.
  split; [apply split_go_last_clean|]. split.
  - intros Hin. pose proof (split_go_join 0 s) as Hj. rewrite drop_0 in Hj.
    pose proof (split_go_last_clean 0 s) as Hc. unfold Py.split.
    destruct (Py.split_go sep 0 s) as [|p [|q rest]] eqn:Hs.
    + exfalso. exact (split_go_nonempty 0 s Hs).
    + simpl in Hj, Hc. subst p. unfold Py.last_item in Hc. simpl in Hc. congruence.
    + destruct (join_last rest p q) as [pre Hpre]. exists pre.
      rewrite <- Hpre. symmetry. exact Hj.
  - intros Hout. rewrite split_absent by exact Hout. reflexivity.
Qed.

End Split.

(** ** The reference model of urllib.parse *)

Lemma span_until_fst (stop : ascii -> bool) (s : string) :
  Model.str_forallb (fun c => negb (stop c)) (fst (Model.span_until stop s)) = true.
Proof.
  induction s as [|c s IH]; simpl; [reflexivity|].
  destruct (stop c) eqn:Hc; [reflexivity|].
  destruct (Model.span_until stop s) as [a b]. simpl in *.
  rewrite Hc, IH. reflexivity.
Qed.

Lemma str_forallb_weaken (p q : ascii -> bool) (s : string) :
  (forall c, p c = true -> q c = true) ->
  Model.str_forallb p s = true -> Model.str_forallb q s = true.
Proof.
  intros Hpq. induction s as [|c s IH]; simpl; [reflexivity|].
  rewrite !andb_true_iff. intros [Hc Hs]. auto.
Qed.

Lemma str_in_char_absent (c : ascii) (s : string) :
  Model.str_forallb (fun d => negb (Model.is_char c d)) s = true ->
  Py.str_in (String c EmptyString) s = false.
Proof.
  induction s as [|d s IH]; [reflexivity|].
  simpl Model.str_forallb. rewrite andb_true_iff. intros [Hd Hs].
  rewrite str_in_cons, (IH Hs), orb_false_r.
  unfold Model.is_char in Hd. apply negb_true_iff, Ascii.eqb_neq in Hd.
  simpl. destruct (ascii_dec c d); [contradiction | reflexivity].
Qed.

Lemma split_netloc_clean (rest : string) :
  Py.str_in "/" (fst (Model.split_netloc rest)) = false.
Proof.
  unfold Model.split_netloc.
  assert (Hspan : forall r,
    Py.str_in "/" (fst (Model.span_until
       (fun c => Model.is_char "/" c || Model.is_char "?" c || Model.is_char "#" c) r)) = false).
  { intros r. apply str_in_char_absent.
    eapply str_forallb_weaken; [|apply span_until_fst].
    intros c. cbv beta. rewrite !negb_true_iff, !orb_false_iff. tauto. }
  destruct (String.prefix "//" rest); [apply Hspan | reflexivity].
Qed.

(** The authority that the model parses holds no slash. *)
Lemma model_netloc_clean (u : string) (p : ParseResult) :
  Model.urlparse u = Ok p -> Py.str_in "/" (netloc p) = false.
Proof.
  unfold Model.urlparse, Model.urlsplit.
  destruct (Model.split_scheme u EmptyString) as [sch rest].
  pose proof (split_netloc_clean rest) as Hc.
  destruct (Model.split_netloc rest) as [net rest'].
  destruct (Model.bad_brackets net); [discriminate|].
  destruct (Model.cut_at "#" rest') as [rest'' frag].
  destruct (Model.cut_at "?" rest'') as [path query].
  simpl. intros [= <-]. exact Hc.
Qed.

(** * Main results *)

(** ** The locator (C2, C3) *)

(** C2. In the HTML fallback the page is fetched and parsed, and the rels
    are tried in the order [icon], [shortcut icon], [apple-touch-icon].
    For the first rel, in that order, for which a link tag is found: when
    the tag has an [href], this is resolved against the base URL with
    [urljoin] and fetched, and when the answer passes the validity check
    the resolved URL is the result (after exactly two requests, the page
    and the icon).  In particular, for a page where no tag is found for
    [icon] and [shortcut icon] and the tag found for [apple-touch-icon]
    has [href="/a.png"], the resolved [/a.png] is chosen when it
    validates. *)
Theorem try_html_favicon_first_tag
    {urllib : UrllibParse} {httpx : Httpx} {bs4 : Bs4} :
  FAVICON_RELS = ["icon"; "shortcut icon"; "apple-touch-icon"] /\
  (forall (site_url base_url : string) (w : World) (html_resp : Response) (soup : Soup)
          (pre post : list string) (rel : string) (tag : LinkTag)
          (href icon_url : string) (resp : Response),
     respond (requests w) site_url = Ok html_resp ->
     BeautifulSoup (text html_resp) = Ok soup ->
     FAVICON_RELS = pre ++ rel :: post ->
     Forall (fun r => soup_find_link soup r = None) pre ->
     soup_find_link soup rel = Some tag ->
     tag_href tag = Some href -> href <> EmptyString ->
     urljoin base_url href = Ok icon_url ->
     respond (requests w ++ [site_url]) icon_url = Ok resp ->
     _is_valid_icon_response resp = true ->
     _try_html_favicon site_url base_url w =
     (Ok (Some icon_url), add_request icon_url (add_request site_url w))) /\
  (forall (site_url base_url : string) (w : World) (html_resp : Response) (soup : Soup)
          (tag : LinkTag) (icon_url : string) (resp : Response),
     respond (requests w) site_url = Ok html_resp ->
     BeautifulSoup (text html_resp) = Ok soup ->
     soup_find_link soup "icon" = None ->
     soup_find_link soup "shortcut icon" = None ->
     soup_find_link soup "apple-touch-icon" = Some tag ->
     tag_href tag = Some "/a.png" ->
     urljoin base_url "/a.png" = Ok icon_url ->
     respond (requests w ++ [site_url]) icon_url = Ok resp ->
     _is_valid_icon_response resp = true ->
     _try_html_favicon site_url base_url w =
     (Ok (Some icon_url), add_request icon_url (add_request site_url w))).
Proof.
  split; [reflexivity|]. split.
  - intros site_url base_url w html_resp soup pre post rel tag href icon_url resp.
    apply try_html_favicon_hit.
  - intros site_url base_url w html_resp soup tag icon_url resp
           Hpage Hsoup Hicon Hshort Hfind Hhref Hjoin Hfetch Hvalid.
    apply (try_html_favicon_hit site_url base_url w html_resp soup
             ["icon"; "shortcut icon"] [] "apple-touch-icon" tag "/a.png"
             icon_url resp); auto; discriminate.
Qed.

Lemma try_html_favicon_first_tag_witness :
  _try_html_favicon (urllib := Model.urllib) (httpx := Web.httpx) (bs4 := Web.bs4)
    "https://apple.example/home" "https://apple.example"
    (add_request "https://apple.example/favicon.ico" Web.world0) =
  (Ok (Some "https://apple.example/a.png"),
   add_request "https://apple.example/a.png"
     (add_request "https://apple.example/home"
        (add_request "https://apple.example/favicon.ico" Web.world0))).
Proof.
  apply (proj2 (proj2 (@try_html_favicon_first_tag Model.urllib Web.httpx Web.bs4))
           "https://apple.example/home" "https://apple.example"
           (add_request "https://apple.example/favicon.ico" Web.world0)
           Web.apple_page [Web.stylesheet_link; Web.apple_link]
           Web.apple_link "https://apple.example/a.png" Web.png_response);
    reflexivity.
Defined.

(** C3. The locator computes the base URL as scheme, [://] and authority of
    the site URL, and its first request is for [base_url + "/favicon.ico"].
    When the answer passes the validity check that URL is the result and
    no other request is made: the page is neither fetched nor parsed.
    Only otherwise (the answer is not valid, or the request failed with a
    transport error) does the locator go on with the HTML step, whose
    first request is for the site URL. *)
Theorem resolve_favicon_url_chain
    {urllib : UrllibParse} {httpx : Httpx} {bs4 : Bs4}
    (site_url : string) (p : ParseResult) (w : World) :
  urlparse site_url = Ok p ->
  let base_url := scheme p +:+ "://" +:+ netloc p in
  let ico_url := base_url +:+ "/favicon.ico" in
  (exists l, requests (snd (resolve_favicon_url site_url w)) = requests w ++ ico_url :: l) /\
  (forall resp,
     respond (requests w) ico_url = Ok resp -> _is_valid_icon_response resp = true ->
     resolve_favicon_url site_url w = (Ok (Some ico_url), add_request ico_url w)) /\
  ((exists resp, respond (requests w) ico_url = Ok resp /\
                 _is_valid_icon_response resp = false) \/
   respond (requests w) ico_url = Raise RequestError ->
   resolve_favicon_url site_url w =
     _try_html_favicon site_url base_url (add_request ico_url w) /\
   exists l, requests (snd (resolve_favicon_url site_url w)) =
             requests w ++ ico_url :: site_url :: l) /\
  (snd (resolve_favicon_url site_url w) <> add_request ico_url w ->
   forall resp, respond (requests w) ico_url = Ok resp ->
                _is_valid_icon_response resp = false).
Proof.
  intros Hp base_url ico_url.
  assert (Hrun : resolve_favicon_url site_url w =
            match respond (requests w) ico_url with
            | Ok resp =>
                if _is_valid_icon_response resp
                then (Ok (Some ico_url), add_request ico_url w)
                else _try_html_favicon site_url base_url (add_request ico_url w)
            | Raise e =>
                if is_RequestError e
                then _try_html_favicon site_url base_url (add_request ico_url w)
                else (Raise e, add_request ico_url w)
            end).
  { unfold resolve_favicon_url. rewrite Hp, bind_lift_Ok.
    fold base_url. unfold mbind, prog_bind. rewrite try_favicon_ico_run.
    fold ico_url.
    destruct (respond (requests w) ico_url) as [resp|e].
    - destruct (_is_valid_icon_response resp); [|reflexivity].
      unfold ico_url. rewrite truthy_favicon_ico. reflexivity.
    - destruct (is_RequestError e); reflexivity. }
  assert (Hhtml : exists l,
            requests (snd (_try_html_favicon site_url base_url (add_request ico_url w))) =
            requests w ++ ico_url :: site_url :: l).
  { destruct (try_html_favicon_first_request site_url base_url (add_request ico_url w))
      as [l Hl].
    exists l. rewrite Hl. simpl. rewrite <- app_assoc. reflexivity. }
  split; [|split; [|split]].
  - rewrite Hrun. destruct Hhtml as [l Hl].
    destruct (respond (requests w) ico_url) as [resp|e].
    + destruct (_is_valid_icon_response resp); [exists []; reflexivity | eauto].
    + destruct (is_RequestError e); [eauto | exists []; reflexivity].
  - intros resp Hr Hv. rewrite Hrun, Hr, Hv. reflexivity.
  - intros Hcase.
    assert (Heq : resolve_favicon_url site_url w =
                  _try_html_favicon site_url base_url (add_request ico_url w)).
    { rewrite Hrun. destruct Hcase as [(resp & -> & ->) | ->]; reflexivity. }
    split; [exact Heq | rewrite Heq; exact Hhtml].
  - intros Hmore resp Hr. rewrite Hrun, Hr in Hmore.
    destruct (_is_valid_icon_response resp); [|reflexivity].
    exfalso. apply Hmore. reflexivity.
Qed.

Lemma resolve_favicon_url_chain_witness :
  resolve_favicon_url (urllib := Model.urllib) (httpx := Web.httpx) (bs4 := Web.bs4)
    "https://example.com/page" Web.world0 =
  (Ok (Some "https://example.com/favicon.ico"),
   add_request "https://example.com/favicon.ico" Web.world0).
Proof.
  apply (proj1 (proj2 (@resolve_favicon_url_chain Model.urllib Web.httpx Web.bs4
           "https://example.com/page" {| scheme := "https"; netloc := "example.com" |}
           Web.world0 eq_refl)) Web.ico_response); reflexivity.
Defined.

(** ** The task list (C4, C5, C6) *)

Section TaskListClaims.
Context {urllib : UrllibParse}.

Lemma occurs_proxy_segment (u : string) :
  Py.str_in "/favicon/" u = true -> Py.str_in "favicon/" u = true.
Proof.
  rewrite !str_in_spec. intros (pre & post & ->).
  exists (pre +:+ "/"), post. rewrite append_assoc. reflexivity.
Qed.

(** For a URL that holds [/favicon/], the name stem is the text after an
    occurrence of [/favicon/], and holds no further [/favicon/]. *)
Lemma icon_domain_proxy (site : Site) (u : string) :
  Py.str_in "/favicon/" u = true ->
  exists d pre, icon_domain site u = Ok d /\ u = pre +:+ "/favicon/" +:+ d /\
                Py.str_in "/favicon/" d = false.
Proof.
  intros Hin. unfold icon_domain. rewrite (occurs_proxy_segment u Hin).
  assert (Hne : "/favicon/" <> EmptyString) by discriminate.
  destruct (split_last_spec "/favicon/" Hne u) as (Hclean & Hsuffix & _).
  destruct (Hsuffix Hin) as [pre Hpre].
  exists (Py.last_item (Py.split u "/favicon/")), pre. auto.
Qed.

(** For a URL that does not hold [favicon/], the name stem is the
    authority that [urlparse] finds. *)
Lemma icon_domain_plain (site : Site) (u : string) (p : ParseResult) :
  Py.str_in "favicon/" u = false -> urlparse (entry_url site) = Ok p ->
  icon_domain site u = Ok (netloc p).
Proof.
  intros Hout Hp. unfold icon_domain. rewrite Hout.
  fold (entry_url site). rewrite Hp. reflexivity.
Qed.

Lemma task_of_in (sites : list Site) (tasks : list IconInfo) (t : IconInfo) :
  Forall2 task_of sites tasks -> In t tasks ->
  exists site, In site sites /\ task_of site t.
Proof.
  induction 1 as [|s t' sites tasks Hst _ IH]; intros Hin; [destruct Hin|].
  destruct Hin as [<- | Hin].
  - exists s. split; [left; reflexivity | exact Hst].
  - destruct (IH Hin) as (s' & Hs' & Ht). exists s'. split; [right; exact Hs' | exact Ht].
Qed.

Lemma task_of_urls (sites : list Site) (tasks : list IconInfo) :
  Forall2 task_of sites tasks -> map url tasks = map entry_url sites.
Proof.
  induction 1 as [|s t sites tasks (d & _ & ->) _ IH]; [reflexivity|].
  simpl. rewrite IH. reflexivity.
Qed.

Lemma filter_map_entry_url (sites : list Site) :
  map entry_url (List.filter eligible sites) =
  List.filter (fun u => Py.startswith u "http") (map entry_url sites).
Proof.
  induction sites as [|s sites IH]; [reflexivity|].
  simpl. unfold eligible at 1.
  destruct (Py.startswith (entry_url s) "http"); simpl; rewrite IH; reflexivity.
Qed.

(** C5 (as amended). For every task of the task list the file name is the
    name stem followed by [.ico].  The stem is taken as it comes: after
    [/favicon/] it is whatever text follows, and may be empty or hold a
    slash.  For a URL without [favicon/] it is the authority [urlparse]
    finds, so, as an authority holds no slash, it is free of slashes, and
    it is non-empty when the authority is. *)
Theorem task_filename_and_stem (data : Data) (tasks : list IconInfo) (t : IconInfo) :
  (forall u p, urlparse u = Ok p -> Py.str_in "/" (netloc p) = false) ->
  get_all_http_icons data = Ok tasks -> In t tasks ->
  filename t = domain t +:+ ".ico" /\
  (Py.str_in "/favicon/" (url t) = true ->
   exists pre, url t = pre +:+ "/favicon/" +:+ domain t) /\
  (Py.str_in "favicon/" (url t) = false ->
   exists p, urlparse (url t) = Ok p /\ domain t = netloc p /\
             Py.str_in "/" (domain t) = false /\
             (netloc p <> EmptyString -> domain t <> EmptyString)).
Proof.
  intros Hlib Hget Hin.
  apply get_all_http_icons_spec in Hget.
  destruct (task_of_in _ _ _ Hget Hin) as (site & _ & d & Hd & ->).
  simpl. split; [reflexivity|]. split.
  - intros Hproxy.
    destruct (icon_domain_proxy site (entry_url site) Hproxy) as (d' & pre & Hd' & Hpre & _).
    exists pre. congruence.
  - intros Hplain. unfold icon_domain in Hd. rewrite Hplain in Hd.
    fold (entry_url site) in Hd.
    destruct (urlparse (entry_url site)) as [p|e] eqn:Hp; [|discriminate].
    simpl in Hd. injection Hd as <-.
    exists p. split; [reflexivity|]. split; [reflexivity|].
    split; [exact (Hlib _ _ Hp) | auto].
Qed.

End TaskListClaims.

Lemma task_filename_and_stem_witness :
  filename (Web.task "https://example.com/page" "example.com") = "example.com.ico" /\
  Py.str_in "/" (domain (Web.task "https://example.com/page" "example.com")) = false /\
  domain (Web.task "https://example.com/page" "example.com") <> EmptyString.
Proof.
  destruct (@task_filename_and_stem Model.urllib
              (Web.dataset [{| j_name := None; j_url := Some "https://example.com/page" |}])
              [Web.task "https://example.com/page" "example.com"]
              (Web.task "https://example.com/page" "example.com")
              model_netloc_clean eq_refl (or_introl eq_refl))
    as (Hname & _ & Hplain).
  destruct (Hplain eq_refl) as (p & Hp & Hd & Hslash & Hne).
  split; [exact Hname|]. split; [exact Hslash|].
  apply Hne. vm_compute in Hp. injection Hp as <-. discriminate.
Defined.

(** C5, as stated, fails.  After [/favicon/] the stem is whatever follows:
    with a path it holds a slash, with nothing it is empty. *)
Lemma domain_key_unsafe :
  get_all_http_icons (urllib := Model.urllib)
    (Web.dataset [Web.site "GitHub" "https://icon.example/favicon/github.com/login";
                  Web.site "Blank" "https://icon.example/favicon/"]) =
  Ok [{| url := "https://icon.example/favicon/github.com/login";
         domain := "github.com/login"; filename := "github.com/login.ico";
         site_name := "GitHub";
         site_url := "https://icon.example/favicon/github.com/login" |};
      {| url := "https://icon.example/favicon/";
         domain := ""; filename := ".ico"; site_name := "Blank";
         site_url := "https://icon.example/favicon/" |}] /\
  Py.str_in "/" "github.com/login" = true.
Proof. split; reflexivity. Qed.

(** C4, where the code goes wrong: the test of line 76 looks for
    [favicon/], the split of line 78 for [/favicon/].  A URL with the first
    and without the second gets its whole text as name stem, which is
    neither the text after the segment nor the authority. *)
Theorem proxy_segment_mismatch :
  Py.str_in "favicon/" "https://example.com/myfavicon/logo.png" = true /\
  Py.str_in "/favicon/" "https://example.com/myfavicon/logo.png" = false /\
  Model.urlparse "https://example.com/myfavicon/logo.png" =
    Ok {| scheme := "https"; netloc := "example.com" |} /\
  get_all_http_icons (urllib := Model.urllib)
    (Web.dataset [Web.site "Logo" "https://example.com/myfavicon/logo.png"]) =
  Ok [{| url := "https://example.com/myfavicon/logo.png";
         domain := "https://example.com/myfavicon/logo.png";
         filename := "https://example.com/myfavicon/logo.png.ico";
         site_name := "Logo";
         site_url := "https://example.com/myfavicon/logo.png" |}].
Proof. repeat split; reflexivity. Qed.

Section BatchClaims.
Context {urllib : UrllibParse} {httpx : Httpx} {bs4 : Bs4}
        {pillow : Pillow} {outdir : OutputDir}.

(** C6 (as amended). An entry is in the task list exactly when its URL text
    starts with [http]: the task URLs are, in order, the entry URLs that
    pass this test.  No scheme separator and no authority is asked for.
    The other entries are left out when the list is built, and the batch
    result counts them neither as successes nor as failures: the two
    counts add up to the number of entries that pass the test, and every
    failed URL is the URL of a task. *)
Theorem task_list_membership (data : Data) (tasks : list IconInfo) :
  get_all_http_icons data = Ok tasks ->
  map url tasks =
    List.filter (fun u => Py.startswith u "http") (map entry_url (all_sites data)) /\
  (forall w s w',
     main (Some data) w = (Ok (Some s), w') ->
     (success_count s + failed_count s =
      List.length (List.filter eligible (all_sites data)))%nat /\
     forall u, In u (failed_urls s) ->
               Py.startswith u "http" = true /\ In u (map url tasks)).
Proof.
  intros Hget. pose proof (get_all_http_icons_spec data tasks Hget) as Hspec.
  assert (Hurls : map url tasks =
    List.filter (fun u => Py.startswith u "http") (map entry_url (all_sites data))).
  { rewrite (task_of_urls _ _ Hspec). apply filter_map_entry_url. }
  split; [exact Hurls|].
  intros w s w' Hmain.
  destruct tasks as [|t0 tasks0] eqn:Htasks.
  { unfold main in Hmain. rewrite Hget in Hmain. discriminate. }
  rewrite <- Htasks in *.
  rewrite (main_run data tasks w Hget) in Hmain by (rewrite Htasks; discriminate).
  injection Hmain as <- _. simpl. split.
  - rewrite count_of_total, outcomes_length.
    rewrite <- (length_map url tasks), (task_of_urls _ _ Hspec), length_map.
    reflexivity.
  - intros u Hu.
    apply in_failed_of in Hu as (i & t & Ht & _ & <-); [|apply outcomes_length].
    assert (Hin : In (url t) (map url tasks)).
    { apply in_map. apply list_elem_of_In. eapply list_elem_of_lookup_2. exact Ht. }
    split; [|exact Hin].
    rewrite Hurls in Hin. apply filter_In in Hin as [_ H]. exact H.
Qed.

End BatchClaims.

Lemma task_list_membership_witness :
  map url [Web.task "https://example.com/page" "example.com";
           {| url := "httpbin.org/get"; domain := ""; filename := ".ico";
              site_name := ""; site_url := "httpbin.org/get" |}] =
  ["https://example.com/page"; "httpbin.org/get"].
Proof.
  exact (proj1 (@task_list_membership Model.urllib Web.httpx Web.bs4 Web.pillow
                  Model.flat_dir
                  (Web.dataset [{| j_name := None; j_url := Some "https://example.com/page" |};
                                {| j_name := None; j_url := Some "/about" |};
                                {| j_name := None; j_url := None |};
                                {| j_name := None; j_url := Some "httpbin.org/get" |}])
                  [Web.task "https://example.com/page" "example.com";
                   {| url := "httpbin.org/get"; domain := ""; filename := ".ico";
                      site_name := ""; site_url := "httpbin.org/get" |}]
                  eq_refl)).
Defined.

(** C6, as stated, fails in both directions.  A relative path that starts
    with the letters [http] has no scheme and no authority and is in the
    task list; an absolute http URL written with an upper-case scheme is
    left out. *)
Lemma relative_entry_included :
  get_all_http_icons (urllib := Model.urllib)
    (Web.dataset [Web.site "Relative" "httpbin.org/get";
                  Web.site "Upper" "HTTP://example.com/"]) =
  Ok [{| url := "httpbin.org/get"; domain := ""; filename := ".ico";
         site_name := "Relative"; site_url := "httpbin.org/get" |}] /\
  ~ absolute_http (urllib := Model.urllib) "httpbin.org/get" /\
  absolute_http (urllib := Model.urllib) "HTTP://example.com/".
Proof.
  split; [reflexivity|]. split.
  - intros (p & Hp & _ & Hnet). vm_compute in Hp. injection Hp as <-.
    apply Hnet. reflexivity.
  - exists {| scheme := "http"; netloc := "example.com" |}.
    split; [reflexivity|]. split; [left; reflexivity | discriminate].
Qed.

(** ** Downloading and the batch (C7, C9, C10) *)

Section DownloadClaims.
Context {urllib : UrllibParse} {httpx : Httpx} {bs4 : Bs4}
        {pillow : Pillow} {outdir : OutputDir}.

Lemma truthy_Some (u : string) : u <> EmptyString -> Py.truthy (Some u) = true.
Proof. destruct u; [contradiction | reflexivity]. Qed.

Lemma truthy_bytes_nonempty (b : list Byte.byte) : b <> [] -> Py.truthy_bytes b = true.
Proof. destruct b; [contradiction | reflexivity]. Qed.

(** [download_icon] from the confirming fetch on. *)
Lemma download_icon_confirmed (t : IconInfo) (w w1 : World) (icon_url : string)
    (resp : Response) :
  path_exists (filename t) w = false ->
  resolve_favicon_url (url t) w = (Ok (Some icon_url), w1) ->
  icon_url <> EmptyString ->
  respond (requests w1) icon_url = Ok resp ->
  download_icon t w =
  match persist (filename t) resp (add_request icon_url w1) with
  | (Ok b, w') => (Ok b, w')
  | (Raise _, w') => (Ok false, w')
  end.
Proof.
  intros Hex Hres Hne Hresp.
  rewrite (download_icon_fresh t w Hex), download_icon_body_run, Hres.
  rewrite (truthy_Some icon_url Hne). simpl dict_get. rewrite Hresp. reflexivity.
Qed.


(** C10. For a task whose file is not there: when the locator returns no
    URL, when the confirming fetch has no success status, and when the PNG
    conversion yields no bytes, [download_icon] returns [False] and the
    output directory is as it was; no file exists at the target path.
    More generally the directory is unchanged whenever the outcome is
    [False]. *)
Theorem failure_before_write (t : IconInfo) (w : World) :
  path_exists (filename t) w = false ->
  (forall o w1,
     resolve_favicon_url (url t) w = (Ok o, w1) -> Py.truthy o = false ->
     download_icon t w = (Ok false, w1) /\ files w1 = files w) /\
  (forall icon_url w1 resp,
     resolve_favicon_url (url t) w = (Ok (Some icon_url), w1) ->
     icon_url <> EmptyString ->
     respond (requests w1) icon_url = Ok resp -> is_success resp = false ->
     download_icon t w = (Ok false, add_request icon_url w1) /\
     files (add_request icon_url w1) = files w) /\
  (forall icon_url w1 resp,
     resolve_favicon_url (url t) w = (Ok (Some icon_url), w1) ->
     icon_url <> EmptyString ->
     respond (requests w1) icon_url = Ok resp -> is_success resp = true ->
     Py.any_in PNG_CONTENT_TYPES (dict_get (Content_Type resp) "") = true ->
     convert_png_to_ico (content resp) = [] ->
     download_icon t w = (Ok false, add_request icon_url w1) /\
     files (add_request icon_url w1) = files w) /\
  (fst (download_icon t w) = Ok false ->
   files (snd (download_icon t w)) = files w /\
   path_exists (filename t) (snd (download_icon t w)) = false).
Proof.
  intros Hex. split; [|split; [|split]].
  - intros o w1 Hres Ho.
    pose proof (keeps_files_resolve_favicon_url (url t) w) as Hk.
    rewrite Hres in Hk. simpl in Hk.
    rewrite (download_icon_fresh t w Hex), download_icon_body_run, Hres, Ho.
    split; [reflexivity | exact Hk].
  - intros icon_url w1 resp Hres Hne Hresp Hfail.
    pose proof (keeps_files_resolve_favicon_url (url t) w) as Hk.
    rewrite Hres in Hk. simpl in Hk.
    rewrite (download_icon_confirmed t w w1 icon_url resp Hex Hres Hne Hresp).
    unfold persist. rewrite Hfail. split; [reflexivity | exact Hk].
  - intros icon_url w1 resp Hres Hne Hresp Hok Hpng Hempty.
    pose proof (keeps_files_resolve_favicon_url (url t) w) as Hk.
    rewrite Hres in Hk. simpl in Hk.
    rewrite (download_icon_confirmed t w w1 icon_url resp Hex Hres Hne Hresp).
    unfold persist. rewrite Hok, Hpng, Hempty. split; [reflexivity | exact Hk].
  - intros Hfalse. pose proof (download_icon_false_files t w Hfalse) as Hf.
    split; [exact Hf|]. unfold path_exists in *. rewrite Hf. exact Hex.
Qed.

Lemma failed_of_sublist (tasks : list IconInfo) (outs : list bool) :
  sublist (failed_of tasks outs) (map url tasks).
Proof.
  revert outs. induction tasks as [|t tasks IH]; intros outs; [constructor|].
  destruct outs as [|[] outs]; simpl.
  - apply sublist_nil_l.
  - apply sublist_cons. apply IH.
  - apply sublist_skip. apply IH.
Qed.

(** The batch loop where every path can be examined: it goes through the
    tasks in list order, each in the world its predecessor left, and
    through all of them.  The two counts add up to the number of tasks,
    and the failed URLs are the URLs of the tasks whose outcome is
    [False], in task order. *)
Lemma batch_result (tasks : list IconInfo) (w : World) :
  exists s,
    main_loop tasks summary0 w = (Ok s, world_after tasks w) /\
    List.length (outcomes tasks w) = List.length tasks /\
    success_count s = count_of true (outcomes tasks w) /\
    failed_count s = count_of false (outcomes tasks w) /\
    (success_count s + failed_count s = List.length tasks)%nat /\
    failed_urls s = failed_of tasks (outcomes tasks w) /\
    sublist (failed_urls s) (map url tasks) /\
    (forall u, In u (failed_urls s) <->
               exists i t, tasks !! i = Some t /\
                           outcomes tasks w !! i = Some false /\ url t = u).
Proof.
  eexists. split; [apply main_loop_run|]. simpl.
  split; [apply outcomes_length|]. split; [reflexivity|]. split; [reflexivity|].
  split; [rewrite count_of_total; apply outcomes_length|].
  split; [reflexivity|]. split; [apply failed_of_sublist|].
  intros u. apply in_failed_of. apply outcomes_length.
Qed.

Lemma count_of_lookup (outs : list bool) (i : nat) (b : bool) :
  outs !! i = Some b -> (1 <= count_of b outs)%nat.
Proof.
  unfold count_of. revert i. induction outs as [|c outs IH]; intros i Hi;
    [destruct i; discriminate|].
  destruct i as [|i]; simpl in *.
  - injection Hi as ->. rewrite Bool.eqb_reflx. simpl. lia.
  - specialize (IH i Hi). destruct (Bool.eqb b c); simpl; lia.
Qed.

(** C9. For a task whose target file is there, [download_icon] returns
    [True] and leaves the world as it is: no request is logged and no file
    is touched.  The loop counts the task as a success and adds nothing to
    the failed URLs.  Over a whole batch that holds the task, the file
    keeps its bytes to the end, the success count is at least one, and the
    task's URL is not among the failed URLs (given that tasks with this
    URL have this file name, as in a list built by [get_all_http_icons]). *)
Theorem existing_file_skipped (t : IconInfo) (w : World) :
  path_exists (filename t) w = true ->
  download_icon t w = (Ok true, w) /\
  (forall acc,
     main_step acc t w =
     (Ok {| success_count := success_count acc + 1;
            failed_count := failed_count acc;
            failed_urls := failed_urls acc |}, w)) /\
  (forall tasks s w',
     In t tasks ->
     (forall t', In t' tasks -> url t' = url t -> filename t' = filename t) ->
     main_loop tasks summary0 w = (Ok s, w') ->
     ~ In (url t) (failed_urls s) /\
     (1 <= success_count s)%nat /\
     files w' !! filename t = files w !! filename t /\
     forall ts1 ts2, tasks = ts1 ++ t :: ts2 ->
       world_after (ts1 ++ [t]) w = world_after ts1 w).
Proof.
  intros Hex. pose proof (download_icon_exists t w Hex) as Hskip.
  split; [exact Hskip|]. split.
  - intros acc. rewrite main_step_run. unfold outcome. rewrite Hskip. reflexivity.
  - intros tasks s w' Hin Hnames Hloop.
    rewrite main_loop_run in Hloop. injection Hloop as <- <-. simpl.
    split; [|split; [|split]].
    + intros Hfailed. apply in_failed_of in Hfailed as (i & t' & Ht' & Ho & Hu);
        [|apply outcomes_length].
      assert (Hin' : In t' tasks).
      { apply list_elem_of_In. eapply list_elem_of_lookup_2. exact Ht'. }
      pose proof (outcomes_of_existing tasks w (filename t) i t' false Hex Ht' Ho
                    (Hnames t' Hin' Hu)).
      discriminate.
    + apply list_elem_of_In, list_elem_of_lookup in Hin as [i Hi].
      assert (Hlt : (i < List.length (outcomes tasks w))%nat).
      { rewrite outcomes_length. eapply lookup_lt_Some. exact Hi. }
      apply lookup_lt_is_Some in Hlt as [b Hb].
      pose proof (outcomes_of_existing tasks w (filename t) i t b Hex Hi Hb eq_refl) as ->.
      apply (count_of_lookup _ i). exact Hb.
    + apply path_exists_lookup in Hex as [b Hb]. rewrite Hb.
      apply world_after_keeps_existing. exact Hb.
    + intros ts1 ts2 _. rewrite world_after_app. simpl.
      assert (Hex1 : path_exists (filename t) (world_after ts1 w) = true).
      { apply path_exists_lookup in Hex as [b Hb]. apply path_exists_lookup.
        exists b. apply world_after_keeps_existing. exact Hb. }
      unfold world_after at 1. simpl.
      rewrite (download_icon_exists t _ Hex1). reflexivity.
Qed.

End DownloadClaims.

(** ** The batch on a file system that fails (C8) *)

Section BatchStops.
Context {urllib : UrllibParse} {httpx : Httpx} {bs4 : Bs4}
        {pillow : Pillow} {outdir : OutputDir} {fs : FileSystem}.

(** What [filepath.exists()] raises leaves [download_icon], with nothing
    done. *)
Lemma fs_download_icon_raises (t : IconInfo) (w : World) (e : exn) :
  stat_error (filename t) = Some e -> Fs.download_icon t w = (Raise e, w).
Proof.
  intros Hs. unfold Fs.download_icon, mbind, prog_bind, Fs.filepath_exists.
  rewrite Hs. reflexivity.
Qed.

(** Once the path was examined, the [try] lets no exception out, a failed
    write included. *)
Lemma fs_download_icon_examined (t : IconInfo) (w : World) :
  stat_error (filename t) = None -> exists b, fst (Fs.download_icon t w) = Ok b.
Proof.
  intros Hs. unfold Fs.download_icon, mbind, prog_bind, Fs.filepath_exists.
  rewrite Hs. destruct (path_exists (filename t) w); [exists true; reflexivity|].
  unfold try_except.
  destruct (Fs.download_icon_body (url t) (filename t) w) as [[b|e] w']; [eauto|].
  unfold except_all_False. destruct (is_RequestError e); simpl; eauto.
Qed.

(** The body of the [try]: as [download_icon_body], up to the write. *)
Lemma fs_download_icon_body_run (site_url name : string) (w : World) :
  Fs.download_icon_body site_url name w =
  match resolve_favicon_url site_url w with
  | (Raise e, w1) => (Raise e, w1)
  | (Ok o, w1) =>
      if Py.truthy o
      then match respond (requests w1) (dict_get o "") with
           | Raise e => (Raise e, add_request (dict_get o "") w1)
           | Ok resp =>
               match persist name resp (add_request (dict_get o "") w1) with
               | (Ok true, w3) =>
                   match write_error name (bytes_to_write resp) with
                   | None => (Ok true, w3)
                   | Some (written, e) =>
                       (Raise e, put_file name written (add_request (dict_get o "") w1))
                   end
               | other => other
               end
           end
      else (Ok false, w1)
  end.
Proof.
  unfold Fs.download_icon_body, mbind at 1, prog_bind.
  destruct (resolve_favicon_url site_url w) as [[o|e] w1]; [|reflexivity].
  destruct (Py.truthy o); cbn [negb]; [|reflexivity].
  unfold mbind at 1, prog_bind. rewrite session_get_run.
  destruct (respond (requests w1) (dict_get o "")) as [resp|e]; [|reflexivity].
  unfold persist, raise_for_status, bytes_to_write.
  generalize (Py.any_in PNG_CONTENT_TYPES (dict_get (Content_Type resp) "")) as png.
  generalize (convert_png_to_ico (content resp)) as ico.
  intros ico png. destruct (is_success resp); [|reflexivity].
  unfold mbind, prog_bind, mret, prog_ret, Fs.write_file.
  destruct png; simpl; [destruct (Py.truthy_bytes ico); simpl; [|reflexivity]|];
    (destruct (open_wb name); [|reflexivity]).
  - destruct (write_error name ico) as [[written e]|]; reflexivity.
  - destruct (write_error name (content resp)) as [[written e]|]; reflexivity.
Qed.

(** Where the path can be examined and the write goes through, the program
    is [download_icon] as above. *)
Lemma fs_download_icon_agrees (t : IconInfo) (w : World) :
  stat_error (filename t) = None ->
  (forall data, write_error (filename t) data = None) ->
  Fs.download_icon t w = download_icon t w.
Proof.
  intros Hs Hw. unfold Fs.download_icon, download_icon, mbind, prog_bind, Fs.filepath_exists.
  rewrite Hs. destruct (path_exists (filename t) w); [reflexivity|].
  unfold try_except. rewrite fs_download_icon_body_run, download_icon_body_run.
  destruct (resolve_favicon_url (url t) w) as [[o|e] w1]; [|reflexivity].
  destruct (Py.truthy o); [|reflexivity].
  destruct (respond (requests w1) (dict_get o "")) as [resp|e]; [|reflexivity].
  rewrite Hw.
  destruct (persist (filename t) resp (add_request (dict_get o "") w1)) as [[[]|e] w3];
    reflexivity.
Qed.

Lemma fs_outcomes_length (tasks : list IconInfo) (w : World) :
  List.length (Fs.outcomes tasks w) = List.length tasks.
Proof.
  revert w. induction tasks as [|t tasks IH]; intros w; simpl; [reflexivity|].
  rewrite IH. reflexivity.
Qed.

Lemma fs_main_step_run (acc : Summary) (t : IconInfo) (w : World) :
  stat_error (filename t) = None ->
  Fs.main_step acc t w =
  (Ok (if Fs.outcome t w
       then {| success_count := success_count acc + 1;
               failed_count := failed_count acc;
               failed_urls := failed_urls acc |}
       else {| success_count := success_count acc;
               failed_count := failed_count acc + 1;
               failed_urls := failed_urls acc ++ [url t] |}),
   snd (Fs.download_icon t w)).
Proof.
  intros Hs. unfold Fs.main_step, Fs.outcome, mbind, prog_bind.
  destruct (fs_download_icon_examined t w Hs) as [b Hb].
  destruct (Fs.download_icon t w) as [r w']. simpl in *. subst r.
  destruct b; reflexivity.
Qed.

(** The loop of [main] over paths that can be examined, in closed form. *)
Lemma fs_main_loop_run (tasks : list IconInfo) (acc : Summary) (w : World) :
  Forall (fun t => stat_error (filename t) = None) tasks ->
  Fs.main_loop tasks acc w =
  (Ok {| success_count := success_count acc + count_of true (Fs.outcomes tasks w);
         failed_count := failed_count acc + count_of false (Fs.outcomes tasks w);
         failed_urls := failed_urls acc ++ failed_of tasks (Fs.outcomes tasks w) |},
   Fs.world_after tasks w).
Proof.
  intros Hall. revert acc w. induction Hall as [|t tasks Ht _ IH]; intros acc w.
  - simpl. unfold count_of. simpl. rewrite !Nat.add_0_r, app_nil_r.
    destruct acc; reflexivity.
  - cbn [Fs.main_loop]. rewrite (bind_Ok _ _ w _ _ (fs_main_step_run acc t w Ht)).
    rewrite IH. cbn [Fs.outcomes failed_of Fs.world_after fold_left].
    unfold count_of. cbn [List.filter].
    destruct (Fs.outcome t w); cbn [Bool.eqb List.length success_count failed_count failed_urls].
    + do 3 f_equal; lia.
    + rewrite <- app_assoc. do 3 f_equal; lia.
Qed.

(** The loop ends at the first path that cannot be examined. *)
Lemma fs_main_loop_stops (before after : list IconInfo) (t : IconInfo)
    (acc : Summary) (w : World) (e : exn) :
  Forall (fun t' => stat_error (filename t') = None) before ->
  stat_error (filename t) = Some e ->
  Fs.main_loop (before ++ t :: after) acc w = (Raise e, Fs.world_after before w).
Proof.
  intros Hall Ht. revert acc w.
  induction Hall as [|t0 before Ht0 _ IH]; intros acc w.
  - cbn [app Fs.main_loop Fs.world_after fold_left].
    unfold mbind, prog_bind, Fs.main_step. unfold mbind, prog_bind.
    rewrite (fs_download_icon_raises t w e Ht). reflexivity.
  - cbn [app Fs.main_loop Fs.world_after fold_left].
    rewrite (bind_Ok _ _ w _ _ (fs_main_step_run acc t0 w Ht0)). apply IH.
Qed.

(** C8 (defect of the code). [filepath.exists()] is called before the
    [try] of [download_icon].  Where it answers for every task, the loop
    of [main] does what the claim says, whatever else fails, a write
    included: it goes through all tasks in list order, each in the world
    its predecessor left, the two counts add up to the number of tasks,
    and the failed URLs are those of the tasks with outcome [False], in
    task order.  Where it raises for a task - a file name longer than the
    file system allows is enough - the exception leaves the loop: the
    tasks before that one were processed, that task and every task after
    it are not, and no count and no list of failed URLs is produced. *)
Theorem batch_stops_at_unexamined_path (tasks : list IconInfo) (w : World) :
  (Forall (fun t => stat_error (filename t) = None) tasks ->
   exists s,
     Fs.main_loop tasks summary0 w = (Ok s, Fs.world_after tasks w) /\
     List.length (Fs.outcomes tasks w) = List.length tasks /\
     success_count s = count_of true (Fs.outcomes tasks w) /\
     failed_count s = count_of false (Fs.outcomes tasks w) /\
     (success_count s + failed_count s = List.length tasks)%nat /\
     failed_urls s = failed_of tasks (Fs.outcomes tasks w) /\
     sublist (failed_urls s) (map url tasks) /\
     (forall u, In u (failed_urls s) <->
                exists i t, tasks !! i = Some t /\
                            Fs.outcomes tasks w !! i = Some false /\ url t = u)) /\
  (forall before t after e,
     tasks = before ++ t :: after ->
     Forall (fun t' => stat_error (filename t') = None) before ->
     stat_error (filename t) = Some e ->
     Fs.main_loop tasks summary0 w = (Raise e, Fs.world_after before w)).
Proof.
  split.
  - intros Hall. eexists. split; [apply fs_main_loop_run; exact Hall|]. simpl.
    split; [apply fs_outcomes_length|]. split; [reflexivity|]. split; [reflexivity|].
    split; [rewrite count_of_total; apply fs_outcomes_length|].
    split; [reflexivity|]. split; [apply failed_of_sublist|].
    intros u. apply in_failed_of. apply fs_outcomes_length.
  - intros before t after e -> Hall Ht. apply fs_main_loop_stops; assumption.
Qed.

End BatchStops.

(** ** The results on the small web *)



Lemma existing_file_skipped_witness :
  download_icon (urllib := Model.urllib) (httpx := Web.httpx) (bs4 := Web.bs4)
    (pillow := Web.pillow) (outdir := Model.flat_dir)
    (Web.task "https://example.com/page" "example.com") Web.world1 =
  (Ok true, Web.world1).
Proof.
  exact (proj1 (@existing_file_skipped Model.urllib Web.httpx Web.bs4
                  Web.pillow Model.flat_dir
                  (Web.task "https://example.com/page" "example.com") Web.world1
                  eq_refl)).
Defined.

Lemma failure_before_write_witness :
  download_icon (urllib := Model.urllib) (httpx := Web.httpx) (bs4 := Web.bs4)
    (pillow := Web.pillow) (outdir := Model.flat_dir)
    (Web.task "https://down.example/" "down.example") Web.world0 =
  (Ok false,
   add_request "https://down.example/"
     (add_request "https://down.example/favicon.ico" Web.world0)) /\
  files (add_request "https://down.example/"
           (add_request "https://down.example/favicon.ico" Web.world0)) =
  files Web.world0.
Proof.
  exact (proj1 (@failure_before_write Model.urllib Web.httpx Web.bs4
                  Web.pillow Model.flat_dir
                  (Web.task "https://down.example/" "down.example") Web.world0
                  eq_refl)
           None
           (add_request "https://down.example/"
              (add_request "https://down.example/favicon.ico" Web.world0))
           eq_refl eq_refl).
Defined.

(** A batch over four sites, two of which fail. *)
Example batch_of_four :
  main (urllib := Model.urllib) (httpx := Web.httpx) (bs4 := Web.bs4)
    (pillow := Web.pillow) (outdir := Model.flat_dir)
    (Some (Web.dataset [Web.site "a" "https://example.com/page";
                        Web.site "b" "https://down.example/";
                        Web.site "c" "https://apple.example/home";
                        Web.site "d" "https://flaky.example/"]))
    Web.world1 =
  (Ok (Some {| success_count := 2; failed_count := 2;
               failed_urls := ["https://down.example/"; "https://flaky.example/"] |}),
   put_file "apple.example.ico"
     [Byte.x00; Byte.x00; Byte.x01; Byte.x00; Byte.x00; Byte.x00]
     {| requests := ["https://down.example/favicon.ico"; "https://down.example/";
                     "https://apple.example/favicon.ico"; "https://apple.example/home";
                     "https://apple.example/a.png"; "https://apple.example/a.png";
                     "https://flaky.example/favicon.ico";
                     "https://flaky.example/favicon.ico"];
        files := files Web.world1 |}).
Proof. vm_compute. reflexivity. Qed.

(** A dataset whose second entry gives a file name of 304 characters: the
    first task is processed, the second stops the run, the third is never
    reached. *)
Lemma batch_stops_at_unexamined_path_witness :
  get_all_http_icons (urllib := Model.urllib)
    (Web.dataset [Web.site "" "https://example.com/page";
                  Web.site "" Web.long_url;
                  Web.site "" "https://apple.example/home"]) =
  Ok [Web.task "https://example.com/page" "example.com";
      Web.task Web.long_url Web.long_stem;
      Web.task "https://apple.example/home" "apple.example"] /\
  Fs.main_loop (urllib := Model.urllib) (httpx := Web.httpx) (bs4 := Web.bs4)
    (pillow := Web.pillow) (outdir := Model.flat_dir) (fs := Model.name_max)
    [Web.task "https://example.com/page" "example.com";
     Web.task Web.long_url Web.long_stem;
     Web.task "https://apple.example/home" "apple.example"]
    summary0 Web.world0 =
  (Raise OSError,
   put_file "example.com.ico" (Web.payload 120)
     (add_request "https://example.com/favicon.ico"
        (add_request "https://example.com/favicon.ico" Web.world0))).
Proof.
  split; [vm_compute; reflexivity|].
  refine (eq_trans
            (proj2 (@batch_stops_at_unexamined_path Model.urllib Web.httpx Web.bs4
                      Web.pillow Model.flat_dir Model.name_max
                      [Web.task "https://example.com/page" "example.com";
                       Web.task Web.long_url Web.long_stem;
                       Web.task "https://apple.example/home" "apple.example"]
                      Web.world0)
               [Web.task "https://example.com/page" "example.com"]
               (Web.task Web.long_url Web.long_stem)
               [Web.task "https://apple.example/home" "apple.example"]
               OSError eq_refl _ _) _).
  - constructor; [vm_compute; reflexivity | constructor].
  - vm_compute. reflexivity.
  - vm_compute. reflexivity.
Defined.

(** * More results *)

(** ** The locator returns validated URLs only *)

Section LocatorSound.
Context {urllib : UrllibParse} {httpx : Httpx} {bs4 : Bs4}.

Lemma validated_later (w w1 w' : World) (u v : string) :
  w1 = add_request v w -> validated w1 w' u -> validated w w' u.
Proof.
  intros -> (l & resp & Hlog & Hresp & Hvalid).
  exists (v :: l), resp. simpl in *.
  rewrite <- !app_assoc in *. simpl in *. auto.
Qed.

Lemma rels_loop_validated (soup : Soup) (base_url : string) (rels : list string)
    (w w' : World) (u : string) :
  rels_loop soup base_url rels w = (Ok (Some u), w') -> validated w w' u.
Proof.
  revert w. induction rels as [|rel rels IH]; intros w; simpl; [discriminate|].
  destruct (soup_find_link soup rel) as [tag|]; [|apply IH].
  destruct (Py.truthy (tag_href tag)); [|apply IH].
  destruct (urljoin base_url (dict_get (tag_href tag) "")) as [icon_url|e];
    [rewrite bind_lift_Ok | rewrite bind_lift_Raise; discriminate].
  unfold mbind, prog_bind. rewrite session_get_run.
  destruct (respond (requests w) icon_url) as [resp|e] eqn:Hresp; [|discriminate].
  destruct (_is_valid_icon_response resp) eqn:Hvalid.
  - intros [= <- <-]. exists [], resp. simpl. rewrite app_nil_r. auto.
  - intros Hrest. apply (validated_later w (add_request icon_url w) w' u icon_url eq_refl).
    apply IH. exact Hrest.
Qed.

Lemma try_html_favicon_validated (site_url base_url : string) (w w' : World) (u : string) :
  _try_html_favicon site_url base_url w = (Ok (Some u), w') -> validated w w' u.
Proof.
  unfold _try_html_favicon, try_except, mbind at 1, prog_bind.
  rewrite session_get_run.
  destruct (respond (requests w) site_url) as [resp|e].
  - destruct (BeautifulSoup (text resp)) as [soup|e];
      [rewrite bind_lift_Ok | rewrite bind_lift_Raise].
    + destruct (rels_loop soup base_url FAVICON_RELS (add_request site_url w))
        as [[o|e] w1] eqn:Hloop.
      * intros [= -> <-].
        apply (validated_later w (add_request site_url w) w1 u site_url eq_refl).
        apply (rels_loop_validated soup base_url FAVICON_RELS). exact Hloop.
      * unfold except_RequestError_None. destruct (is_RequestError e); discriminate.
    + unfold except_RequestError_None. destruct (is_RequestError e); discriminate.
  - unfold except_RequestError_None. destruct (is_RequestError e); discriminate.
Qed.

(** X1. Whatever the libraries and the network do: when
    [resolve_favicon_url] returns a URL, the last request of the run was
    for that URL, and the network's answer to that request passed
    [_is_valid_icon_response]. *)
Theorem resolve_favicon_url_validated (site_url : string) (w w' : World) (u : string) :
  resolve_favicon_url site_url w = (Ok (Some u), w') ->
  exists l resp,
    requests w' = requests w ++ l ++ [u] /\
    respond (requests w ++ l) u = Ok resp /\
    _is_valid_icon_response resp = true.
Proof.
  unfold resolve_favicon_url.
  destruct (urlparse site_url) as [p|e];
    [rewrite bind_lift_Ok | rewrite bind_lift_Raise; discriminate].
  unfold mbind, prog_bind. rewrite try_favicon_ico_run.
  set (base_url := scheme p +:+ "://" +:+ netloc p).
  assert (Hhtml : forall w1, w1 = add_request (base_url +:+ "/favicon.ico") w ->
            _try_html_favicon site_url base_url w1 = (Ok (Some u), w') ->
            validated w w' u).
  { intros w1 Hw1 Hrun.
    apply (validated_later w w1 w' u (base_url +:+ "/favicon.ico") Hw1).
    apply (try_html_favicon_validated site_url base_url). exact Hrun. }
  destruct (respond (requests w) (base_url +:+ "/favicon.ico")) as [resp|e] eqn:Hresp.
  - destruct (_is_valid_icon_response resp) eqn:Hvalid.
    + rewrite truthy_favicon_ico. intros [= <- <-].
      exists [], resp. simpl. rewrite app_nil_r. auto.
    + cbn [Py.truthy]. apply Hhtml. reflexivity.
  - destruct (is_RequestError e); [|discriminate].
    cbn [Py.truthy]. apply Hhtml. reflexivity.
Qed.

End LocatorSound.

Lemma resolve_favicon_url_validated_witness :
  exists l resp,
    requests (add_request "https://apple.example/a.png"
                (add_request "https://apple.example/home"
                   (add_request "https://apple.example/favicon.ico" Web.world0))) =
      requests Web.world0 ++ l ++ ["https://apple.example/a.png"] /\
    respond (Httpx := Web.httpx) (requests Web.world0 ++ l) "https://apple.example/a.png"
      = Ok resp /\
    _is_valid_icon_response resp = true.
Proof.
  exact (@resolve_favicon_url_validated Model.urllib Web.httpx Web.bs4
           "https://apple.example/home" Web.world0
           (add_request "https://apple.example/a.png"
              (add_request "https://apple.example/home"
                 (add_request "https://apple.example/favicon.ico" Web.world0)))
           "https://apple.example/a.png" eq_refl).
Defined.

(** ** The number of requests *)

Lemma log_bound_ret {A : Type} (a : A) : log_bound 0 (mret a : prog A).
Proof. intros w. exists []. split; [symmetry; apply app_nil_r | reflexivity]. Qed.

Lemma log_bound_lift {A : Type} (r : result A) : log_bound 0 (lift r).
Proof. intros w. exists []. split; [symmetry; apply app_nil_r | reflexivity]. Qed.

Lemma log_bound_weaken {A : Type} (n k : nat) (m : prog A) :
  (n <= k)%nat -> log_bound n m -> log_bound k m.
Proof. intros Hle Hm w. destruct (Hm w) as (l & Hl & Hn). exists l. split; [exact Hl | lia]. Qed.

Lemma log_bound_bind {A B : Type} (n k : nat) (m : prog A) (f : A -> prog B) :
  log_bound n m -> (forall a, log_bound k (f a)) -> log_bound (n + k) (x ← m; f x).
Proof.
  intros Hm Hf w. unfold mbind, prog_bind.
  destruct (Hm w) as (l & Hl & Hn). destruct (m w) as [[a|e] w1]; simpl in *.
  - destruct (Hf a w1) as (l' & Hl' & Hk). exists (l ++ l'). split.
    + rewrite Hl', Hl. symmetry. apply app_assoc.
    + rewrite length_app. lia.
  - exists l. split; [exact Hl | lia].
Qed.

Lemma log_bound_try {A : Type} (n k : nat) (m : prog A) (h : exn -> option (prog A)) :
  log_bound n m -> (forall e c, h e = Some c -> log_bound k c) ->
  log_bound (n + k) (try_except m h).
Proof.
  intros Hm Hh w. unfold try_except.
  destruct (Hm w) as (l & Hl & Hn). destruct (m w) as [[a|e] w1]; simpl in *.
  - exists l. split; [exact Hl | lia].
  - destruct (h e) as [c|] eqn:Hc; simpl.
    + destruct (Hh e c Hc w1) as (l' & Hl' & Hk). exists (l ++ l'). split.
      * rewrite Hl', Hl. symmetry. apply app_assoc.
      * rewrite length_app. lia.
    + exists l. split; [exact Hl | lia].
Qed.

Lemma log_bound_if {A : Type} (n : nat) (b : bool) (m1 m2 : prog A) :
  log_bound n m1 -> log_bound n m2 -> log_bound n (if b then m1 else m2).
Proof. destruct b; auto. Qed.

Section RequestBudget.
Context {urllib : UrllibParse} {httpx : Httpx} {bs4 : Bs4}
        {pillow : Pillow} {outdir : OutputDir}.

Lemma log_bound_session_get (u : string) : log_bound 1 (session_get u).
Proof. intros w. exists [u]. split; reflexivity. Qed.

Lemma log_bound_handler_None (e : exn) (c : prog (option string)) :
  except_RequestError_None e = Some c -> log_bound 0 c.
Proof. intros H. apply except_RequestError_None_inv in H as ->. apply log_bound_ret. Qed.

Lemma log_bound_rels_loop (soup : Soup) (base_url : string) (rels : list string) :
  log_bound (List.length rels) (rels_loop soup base_url rels).
Proof.
  induction rels as [|rel rels IH]; simpl; [apply log_bound_ret|].
  assert (IH' : log_bound (S (List.length rels)) (rels_loop soup base_url rels))
    by (apply (log_bound_weaken (List.length rels)); [lia | exact IH]).
  destruct (soup_find_link soup rel) as [tag|]; [|exact IH'].
  apply log_bound_if; [|exact IH'].
  apply (log_bound_bind 0 (S (List.length rels))); [apply log_bound_lift|].
  intros icon_url.
  apply (log_bound_bind 1 (List.length rels)); [apply log_bound_session_get|].
  intros resp. apply log_bound_if; [|exact IH].
  apply (log_bound_weaken 0); [lia | apply log_bound_ret].
Qed.

Lemma log_bound_try_favicon_ico (base_url : string) :
  log_bound 1 (_try_favicon_ico base_url).
Proof.
  unfold _try_favicon_ico.
  apply (log_bound_try 1 0); [|apply log_bound_handler_None].
  apply (log_bound_bind 1 0); [apply log_bound_session_get|].
  intros resp. apply log_bound_if; apply log_bound_ret.
Qed.

Lemma log_bound_try_html_favicon (site_url base_url : string) :
  log_bound 4 (_try_html_favicon site_url base_url).
Proof.
  unfold _try_html_favicon.
  apply (log_bound_try 4 0); [|apply log_bound_handler_None].
  apply (log_bound_bind 1 3); [apply log_bound_session_get|].
  intros resp. apply (log_bound_bind 0 3); [apply log_bound_lift|].
  intros soup. apply (log_bound_rels_loop soup base_url FAVICON_RELS).
Qed.

Lemma log_bound_resolve_favicon_url (site_url : string) :
  log_bound 5 (resolve_favicon_url site_url).
Proof.
  unfold resolve_favicon_url.
  apply (log_bound_bind 0 5); [apply log_bound_lift|]. intros p.
  apply (log_bound_bind 1 4); [apply log_bound_try_favicon_ico|]. intros o.
  apply log_bound_if; [|apply log_bound_try_html_favicon].
  apply (log_bound_weaken 0); [lia | apply log_bound_ret].
Qed.

Lemma log_bound_write_file (name : string) (data : list Byte.byte) :
  log_bound 0 (write_file name data).
Proof.
  intros w. unfold write_file. exists [].
  destruct (open_wb name); (split; [symmetry; apply app_nil_r | reflexivity]).
Qed.

Lemma log_bound_download_icon_body (site_url name : string) :
  log_bound 6 (download_icon_body site_url name).
Proof.
  unfold download_icon_body.
  apply (log_bound_bind 5 1); [apply log_bound_resolve_favicon_url|]. intros o.
  apply log_bound_if; [apply (log_bound_weaken 0); [lia | apply log_bound_ret]|].
  apply (log_bound_bind 1 0); [apply log_bound_session_get|]. intros resp.
  apply (log_bound_bind 0 0).
  { unfold raise_for_status. apply log_bound_if; [apply log_bound_ret | apply log_bound_lift]. }
  intros _.
  assert (Hw : forall data, log_bound 0 (_ ← write_file name data; mret true)).
  { intros data. apply (log_bound_bind 0 0); [apply log_bound_write_file|].
    intros _. apply log_bound_ret. }
  apply log_bound_if; [|apply Hw].
  apply log_bound_if; [apply log_bound_ret | apply Hw].
Qed.

Lemma log_bound_download_icon (t : IconInfo) : log_bound 6 (download_icon t).
Proof.
  intros w. unfold download_icon.
  destruct (path_exists (filename t) w).
  - exists []. split; [symmetry; apply app_nil_r | simpl; lia].
  - apply (log_bound_try 6 0); [apply log_bound_download_icon_body|].
    intros e c. unfold except_all_False.
    destruct (is_RequestError e); intros [= <-]; apply log_bound_ret.
Qed.

(** X2. The network cost is bounded whatever the servers answer: one run
    of the locator makes at most 5 requests (the well-known path, the page,
    one candidate per rel), one task at most 6 (the locator's and the
    confirming fetch), a batch at most 6 per task. *)
Theorem request_budget :
  (forall site_url, log_bound 5 (resolve_favicon_url site_url)) /\
  (forall t, log_bound 6 (download_icon t)) /\
  (forall tasks w, exists l,
     requests (world_after tasks w) = requests w ++ l /\
     (List.length l <= 6 * List.length tasks)%nat).
Proof.
  split; [exact log_bound_resolve_favicon_url|].
  split; [exact log_bound_download_icon|].
  induction tasks as [|t tasks IH]; intros w.
  - exists []. split; [symmetry; apply app_nil_r | simpl; lia].
  - destruct (log_bound_download_icon t w) as (l1 & Hl1 & Hn1).
    destruct (IH (snd (download_icon t w))) as (l2 & Hl2 & Hn2).
    exists (l1 ++ l2). split.
    + change (world_after (t :: tasks) w) with (world_after tasks (snd (download_icon t w))).
      rewrite Hl2, Hl1. symmetry. apply app_assoc.
    + rewrite length_app. simpl. lia.
Qed.

End RequestBudget.

(** ** Errors inside the locator *)

Section LocatorErrors.
Context {urllib : UrllibParse} {httpx : Httpx} {bs4 : Bs4}
        {pillow : Pillow} {outdir : OutputDir}.

(** X3. The [try] of [_try_html_favicon] encloses the whole loop over the
    rels: when the fetch of a candidate raises [httpx.RequestError], the
    step ends with no result and the rels after it are not tried, whatever
    they would have given. *)
Theorem candidate_transport_error_ends_html_step
    (site_url base_url : string) (w : World) (html_resp : Response) (soup : Soup)
    (pre post : list string) (rel : string) (tag : LinkTag) (href icon_url : string) :
  respond (requests w) site_url = Ok html_resp ->
  BeautifulSoup (text html_resp) = Ok soup ->
  FAVICON_RELS = pre ++ rel :: post ->
  Forall (fun r => soup_find_link soup r = None) pre ->
  soup_find_link soup rel = Some tag ->
  tag_href tag = Some href -> href <> EmptyString ->
  urljoin base_url href = Ok icon_url ->
  respond (requests w ++ [site_url]) icon_url = Raise RequestError ->
  _try_html_favicon site_url base_url w =
  (Ok None, add_request icon_url (add_request site_url w)).
Proof.
  intros Hpage Hsoup Hrels Hpre Hfind Hhref Hne Hjoin Hicon.
  rewrite (try_html_favicon_parsed _ _ _ _ _ Hpage Hsoup), Hrels.
  rewrite (try_except_Raise _ _ _ (add_request icon_url (add_request site_url w))
             RequestError); [reflexivity|].
  rewrite rels_loop_skip by exact Hpre.
  simpl. rewrite Hfind, Hhref, (truthy_Some href Hne). simpl dict_get.
  rewrite Hjoin, bind_lift_Ok.
  apply bind_Raise. rewrite session_get_run. simpl. rewrite Hicon. reflexivity.
Qed.

(** X4. Only [httpx.RequestError] is swallowed by the locator.  When the
    request for [/favicon.ico] raises another exception, the locator ends
    with that exception after this one request: the page is not fetched.
    [download_icon] reports the task as failed and writes nothing. *)
Theorem other_exception_skips_html_step
    (t : IconInfo) (p : ParseResult) (w : World) (e : exn) :
  urlparse (url t) = Ok p ->
  respond (requests w) ((scheme p +:+ "://" +:+ netloc p) +:+ "/favicon.ico") = Raise e ->
  is_RequestError e = false ->
  path_exists (filename t) w = false ->
  resolve_favicon_url (url t) w =
    (Raise e, add_request ((scheme p +:+ "://" +:+ netloc p) +:+ "/favicon.ico") w) /\
  download_icon t w =
    (Ok false, add_request ((scheme p +:+ "://" +:+ netloc p) +:+ "/favicon.ico") w).
Proof.
  intros Hp Hresp He Hex.
  assert (Hres : resolve_favicon_url (url t) w =
    (Raise e, add_request ((scheme p +:+ "://" +:+ netloc p) +:+ "/favicon.ico") w)).
  { unfold resolve_favicon_url. rewrite Hp, bind_lift_Ok.
    apply bind_Raise. rewrite try_favicon_ico_run.
    rewrite Hresp, He. reflexivity. }
  split; [exact Hres|].
  rewrite (download_icon_fresh t w Hex), download_icon_body_run, Hres. reflexivity.
Qed.

(** X5. A URL that [urlparse] rejects costs no request: the locator raises
    at once, and [download_icon] returns [False] with the world as it was. *)
Theorem unparsable_url_fails_offline (t : IconInfo) (w : World) (e : exn) :
  urlparse (url t) = Raise e ->
  path_exists (filename t) w = false ->
  resolve_favicon_url (url t) w = (Raise e, w) /\
  download_icon t w = (Ok false, w).
Proof.
  intros Hp Hex.
  assert (Hres : resolve_favicon_url (url t) w = (Raise e, w)).
  { unfold resolve_favicon_url. rewrite Hp. reflexivity. }
  split; [exact Hres|].
  rewrite (download_icon_fresh t w Hex), download_icon_body_run, Hres. reflexivity.
Qed.

End LocatorErrors.

Lemma candidate_transport_error_ends_html_step_witness :
  _try_html_favicon (urllib := Model.urllib) (httpx := Web2.httpx) (bs4 := Web2.bs4)
    "https://dead.example/home" "https://dead.example" Web.world0 =
  (Ok None,
   add_request "https://dead.example/gone.ico"
     (add_request "https://dead.example/home" Web.world0)).
Proof.
  refine (@candidate_transport_error_ends_html_step Model.urllib Web2.httpx Web2.bs4
            "https://dead.example/home" "https://dead.example" Web.world0
            Web2.page [Web2.icon_link; Web.apple_link]
            [] ["shortcut icon"; "apple-touch-icon"] "icon"
            Web2.icon_link "/gone.ico" "https://dead.example/gone.ico"
            eq_refl eq_refl eq_refl (List.Forall_nil _) eq_refl eq_refl _ eq_refl eq_refl).
  discriminate.
Defined.

Lemma other_exception_skips_html_step_witness :
  download_icon (urllib := Model.urllib) (httpx := Web2.httpx) (bs4 := Web2.bs4)
    (pillow := Web.pillow) (outdir := Model.flat_dir)
    (Web.task "https://bad.example/" "bad.example") Web.world0 =
  (Ok false, add_request "https://bad.example/favicon.ico" Web.world0).
Proof.
  exact (proj2 (@other_exception_skips_html_step Model.urllib Web2.httpx Web2.bs4
                  Web.pillow Model.flat_dir
                  (Web.task "https://bad.example/" "bad.example")
                  {| scheme := "https"; netloc := "bad.example" |}
                  Web.world0 InvalidURL eq_refl eq_refl eq_refl eq_refl)).
Defined.

Lemma unparsable_url_fails_offline_witness :
  download_icon (urllib := Model.urllib) (httpx := Web.httpx) (bs4 := Web.bs4)
    (pillow := Web.pillow) (outdir := Model.flat_dir)
    (Web.task "http://[::1/x" "broken") Web.world0 =
  (Ok false, Web.world0).
Proof.
  exact (proj2 (@unparsable_url_fails_offline Model.urllib Web.httpx Web.bs4
                  Web.pillow Model.flat_dir
                  (Web.task "http://[::1/x" "broken") Web.world0 ValueError
                  eq_refl eq_refl)).
Defined.

(** ** What a task and a batch leave behind *)

Section Leftovers.
Context {urllib : UrllibParse} {httpx : Httpx} {bs4 : Bs4}
        {pillow : Pillow} {outdir : OutputDir}.

Lemma download_icon_true_exists (t : IconInfo) (w : World) :
  fst (download_icon t w) = Ok true ->
  path_exists (filename t) (snd (download_icon t w)) = true.
Proof.
  destruct (path_exists (filename t) w) eqn:Hex.
  - rewrite (download_icon_exists t w Hex). intros _. exact Hex.
  - rewrite (download_icon_fresh t w Hex), download_icon_body_run.
    destruct (resolve_favicon_url (url t) w) as [[o|e] w1]; [|discriminate].
    destruct (Py.truthy o); [|discriminate].
    destruct (respond (requests w1) (dict_get o "")) as [resp|e]; [|discriminate].
    destruct (persist_files (filename t) resp (add_request (dict_get o "") w1))
      as [[Hne _] | Heq].
    + destruct (persist _ _ _) as [[[]|e] w2]; simpl in *; try discriminate.
      contradiction.
    + rewrite Heq. simpl. intros _. unfold path_exists. simpl.
      rewrite lookup_insert_eq. reflexivity.
Qed.

Lemma all_exist_skipped (tasks : list IconInfo) (w : World) :
  Forall (fun t => path_exists (filename t) w = true) tasks ->
  world_after tasks w = w /\
  outcomes tasks w = repeat true (List.length tasks).
Proof.
  induction 1 as [|t tasks Ht _ IH]; [split; reflexivity|].
  unfold world_after. simpl. unfold outcome.
  rewrite (download_icon_exists t w Ht). simpl.
  destruct IH as [Hw Ho]. split; [exact Hw | rewrite Ho; reflexivity].
Qed.

Lemma exists_after_batch (tasks : list IconInfo) (w : World) (name : string) :
  path_exists name w = true -> path_exists name (world_after tasks w) = true.
Proof.
  intros Hex. apply path_exists_lookup in Hex as [b Hb].
  apply path_exists_lookup. exists b. apply world_after_keeps_existing. exact Hb.
Qed.

(** Every task with outcome [True] has its file at the end of the batch. *)
Lemma success_leaves_file (tasks : list IconInfo) (w : World) (i : nat) (t : IconInfo) :
  tasks !! i = Some t -> outcomes tasks w !! i = Some true ->
  path_exists (filename t) (world_after tasks w) = true.
Proof.
  revert w i. induction tasks as [|t0 tasks IH]; intros w i Ht Ho;
    [destruct i; discriminate|].
  change (world_after (t0 :: tasks) w) with (world_after tasks (snd (download_icon t0 w))).
  destruct i as [|i]; simpl in Ht, Ho.
  - injection Ht as ->. injection Ho as Ho. apply exists_after_batch.
    apply download_icon_true_exists.
    unfold outcome in Ho.
    destruct (fst (download_icon t w)) as [b|e]; [congruence | discriminate].
  - apply (IH _ i); assumption.
Qed.

(** X7. Running the batch again resumes it.  In a second run over the world
    the first run left, every task that succeeded in the first run succeeds
    again; and when all tasks succeeded in the first run, the second run
    makes no request, writes no file and counts every task as a success. *)
Theorem rerun_resumes (tasks : list IconInfo) (w : World) :
  (forall i t,
     tasks !! i = Some t -> outcomes tasks w !! i = Some true ->
     outcomes tasks (world_after tasks w) !! i = Some true) /\
  (outcomes tasks w = repeat true (List.length tasks) ->
   main_loop tasks summary0 (world_after tasks w) =
   (Ok {| success_count := List.length tasks; failed_count := 0; failed_urls := [] |},
    world_after tasks w)).
Proof.
  split.
  - intros i t Ht Ho.
    assert (Hlt : (i < List.length (outcomes tasks (world_after tasks w)))%nat).
    { rewrite outcomes_length. eapply lookup_lt_Some. exact Ht. }
    apply lookup_lt_is_Some in Hlt as [b Hb].
    rewrite Hb. f_equal.
    apply (outcomes_of_existing tasks (world_after tasks w) (filename t) i t b); auto.
    apply (success_leaves_file tasks w i t); assumption.
  - intros Hall.
    assert (Hex : Forall (fun t => path_exists (filename t) (world_after tasks w) = true) tasks).
    { apply Forall_forall. intros t Hin.
      apply list_elem_of_lookup in Hin as [i Hi].
      apply (success_leaves_file tasks w i t Hi).
      rewrite Hall. apply lookup_lt_Some in Hi. clear -Hi.
      revert i Hi. induction (List.length tasks) as [|n IH]; intros i Hi; [lia|].
      destruct i; [reflexivity|]. simpl. apply IH. lia. }
    destruct (all_exist_skipped tasks (world_after tasks w) Hex) as [Hw Ho].
    rewrite main_loop_run, Hw, Ho. simpl.
    assert (Ht : forall n, count_of true (repeat true n) = n).
    { unfold count_of. induction n as [|n IH]; simpl; [reflexivity | rewrite IH; reflexivity]. }
    assert (Hf : forall n, count_of false (repeat true n) = 0%nat).
    { unfold count_of. induction n as [|n IH]; simpl; [reflexivity | exact IH]. }
    assert (Hu : forall (ts : list IconInfo) n, failed_of ts (repeat true n) = []).
    { induction ts as [|t ts IH]; intros n; destruct n; simpl; auto. }
    rewrite Ht, Hf, Hu. reflexivity.
Qed.

(** X8. A batch never deletes or overwrites a file, and the files it adds
    are named after its tasks: for every name, the file is at the end what
    it was at the start, or it was absent at the start and is the target of
    one of the tasks. *)
Theorem batch_only_adds_task_files (tasks : list IconInfo) (w : World) (name : string) :
  files (world_after tasks w) !! name = files w !! name \/
  (files w !! name = None /\ exists t, In t tasks /\ filename t = name).
Proof.
  revert w. induction tasks as [|t tasks IH]; intros w; [left; reflexivity|].
  change (world_after (t :: tasks) w) with (world_after tasks (snd (download_icon t w))).
  destruct (files w !! name) as [b|] eqn:Hb.
  - left. apply world_after_keeps_existing, download_icon_keeps_existing. exact Hb.
  - destruct (IH (snd (download_icon t w))) as [Hsame | (_ & t' & Hin & Hname)].
    + destruct (download_icon_files t w) as [Hf | (_ & _ & data & Hf)].
      * left. rewrite Hsame, Hf. exact Hb.
      * destruct (decide (filename t = name)) as [Heq | Hne].
        -- right. split; [reflexivity|]. exists t. split; [left; reflexivity | exact Heq].
        -- left. rewrite Hsame, Hf, lookup_insert_ne by exact Hne. exact Hb.
    + right. split; [reflexivity|]. exists t'. split; [right; exact Hin | exact Hname].
Qed.

End Leftovers.

(** ** More on the task list *)

Section TaskListMore.
Context {urllib : UrllibParse}.

Lemma sites_loop_app (l1 l2 : list Site) (acc : list IconInfo) :
  sites_loop (l1 ++ l2) acc = (r ← sites_loop l1 acc; sites_loop l2 r).
Proof.
  revert acc. induction l1 as [|site l1 IH]; intros acc; [reflexivity|].
  simpl. destruct (negb (Py.startswith (dict_get (j_url site) "") "http")); [apply IH|].
  destruct (icon_domain site (dict_get (j_url site) "")) as [d|e]; simpl; [apply IH | reflexivity].
Qed.

(** The categories only group the entries: the task list is built from the
    entries in document order. *)
Lemma get_all_http_icons_flat (data : Data) :
  get_all_http_icons data = sites_loop (all_sites data) [].
Proof.
  unfold get_all_http_icons, all_sites. generalize (@nil IconInfo) as acc.
  induction (dict_get (j_categories data) []) as [|c cats IH]; intros acc; [reflexivity|].
  simpl. rewrite sites_loop_app.
  destruct (sites_loop (dict_get (j_sites c) []) acc) as [r|e]; simpl; [apply IH | reflexivity].
Qed.

Lemma icon_domain_of_url (s1 s2 : Site) :
  entry_url s1 = entry_url s2 ->
  icon_domain s1 (entry_url s1) = icon_domain s2 (entry_url s2).
Proof.
  intros H. unfold icon_domain. fold (entry_url s1) (entry_url s2).
  rewrite H. reflexivity.
Qed.

(** X9. In a task list that [get_all_http_icons] built, the file name is a
    function of the URL: two tasks with the same URL have the same name
    stem and the same file name (so a repeated entry is downloaded once and
    skipped afterwards).  Every task's URL starts with [http], and its
    [site_url] field repeats its [url] field. *)
Theorem filename_determined_by_url (data : Data) (tasks : list IconInfo) :
  get_all_http_icons data = Ok tasks ->
  (forall t1 t2, In t1 tasks -> In t2 tasks -> url t1 = url t2 ->
                 domain t1 = domain t2 /\ filename t1 = filename t2) /\
  (forall t, In t tasks ->
             Py.startswith (url t) "http" = true /\ site_url t = url t).
Proof.
  intros Hget. apply get_all_http_icons_spec in Hget. split.
  - intros t1 t2 H1 H2 Hurl.
    destruct (task_of_in _ _ _ Hget H1) as (s1 & _ & d1 & Hd1 & ->).
    destruct (task_of_in _ _ _ Hget H2) as (s2 & _ & d2 & Hd2 & ->).
    simpl in *. rewrite (icon_domain_of_url s1 s2 Hurl) in Hd1.
    assert (d1 = d2) as -> by congruence. split; reflexivity.
  - intros t Hin.
    destruct (task_of_in _ _ _ Hget Hin) as (s & Hs & d & _ & ->).
    apply filter_In in Hs as [_ Hel]. simpl. split; [exact Hel | reflexivity].
Qed.

Lemma sites_loop_parsed (sites : list Site) (acc : list IconInfo) :
  (forall s, In s sites -> eligible s = true ->
             Py.str_in "favicon/" (entry_url s) = false ->
             exists p, urlparse (entry_url s) = Ok p) ->
  exists r, sites_loop sites acc = Ok r.
Proof.
  revert acc. induction sites as [|site sites IH]; intros acc Hp; simpl; [eauto|].
  assert (Hrest : forall s, In s sites -> eligible s = true ->
             Py.str_in "favicon/" (entry_url s) = false ->
             exists p, urlparse (entry_url s) = Ok p)
    by (intros s Hs; apply Hp; right; exact Hs).
  fold (entry_url site).
  destruct (Py.startswith (entry_url site) "http") eqn:Hel; simpl; [|apply IH, Hrest].
  unfold icon_domain. fold (entry_url site).
  destruct (Py.str_in "favicon/" (entry_url site)) eqn:Hfav; simpl; [apply IH, Hrest|].
  destruct (Hp site (or_introl eq_refl) Hel Hfav) as [p ->]. simpl. apply IH, Hrest.
Qed.

End TaskListMore.

Section TaskListErrors.
Context {urllib : UrllibParse} {httpx : Httpx} {bs4 : Bs4}
        {pillow : Pillow} {outdir : OutputDir}.

(** X10. One entry whose URL [urlparse] rejects stops the whole run: when
    the first entry that needs parsing and fails to parse is met,
    [get_all_http_icons] raises, whatever the other entries are, and [main]
    ends with that exception before any request is made. *)
Theorem malformed_url_aborts_run (data : Data) (pre post : list Site) (site : Site)
    (e : exn) (w : World) :
  all_sites data = pre ++ site :: post ->
  (forall s, In s pre -> eligible s = true ->
             Py.str_in "favicon/" (entry_url s) = false ->
             exists p, urlparse (entry_url s) = Ok p) ->
  eligible site = true ->
  Py.str_in "favicon/" (entry_url site) = false ->
  urlparse (entry_url site) = Raise e ->
  get_all_http_icons data = Raise e /\ main (Some data) w = (Raise e, w).
Proof.
  intros Hsites Hpre Hel Hfav Hparse.
  assert (Hget : get_all_http_icons data = Raise e).
  { rewrite get_all_http_icons_flat, Hsites, sites_loop_app.
    destruct (sites_loop_parsed pre [] Hpre) as [r ->]. simpl.
    fold (entry_url site). unfold eligible in Hel. rewrite Hel. simpl.
    unfold icon_domain. fold (entry_url site). rewrite Hfav, Hparse. reflexivity. }
  split; [exact Hget|]. unfold main. rewrite Hget. reflexivity.
Qed.

Lemma sites_loop_none_eligible (sites : list Site) (acc : list IconInfo) :
  List.filter eligible sites = [] -> sites_loop sites acc = Ok acc.
Proof.
  induction sites as [|site sites IH]; [reflexivity|].
  simpl. fold (entry_url site). unfold eligible at 1.
  destruct (Py.startswith (entry_url site) "http"); [discriminate | exact IH].
Qed.

(** X11. With nothing to do, [main] does nothing: when there is no dataset,
    or the dataset has no entry whose URL starts with [http] (no
    [categories] key, empty categories, entries without a [url]), [main]
    returns before the loop, with no request made and no file written. *)
Theorem main_without_tasks :
  (forall w, main None w = (Ok None, w)) /\
  (forall data w,
     List.filter eligible (all_sites data) = [] -> main (Some data) w = (Ok None, w)) /\
  (forall w, main (Some {| j_categories := None |}) w = (Ok None, w)).
Proof.
  assert (H : forall data w,
     List.filter eligible (all_sites data) = [] -> main (Some data) w = (Ok None, w)).
  { intros data w Hnone. unfold main.
    rewrite get_all_http_icons_flat, (sites_loop_none_eligible _ _ Hnone). reflexivity. }
  split; [reflexivity|]. split; [exact H|].
  intros w. apply H. reflexivity.
Qed.

End TaskListErrors.

Lemma filename_determined_by_url_witness :
  domain {| url := "https://example.com/a"; domain := "example.com";
            filename := "example.com.ico"; site_name := "First";
            site_url := "https://example.com/a" |} =
  domain {| url := "https://example.com/a"; domain := "example.com";
            filename := "example.com.ico"; site_name := "Second";
            site_url := "https://example.com/a" |} /\
  filename {| url := "https://example.com/a"; domain := "example.com";
              filename := "example.com.ico"; site_name := "First";
              site_url := "https://example.com/a" |} =
  filename {| url := "https://example.com/a"; domain := "example.com";
              filename := "example.com.ico"; site_name := "Second";
              site_url := "https://example.com/a" |}.
Proof.
  exact (proj1 (@filename_determined_by_url Model.urllib
                  (Web.dataset [Web.site "First" "https://example.com/a";
                                Web.site "Second" "https://example.com/a"])
                  [{| url := "https://example.com/a"; domain := "example.com";
                      filename := "example.com.ico"; site_name := "First";
                      site_url := "https://example.com/a" |};
                   {| url := "https://example.com/a"; domain := "example.com";
                      filename := "example.com.ico"; site_name := "Second";
                      site_url := "https://example.com/a" |}]
                  eq_refl)
           _ _ (or_introl eq_refl) (or_intror (or_introl eq_refl)) eq_refl).
Defined.

Lemma malformed_url_aborts_run_witness :
  main (urllib := Model.urllib) (httpx := Web.httpx) (bs4 := Web.bs4)
    (pillow := Web.pillow) (outdir := Model.flat_dir)
    (Some (Web.dataset [Web.site "good" "https://example.com/page";
                        Web.site "broken" "http://[::1/x";
                        Web.site "later" "https://apple.example/home"]))
    Web.world0 =
  (Raise ValueError, Web.world0).
Proof.
  refine (proj2 (@malformed_url_aborts_run Model.urllib Web.httpx Web.bs4
                   Web.pillow Model.flat_dir
                   (Web.dataset [Web.site "good" "https://example.com/page";
                                 Web.site "broken" "http://[::1/x";
                                 Web.site "later" "https://apple.example/home"])
                   [Web.site "good" "https://example.com/page"]
                   [Web.site "later" "https://apple.example/home"]
                   (Web.site "broken" "http://[::1/x") ValueError Web.world0
                   eq_refl _ eq_refl eq_refl eq_refl)).
  intros s [<- | []] _ _. eexists. reflexivity.
Defined.

(** ** Reading the dataset *)

Lemma append_length (a b : string) :
  String.length (a +:+ b) = (String.length a + String.length b)%nat.
Proof.
  induction a as [|c a IH]; [reflexivity|].
  rewrite append_String. simpl. rewrite IH. reflexivity.
Qed.

Lemma append_same_length (a b x y : string) :
  a +:+ x = b +:+ y -> String.length a = String.length b -> a = b /\ x = y.
Proof.
  revert b. induction a as [|c a IH]; intros [|d b] H Hlen; try discriminate.
  - split; [reflexivity | exact H].
  - rewrite !append_String in H. injection H as -> H. injection Hlen as Hlen.
    destruct (IH b H Hlen) as [-> ->]. split; reflexivity.
Qed.

(** [after_first] finds the first occurrence. *)
Lemma after_first_spec (head s rest : string) :
  after_first head s = Some rest ->
  exists pre, s = pre +:+ head +:+ rest /\
    forall pre' rest', s = pre' +:+ head +:+ rest' ->
                       (String.length pre <= String.length pre')%nat.
Proof.
  revert rest. induction s as [|c s IH]; intros rest.
  - cbn [after_first]. destruct (String.prefix head EmptyString) eqn:Hp; [|discriminate].
    intros [= <-]. exists EmptyString. split; [|intros; simpl; lia].
    apply prefix_spec in Hp as [t Ht]. rewrite append_empty_l.
    destruct head; [reflexivity | rewrite append_String in Ht; discriminate].
  - cbn [after_first]. destruct (String.prefix head (String c s)) eqn:Hp.
    + intros [= <-]. exists EmptyString. split; [|intros; simpl; lia].
      apply prefix_spec in Hp as [t Ht]. rewrite append_empty_l, Ht, drop_append.
      reflexivity.
    + intros Hrest. destruct (IH rest Hrest) as (pre & -> & Hmin).
      exists (String c pre). split; [rewrite append_String; reflexivity|].
      intros [|d pre'] rest' Heq.
      * exfalso. rewrite append_empty_l in Heq.
        assert (String.prefix head (String c (pre +:+ head +:+ rest)) = true)
          by (apply prefix_spec; eauto).
        congruence.
      * rewrite append_String in Heq. injection Heq as _ Heq.
        specialize (Hmin pre' rest' Heq). simpl. lia.
Qed.

Lemma after_first_none (head s : string) :
  after_first head s = None <-> Py.str_in head s = false.
Proof.
  induction s as [|c s IH].
  - cbn [after_first]. rewrite str_in_nil, orb_false_r.
    destruct (String.prefix head EmptyString); split; congruence.
  - cbn [after_first]. rewrite str_in_cons.
    destruct (String.prefix head (String c s)); simpl; [split; discriminate | exact IH].
Qed.

Lemma str_in_char_cons (c x : ascii) (s : string) :
  Py.str_in (String c EmptyString) (String x s) =
  Ascii.eqb x c || Py.str_in (String c EmptyString) s.
Proof.
  rewrite str_in_cons. f_equal. simpl.
  destruct (ascii_dec c x) as [->|Hne].
  - rewrite Ascii.eqb_refl. destruct s; reflexivity.
  - symmetry. apply Ascii.eqb_neq. congruence.
Qed.

Lemma upto_last_none (c : ascii) (s : string) :
  upto_last c s = None <-> Py.str_in (String c EmptyString) s = false.
Proof.
  induction s as [|x s IH]; [split; reflexivity|].
  cbn [upto_last]. rewrite str_in_char_cons, orb_false_iff, <- IH.
  destruct (upto_last c s); [split; [discriminate | intros [_ H]; discriminate]|].
  destruct (Ascii.eqb x c); split; try discriminate; auto.
  intros [H _]. discriminate.
Qed.

(** [upto_last] cuts behind the last occurrence. *)
Lemma upto_last_spec (c : ascii) (s r : string) :
  upto_last c s = Some r ->
  exists body tail, r = body +:+ String c EmptyString /\ s = r +:+ tail /\
                    Py.str_in (String c EmptyString) tail = false.
Proof.
  revert r. induction s as [|d s IH]; intros r; cbn [upto_last]; [discriminate|].
  destruct (upto_last c s) as [r'|] eqn:Hr.
  - intros [= <-]. destruct (IH r' eq_refl) as (body & tail & -> & Hs & Ht).
    exists (String d body), tail. rewrite !append_String. rewrite <- Hs. auto.
  - destruct (Ascii.eqb_spec d c) as [->|Hne]; [|discriminate].
    intros [= <-]. exists EmptyString, s. split; [reflexivity|]. split; [reflexivity|].
    apply upto_last_none. exact Hr.
Qed.

Lemma upto_last_complete (c : ascii) (body tail : string) :
  Py.str_in (String c EmptyString) tail = false ->
  upto_last c (body +:+ String c EmptyString +:+ tail) = Some (body +:+ String c EmptyString).
Proof.
  intros Ht. apply upto_last_none in Ht.
  induction body as [|d body IH].
  - rewrite !append_empty_l, append_String, append_empty_l. cbn [upto_last].
    rewrite Ht, Ascii.eqb_refl. reflexivity.
  - rewrite (append_String d body (String c EmptyString +:+ tail)),
            (append_String d body (String c EmptyString)).
    cbn [upto_last]. rewrite IH. reflexivity.
Qed.

Lemma mock_data_head_split (pre rest : string) :
  pre +:+ "export const mockData = " +:+ "{" +:+ rest = pre +:+ MOCK_DATA_HEAD +:+ rest.
Proof.
  unfold MOCK_DATA_HEAD.
  change "export const mockData = {" with ("export const mockData = " +:+ "{").
  rewrite !append_assoc. reflexivity.
Qed.

(** The group of a successful search. *)
Lemma search_mock_data_shape (content g : string) :
  search_mock_data content = Some g ->
  exists pre body tail,
    content = pre +:+ "export const mockData = " +:+ g +:+ tail /\
    g = "{" +:+ body +:+ "}" /\
    Py.str_in "}" tail = false /\
    (forall pre' rest', content = pre' +:+ MOCK_DATA_HEAD +:+ rest' ->
                        (String.length pre <= String.length pre')%nat).
Proof.
  unfold search_mock_data.
  destruct (after_first MOCK_DATA_HEAD content) as [rest|] eqn:Hrest; [|discriminate].
  destruct (upto_last "}" rest) as [r|] eqn:Hr; [|discriminate].
  intros [= <-].
  destruct (after_first_spec _ _ _ Hrest) as (pre & Hc & Hmin).
  destruct (upto_last_spec _ _ _ Hr) as (body & tail & -> & Hrest' & Ht).
  exists pre, body, tail. split; [|split; [reflexivity | split; [exact Ht | exact Hmin]]].
  rewrite Hc, Hrest', <- mock_data_head_split, !append_assoc. reflexivity.
Qed.

(** A text of that shape is found, with that group. *)
Lemma search_mock_data_found (pre body tail : string) :
  Py.str_in "}" tail = false ->
  (forall pre' rest',
     pre +:+ "export const mockData = " +:+ ("{" +:+ body +:+ "}") +:+ tail =
       pre' +:+ MOCK_DATA_HEAD +:+ rest' ->
     (String.length pre <= String.length pre')%nat) ->
  search_mock_data
    (pre +:+ "export const mockData = " +:+ ("{" +:+ body +:+ "}") +:+ tail) =
  Some ("{" +:+ body +:+ "}").
Proof.
  intros Ht Hmin. unfold search_mock_data.
  set (content := pre +:+ "export const mockData = " +:+ ("{" +:+ body +:+ "}") +:+ tail) in *.
  assert (Hc : content = pre +:+ MOCK_DATA_HEAD +:+ (body +:+ "}" +:+ tail)).
  { unfold content. rewrite <- mock_data_head_split, !append_assoc. reflexivity. }
  destruct (after_first MOCK_DATA_HEAD content) as [rest|] eqn:Hrest.
  - destruct (after_first_spec _ _ _ Hrest) as (pre0 & Hc0 & Hmin0).
    assert (Hlen : String.length pre0 = String.length pre).
    { pose proof (Hmin0 _ _ Hc). pose proof (Hmin _ _ Hc0). lia. }
    rewrite Hc in Hc0. symmetry in Hc0.
    destruct (append_same_length _ _ _ _ Hc0 Hlen) as [_ Heq].
    apply String.app_inj in Heq. subst rest.
    rewrite (upto_last_complete "}" body tail Ht). reflexivity.
  - exfalso. apply after_first_none, str_in_false in Hrest. apply Hrest.
    exists pre, (body +:+ "}" +:+ tail). exact Hc.
Qed.

(** X12. What [extract_mock_data] hands to [json.loads].  The search
    succeeds exactly on a text of the form
    [pre ++ "export const mockData = " ++ g ++ tail] where [g] opens with a
    brace at the first place the head occurs, [g] closes with a brace, and
    [tail] holds no closing brace; the group is then that [g].  So the
    group runs from the first opening to the LAST closing brace of the file:
    a [;] or a comment after the object is left out, any later brace is
    swallowed. *)
Theorem search_mock_data_span (content g : string) :
  search_mock_data content = Some g <->
  exists pre body tail,
    content = pre +:+ "export const mockData = " +:+ g +:+ tail /\
    g = "{" +:+ body +:+ "}" /\
    Py.str_in "}" tail = false /\
    (forall pre' rest', content = pre' +:+ MOCK_DATA_HEAD +:+ rest' ->
                        (String.length pre <= String.length pre')%nat).
Proof.
  split; [apply search_mock_data_shape|].
  intros (pre & body & tail & -> & -> & Ht & Hmin).
  apply search_mock_data_found; assumption.
Qed.

(** The pattern on two files: an object followed by a semicolon, and an
    object followed by a second export. *)
Example search_mock_data_examples :
  search_mock_data "// sites  export const mockData = {categories: []};" =
    Some "{categories: []}" /\
  search_mock_data "export const mockData = {a: 1}; export const more = {b: 2};" =
    Some "{a: 1}; export const more = {b: 2}" /\
  search_mock_data "export const mockData = [1, 2];" = None.
Proof. repeat split; reflexivity. Qed.

Section ReadDatasetResults.
Context {urllib : UrllibParse} {httpx : Httpx} {bs4 : Bs4}
        {pillow : Pillow} {outdir : OutputDir} {mockfile : MockFile} {json : Json}.

(** X13. From the file to the run.  For a file that exists and reads as
    [pre ++ "export const mockData = " ++ g ++ tail], with [g] from the
    first opening brace after the head to the last closing brace of the
    text, [extract_mock_data] returns what [json.loads] makes of [g], and
    [None] when [json.loads] raises.  When the file is missing, cannot be
    read, holds no such object or does not parse, no exception leaves
    [extract_mock_data], and [main] ends without a request or a file. *)
Theorem extract_mock_data_reads :
  (forall pre body tail,
     mock_exists = true ->
     mock_read = Ok (pre +:+ "export const mockData = " +:+ ("{" +:+ body +:+ "}") +:+ tail) ->
     Py.str_in "}" tail = false ->
     (forall pre' rest',
        pre +:+ "export const mockData = " +:+ ("{" +:+ body +:+ "}") +:+ tail =
          pre' +:+ MOCK_DATA_HEAD +:+ rest' ->
        (String.length pre <= String.length pre')%nat) ->
     extract_mock_data =
       match json_loads ("{" +:+ body +:+ "}") with
       | Ok d => Some d
       | Raise _ => None
       end) /\
  (mock_exists = false \/
   (exists e, mock_read = Raise e) \/
   (exists content, mock_read = Ok content /\ Py.str_in MOCK_DATA_HEAD content = false) \/
   (exists content, mock_read = Ok content /\ Py.str_in "}" content = false) \/
   (exists content g e, mock_read = Ok content /\ search_mock_data content = Some g /\
                        json_loads g = Raise e) ->
   extract_mock_data = None /\ forall w, main_of_file w = (Ok None, w)).
Proof.
  split.
  - intros pre body tail Hex Hread Ht Hmin.
    unfold extract_mock_data, extract_mock_data_body. rewrite Hex, Hread. simpl.
    rewrite (search_mock_data_found pre body tail Ht Hmin).
    destruct (json_loads ("{" +:+ body +:+ "}")); reflexivity.
  - intros Hcase.
    assert (Hnone : extract_mock_data = None).
    { unfold extract_mock_data, extract_mock_data_body.
      destruct Hcase as [-> | [[e ->] | [(txt & -> & Hhead) | [(txt & -> & Hbrace)
                        | (txt & g & e & -> & Hg & Hj)]]]].
      - reflexivity.
      - destruct mock_exists; reflexivity.
      - destruct mock_exists; [|reflexivity]. simpl.
        unfold search_mock_data.
        rewrite (proj2 (after_first_none MOCK_DATA_HEAD txt) Hhead). reflexivity.
      - destruct mock_exists; [|reflexivity]. simpl.
        destruct (search_mock_data txt) as [g|] eqn:Hg; [|reflexivity].
        exfalso. apply search_mock_data_shape in Hg as (pre & body & tail & -> & -> & _).
        apply str_in_false in Hbrace. apply Hbrace.
        exists (pre +:+ "export const mockData = " +:+ "{" +:+ body), tail.
        rewrite !append_assoc. reflexivity.
      - destruct mock_exists; [|reflexivity]. simpl. rewrite Hg. simpl. rewrite Hj.
        reflexivity. }
    split; [exact Hnone|]. intros w. unfold main_of_file. rewrite Hnone. reflexivity.
Qed.

End ReadDatasetResults.

Lemma extract_mock_data_reads_witness :
  extract_mock_data (mockfile := WebFile.mockfile) (json := WebFile.json) =
  Some WebFile.one_site.
Proof.
  refine (proj1 (@extract_mock_data_reads Model.urllib Web.httpx Web.bs4 Web.pillow
                   Model.flat_dir WebFile.mockfile WebFile.json)
            "// sites  " WebFile.body ";" eq_refl eq_refl eq_refl _).
  intros pre' rest' Heq.
  assert (Hfirst : after_first MOCK_DATA_HEAD
                     ("// sites  " +:+ "export const mockData = " +:+
                      ("{" +:+ WebFile.body +:+ "}") +:+ ";") =
                   Some (WebFile.body +:+ "};")) by (vm_compute; reflexivity).
  destruct (after_first_spec _ _ _ Hfirst) as (pre0 & Hpre0 & Hmin).
  apply (f_equal String.length) in Hpre0.
  rewrite (append_length pre0), (append_length MOCK_DATA_HEAD) in Hpre0.
  specialize (Hmin pre' rest' Heq).
  remember (String.length pre0) as n eqn:Hn. clear Hn.
  match type of Hpre0 with
  | ?L = (n + (?H + ?R))%nat =>
      let l := eval vm_compute in L in
      let h := eval vm_compute in H in
      let r := eval vm_compute in R in
      change (l = (n + (h + r))%nat) in Hpre0
  end.
  change (String.length "// sites  ") with 10%nat. lia.
Defined.

(** ** The first version of the script (test.py) *)

Section TestPyResults.
Context {urllib : UrllibParse} {httpx : Httpx} {bs4 : Bs4}
        {pillow : Pillow} {outdir : OutputDir} {stream : RequestsStream}.

Lemma testpy_sites_loop_same (sites : list Site) (acc : list IconInfo) :
  TestPy.sites_loop sites acc = sites_loop sites acc.
Proof.
  revert acc. induction sites as [|site sites IH]; intros acc; [reflexivity|].
  simpl. destruct (Py.startswith (dict_get (j_url site) "") "http"); simpl; [|apply IH].
  unfold icon_domain, make_icon_info.
  destruct (Py.str_in "favicon/" (dict_get (j_url site) "")); simpl; [apply IH|].
  destruct (urlparse (dict_get (j_url site) "")); simpl; [apply IH | reflexivity].
Qed.

(** X14. Both versions of the script build the same task list from the
    same dataset, and raise on the same datasets. *)
Theorem testpy_same_task_list (data : Data) :
  TestPy.get_all_http_icons data = get_all_http_icons data.
Proof.
  unfold TestPy.get_all_http_icons, get_all_http_icons.
  generalize (@nil IconInfo) as acc.
  induction (dict_get (j_categories data) []) as [|c cats IH]; intros acc; [reflexivity|].
  simpl. rewrite testpy_sites_loop_same.
  destruct (sites_loop (dict_get (j_sites c) []) acc); simpl; [apply IH | reflexivity].
Qed.

Lemma testpy_check_unfold (r : Response) :
  TestPy.is_ico_response r =
  TestPy.ok r && negb (List.length (content r) <? MIN_ICON_SIZE)%nat &&
  Py.any_in ICON_CONTENT_TYPES (dict_get (Content_Type r) "").
Proof.
  unfold TestPy.is_ico_response, Py.any_in, ICON_CONTENT_TYPES, MIN_ICON_SIZE.
  cbn [existsb]. rewrite orb_false_r. f_equal. f_equal.
  destruct (Nat.leb_spec 100 (List.length (content r)));
    destruct (Nat.ltb_spec (List.length (content r)) 100); simpl; try reflexivity; lia.
Qed.

Lemma valid_check_unfold (r : Response) :
  _is_valid_icon_response r =
  is_success r && negb (List.length (content r) <? MIN_ICON_SIZE)%nat &&
  (Py.any_in ICON_CONTENT_TYPES (dict_get (Content_Type r) "") ||
   Py.any_in PNG_CONTENT_TYPES (dict_get (Content_Type r) "")).
Proof.
  unfold _is_valid_icon_response.
  destruct (is_success r); simpl; [|reflexivity].
  destruct (List.length (content r) <? MIN_ICON_SIZE)%nat; reflexivity.
Qed.

Lemma success_is_ok (r : Response) : is_success r = true -> TestPy.ok r = true.
Proof.
  unfold is_success, TestPy.ok. rewrite andb_true_iff, !Z.leb_le. intros [H1 H2].
  apply negb_true_iff, andb_false_iff. left. apply Z.leb_gt. lia.
Qed.

(** X15. The two versions' acceptance tests, compared.  They give the same
    verdict on every response whose status is a success or an error (so
    that [resp.ok] and [is_success] agree) and whose Content-Type holds no
    PNG type.  Where they differ, the later version alone accepts a
    response, this has a PNG type; where the first version alone accepts
    one, its status is no 4xx or 5xx but no success either (a 1xx or 3xx
    status, which [resp.ok] lets pass). *)
Theorem acceptance_tests_compared :
  (forall r, TestPy.ok r = is_success r ->
             Py.any_in PNG_CONTENT_TYPES (dict_get (Content_Type r) "") = false ->
             TestPy.is_ico_response r = _is_valid_icon_response r) /\
  (forall r, _is_valid_icon_response r = true -> TestPy.is_ico_response r = false ->
             Py.any_in PNG_CONTENT_TYPES (dict_get (Content_Type r) "") = true /\
             Py.any_in ICON_CONTENT_TYPES (dict_get (Content_Type r) "") = false) /\
  (forall r, TestPy.is_ico_response r = true -> _is_valid_icon_response r = false ->
             is_success r = false /\
             (status_code r < 200 \/ 300 <= status_code r < 400 \/ 600 <= status_code r)%Z).
Proof.
  split; [|split].
  - intros r Hok Hpng. rewrite testpy_check_unfold, valid_check_unfold, Hok, Hpng.
    rewrite orb_false_r. reflexivity.
  - intros r. rewrite testpy_check_unfold, valid_check_unfold.
    intros Hv Ht. apply andb_true_iff in Hv as [Hv Hty].
    apply andb_true_iff in Hv as [Hs Hl].
    rewrite (success_is_ok r Hs), Hl, !andb_true_l in Ht.
    rewrite Ht, orb_false_l in Hty. split; [exact Hty | exact Ht].
  - intros r. rewrite testpy_check_unfold, valid_check_unfold.
    intros Ht Hv. apply andb_true_iff in Ht as [Ht Hty].
    apply andb_true_iff in Ht as [Hok Hl].
    rewrite Hl, Hty, orb_true_l, !andb_true_r in Hv.
    split; [exact Hv|].
    unfold is_success in Hv. unfold TestPy.ok in Hok.
    apply negb_true_iff in Hok.
    apply andb_false_iff in Hv. apply andb_false_iff in Hok.
    rewrite !Z.leb_gt in Hv. rewrite Z.leb_gt, Z.ltb_ge in Hok. lia.
Qed.

Lemma bind_run {A B : Type} (m : prog A) (f : A -> prog B) (w : World) :
  (x ← m; f x) w =
  match m w with
  | (Ok a, w') => f a w'
  | (Raise e, w') => (Raise e, w')
  end.
Proof. reflexivity. Qed.

End TestPyResults.

Section TestPyDownload.
Context {urllib : UrllibParse} {httpx : Httpx} {bs4 : Bs4}
        {outdir : OutputDir} {stream : RequestsStream}.

Lemma put_file_twice (name : string) (a b : list Byte.byte) (w : World) :
  put_file name b (put_file name a w) = put_file name b w.
Proof. unfold put_file. simpl. rewrite insert_insert_eq. reflexivity. Qed.

(** Writing the chunks appends them, in order, to what the file holds. *)
Lemma write_chunks_run (name : string) (chunks : list (list Byte.byte))
    (old : list Byte.byte) (w : World) :
  TestPy.write_chunks name chunks (put_file name old w) =
  (Ok tt, put_file name (old ++ concat chunks) w).
Proof.
  revert old. induction chunks as [|chunk chunks IH]; intros old.
  - simpl. rewrite app_nil_r. reflexivity.
  - cbn [TestPy.write_chunks]. rewrite bind_run.
    unfold append_file. simpl files. rewrite lookup_insert_eq. simpl dict_get.
    rewrite put_file_twice, IH. simpl. rewrite <- app_assoc. reflexivity.
Qed.

(** X17. The first version writes before it reports.  Once the confirming
    fetch came back without a 4xx or 5xx status and the file could be
    opened, the target file holds exactly the chunks the stream delivered,
    whatever [download_icon] then returns: [True] only when the stream
    ended without an exception and reading [resp.content] afterwards
    succeeded, [False] otherwise, with the written file left in place.  A
    later run finds the file and skips the task, so a truncated file is
    never fetched again. *)
Theorem testpy_download_writes_before_it_reports
    (t : IconInfo) (w w1 : World) (icon_url : string) (resp : Response) :
  path_exists (filename t) w = false ->
  TestPy.resolve_favicon_url (url t) w = (Ok (Some icon_url), w1) ->
  icon_url <> EmptyString ->
  respond (requests w1) icon_url = Ok resp ->
  TestPy.ok resp = true ->
  open_wb (filename t) = true ->
  TestPy.download_icon t w =
    (Ok (match snd (iter_content resp 1024), content_after_stream resp with
         | None, Ok _ => true
         | _, _ => false
         end),
     put_file (filename t) (concat (fst (iter_content resp 1024)))
       (add_request icon_url w1)) /\
  TestPy.download_icon t
    (put_file (filename t) (concat (fst (iter_content resp 1024)))
       (add_request icon_url w1)) =
    (Ok true,
     put_file (filename t) (concat (fst (iter_content resp 1024)))
       (add_request icon_url w1)).
Proof.
  intros Hex Hres Hne Hresp Hok Hopen. split.
  - unfold TestPy.download_icon. rewrite Hex.
    assert (Hbody : TestPy.download_icon_body (url t) (filename t) w =
      (match snd (iter_content resp 1024), content_after_stream resp with
       | None, Ok _ => Ok true
       | Some e, _ => Raise e
       | None, Raise e => Raise e
       end,
       put_file (filename t) (concat (fst (iter_content resp 1024)))
         (add_request icon_url w1))).
    { unfold TestPy.download_icon_body. rewrite bind_run, Hres.
      rewrite (truthy_Some icon_url Hne). cbn [negb dict_get].
      rewrite bind_run, session_get_run, Hresp.
      unfold TestPy.raise_for_status. rewrite Hok.
      rewrite bind_run. cbn [mret prog_ret].
      rewrite bind_run. unfold TestPy.open_file. rewrite Hopen.
      rewrite bind_run, write_chunks_run. cbn [app].
      destruct (snd (iter_content resp 1024)) as [e|].
      - reflexivity.
      - rewrite bind_run. cbn [mret prog_ret]. rewrite bind_run. unfold lift.
        destruct (content_after_stream resp); reflexivity. }
    unfold try_except. rewrite Hbody.
    destruct (snd (iter_content resp 1024)) as [e|].
    + unfold except_all_False. destruct (is_RequestError e); reflexivity.
    + destruct (content_after_stream resp) as [b|e]; [reflexivity|].
      unfold except_all_False. destruct (is_RequestError e); reflexivity.
  - unfold TestPy.download_icon, path_exists. simpl files.
    rewrite lookup_insert_eq. reflexivity.
Qed.

End TestPyDownload.

Lemma testpy_download_writes_before_it_reports_witness :
  TestPy.download_icon (urllib := Model.urllib) (httpx := Web.httpx) (bs4 := Web.bs4)
    (outdir := Model.flat_dir) (stream := StreamModel.whole)
    (Web.task "https://example.com/page" "example.com") Web.world0 =
  (Ok false,
   put_file "example.com.ico" (content Web.ico_response)
     (add_request "https://example.com/favicon.ico"
        (add_request "https://example.com/favicon.ico" Web.world0))).
Proof.
  refine (proj1 (@testpy_download_writes_before_it_reports Model.urllib Web.httpx Web.bs4
                   Model.flat_dir StreamModel.whole
                   (Web.task "https://example.com/page" "example.com") Web.world0
                   (add_request "https://example.com/favicon.ico" Web.world0)
                   "https://example.com/favicon.ico" Web.ico_response
                   eq_refl eq_refl _ eq_refl eq_refl eq_refl)).
  discriminate.
Defined.

(** ** A task on a file system that fails *)

Section FailedWrite.
Context {urllib : UrllibParse} {httpx : Httpx} {bs4 : Bs4}
        {pillow : Pillow} {outdir : OutputDir} {fs : FileSystem}.

(** X6. What [download_icon] returns, and what it leaves.  An exception
    leaves it only from [filepath.exists()], before anything was done.
    Once the path was examined it returns a Boolean: after [True] the
    target file exists; after [False] the output directory is as it was,
    or the write failed and the target file holds what the write left. *)
Theorem download_icon_outcome (t : IconInfo) (w : World) :
  (forall e, stat_error (filename t) = Some e -> Fs.download_icon t w = (Raise e, w)) /\
  (stat_error (filename t) = None ->
   (fst (Fs.download_icon t w) = Ok true /\
    path_exists (filename t) (snd (Fs.download_icon t w)) = true) \/
   (fst (Fs.download_icon t w) = Ok false /\
    (files (snd (Fs.download_icon t w)) = files w \/
     exists data written e,
       write_error (filename t) data = Some (written, e) /\
       files (snd (Fs.download_icon t w)) = <[filename t := written]> (files w)))).
Proof.
  split; [intros e He; apply fs_download_icon_raises; exact He|].
  intros Hs. unfold Fs.download_icon, mbind, prog_bind, Fs.filepath_exists.
  rewrite Hs. destruct (path_exists (filename t) w) eqn:Hex.
  { left. split; [reflexivity | exact Hex]. }
  unfold try_except. rewrite fs_download_icon_body_run.
  pose proof (keeps_files_resolve_favicon_url (url t) w) as Hk.
  assert (Hfalse : forall e w', files w' = files w ->
            let r := match except_all_False e with
                     | Some k => k w'
                     | None => (Raise e, w')
                     end in
            fst r = Ok false /\ files (snd r) = files w).
  { intros e w' Hw'. unfold except_all_False.
    destruct (is_RequestError e); simpl; auto. }
  destruct (resolve_favicon_url (url t) w) as [[o|e] w1]; simpl in Hk.
  2:{ right. destruct (Hfalse e w1 Hk) as [H1 H2]. auto. }
  destruct (Py.truthy o); [|right; auto].
  destruct (respond (requests w1) (dict_get o "")) as [resp|e].
  2:{ right. destruct (Hfalse e (add_request (dict_get o "") w1) Hk) as [H1 H2]. auto. }
  destruct (persist_files (filename t) resp (add_request (dict_get o "") w1))
    as [[Hne Hw] | Heq].
  - right.
    destruct (persist (filename t) resp (add_request (dict_get o "") w1))
      as [[[]|e] w3]; simpl in Hne, Hw; subst w3.
    + contradiction.
    + auto.
    + destruct (Hfalse e (add_request (dict_get o "") w1) Hk) as [H1 H2]. auto.
  - rewrite Heq.
    destruct (write_error (filename t) (bytes_to_write resp)) as [[written e]|] eqn:Hwe.
    + right. unfold except_all_False.
      assert (Hr : (if is_RequestError e then Some (mret false) else Some (mret false)) =
                   Some (mret false : prog bool)) by (destruct (is_RequestError e); reflexivity).
      rewrite Hr. split; [reflexivity|]. right.
      exists (bytes_to_write resp), written, e. split; [exact Hwe|].
      simpl. rewrite Hk. reflexivity.
    + left. split; [reflexivity|]. unfold path_exists. simpl.
      rewrite lookup_insert_eq. reflexivity.
Qed.

(** X18. A write that fails leaves its file behind.  For a task whose
    path can be examined and whose file is not there, with a confirmed
    response, bytes to write and a file that could be opened: when the
    write raises, [download_icon] returns [False] and the target file
    exists, holding what the write left of the bytes; called again in
    that world, [download_icon] finds the file, makes no request and
    returns [True], so the cut file is never fetched again. *)
Theorem failed_write_leaves_file (t : IconInfo) (w w1 : World) (icon_url : string)
    (resp : Response) (written : list Byte.byte) (e : exn) :
  stat_error (filename t) = None ->
  path_exists (filename t) w = false ->
  resolve_favicon_url (url t) w = (Ok (Some icon_url), w1) ->
  icon_url <> EmptyString ->
  respond (requests w1) icon_url = Ok resp ->
  is_success resp = true ->
  (Py.any_in PNG_CONTENT_TYPES (dict_get (Content_Type resp) "") = true ->
   convert_png_to_ico (content resp) <> []) ->
  open_wb (filename t) = true ->
  write_error (filename t) (bytes_to_write resp) = Some (written, e) ->
  Fs.download_icon t w =
    (Ok false, put_file (filename t) written (add_request icon_url w1)) /\
  files (put_file (filename t) written (add_request icon_url w1)) !! filename t =
    Some written /\
  Fs.download_icon t (put_file (filename t) written (add_request icon_url w1)) =
    (Ok true, put_file (filename t) written (add_request icon_url w1)).
Proof.
  intros Hs Hex Hres Hne Hresp Hok Hdata Hopen Hwrite.
  split; [|split].
  - unfold Fs.download_icon, mbind, prog_bind, Fs.filepath_exists.
    rewrite Hs, Hex. unfold try_except.
    rewrite fs_download_icon_body_run, Hres, (truthy_Some icon_url Hne).
    cbn [dict_get]. rewrite Hresp.
    assert (Hp : persist (filename t) resp (add_request icon_url w1) =
                 (Ok true, put_file (filename t) (bytes_to_write resp)
                             (add_request icon_url w1))).
    { unfold persist. rewrite Hok, Hopen.
      destruct (Py.any_in PNG_CONTENT_TYPES (dict_get (Content_Type resp) "")) eqn:Hpng;
        [|reflexivity].
      rewrite (truthy_bytes_nonempty _ (Hdata eq_refl)). reflexivity. }
    rewrite Hp, Hwrite. unfold except_all_False.
    destruct (is_RequestError e); reflexivity.
  - simpl. apply lookup_insert_eq.
  - unfold Fs.download_icon, mbind, prog_bind, Fs.filepath_exists, path_exists.
    rewrite Hs.
    assert (Hl : files (put_file (filename t) written (add_request icon_url w1))
                   !! filename t = Some written) by (simpl; apply lookup_insert_eq).
    rewrite Hl. reflexivity.
Qed.

End FailedWrite.

Lemma failed_write_leaves_file_witness :
  Fs.download_icon (urllib := Model.urllib) (httpx := Web.httpx) (bs4 := Web.bs4)
    (pillow := Web.pillow) (outdir := Model.flat_dir) (fs := Model.full_disk)
    (Web.task "https://example.com/page" "example.com") Web.world0 =
  (Ok false,
   put_file "example.com.ico" []
     (add_request "https://example.com/favicon.ico"
        (add_request "https://example.com/favicon.ico" Web.world0))) /\
  Fs.download_icon (urllib := Model.urllib) (httpx := Web.httpx) (bs4 := Web.bs4)
    (pillow := Web.pillow) (outdir := Model.flat_dir) (fs := Model.full_disk)
    (Web.task "https://example.com/page" "example.com")
    (put_file "example.com.ico" []
       (add_request "https://example.com/favicon.ico"
          (add_request "https://example.com/favicon.ico" Web.world0))) =
  (Ok true,
   put_file "example.com.ico" []
     (add_request "https://example.com/favicon.ico"
        (add_request "https://example.com/favicon.ico" Web.world0))).
Proof.
  refine ((fun H => conj (proj1 H) (proj2 (proj2 H)))
            (@failed_write_leaves_file Model.urllib Web.httpx Web.bs4
               Web.pillow Model.flat_dir Model.full_disk
               (Web.task "https://example.com/page" "example.com") Web.world0
               (add_request "https://example.com/favicon.ico" Web.world0)
               "https://example.com/favicon.ico" Web.ico_response [] OSError
               eq_refl eq_refl eq_refl _ eq_refl eq_refl _ eq_refl eq_refl)).
  - discriminate.
  - intros Hpng. vm_compute in Hpng. discriminate Hpng.
Defined.
